(** * Entity subscriptions of [sentry.snuba.entity_subscription]

    A shallow embedding of the routing and result-normalisation code of
    [src/sentry/snuba/entity_subscription.py], and the properties of it
    that the specification states.

    Python values are embedded as follows: [int] is [Z], [float] is a
    binary64 primitive float, [str] is [string], a [dict] keyed by strings
    is a [gmap string _], and a Python list of dictionaries is a list of
    references into a store of dictionaries, since the code updates a row
    in place.  Exceptions are the [Raise] case of [result]. *)

From Stdlib Require Import ZArith String Ascii List Floats Lia.
From stdpp Require Import gmap strings list.

Import ListNotations.
Local Open Scope string_scope.
Local Open Scope Z_scope.

(** ** Exceptions and results *)

(** The exception classes the module raises or lets through.  Only the
    class is kept, not the message. *)
Inductive exn : Set :=
  | InvalidQuerySubscription
  | UnsupportedQuerySubscription
  | MetricIndexNotFound
  | AssertionError
  | KeyError
  | IndexError
  | TypeError
  | OverflowError
  | ZeroDivisionError
  | DanglingReference.
  (* [DanglingReference] is no Python exception: it marks the use of a
     reference that is not in the store, which no Python program holds. *)

Inductive result (A : Type) : Type :=
  | Ok (a : A)
  | Raise (e : exn).

Arguments Ok {A} a.
Arguments Raise {A} e.

Definition rbind {A B} (r : result A) (f : A -> result B) : result B :=
  match r with
  | Ok a => f a
  | Raise e => Raise e
  end.

(** ** Python values held by result rows *)

Inductive value : Type :=
  | PyNone
  | PyInt (z : Z)
  | PyFloat (f : float)
  | PyStr (s : string).

(** [v is None] *)
Definition is_none (v : value) : bool :=
  match v with
  | PyNone => true
  | _ => false
  end.

(** The truth value of an optional string: [None] and the empty string
    are false. *)
Definition str_truthy (o : option string) : bool :=
  match o with
  | Some (String _ _) => true
  | _ => false
  end.

Module PyNum.

(** [float(z)] for an [int]: the nearest binary64 value, ties to even;
    [OverflowError] when it is out of range. *)
Definition float_of_int (z : Z) : result float :=
  match binary_normalize prec emax z 0 false with
  | S754_infinity _ => Raise OverflowError
  | sf => Ok (SF2Prim sf)
  end.

(** The binary64 value nearest to the rational [(-1)^s * n / d], for
    [n] and [d] positive, ties to even. *)
Definition ratio_to_sf (s : bool) (n d : positive) : spec_float :=
  SFdiv prec emax (S754_finite s n 0) (S754_finite false d 0).

(** [a / b] on two [int]s: the correctly rounded quotient. *)
Definition int_truediv (a b : Z) : result value :=
  match b with
  | Z0 => Raise ZeroDivisionError
  | _ =>
      match a with
      | Z0 => Ok (PyFloat (if b <? 0 then (-0)%float else 0%float))
      | _ =>
          match ratio_to_sf (xorb (a <? 0) (b <? 0))
                            (Z.to_pos (Z.abs a)) (Z.to_pos (Z.abs b)) with
          | S754_infinity _ => Raise OverflowError
          | sf => Ok (PyFloat (SF2Prim sf))
          end
      end
  end.

Definition float_truediv (a b : float) : result value :=
  if PrimFloat.eqb b 0%float then Raise ZeroDivisionError
  else Ok (PyFloat (a / b)%float).

(** [a / b] *)
Definition truediv (a b : value) : result value :=
  match a, b with
  | PyInt x, PyInt y => int_truediv x y
  | PyInt x, PyFloat y => rbind (float_of_int x) (fun x' => float_truediv x' y)
  | PyFloat x, PyInt y => rbind (float_of_int y) (fun y' => float_truediv x y')
  | PyFloat x, PyFloat y => float_truediv x y
  | _, _ => Raise TypeError
  end.

(** [a - b] *)
Definition sub (a b : value) : result value :=
  match a, b with
  | PyInt x, PyInt y => Ok (PyInt (x - y))
  | PyInt x, PyFloat y => rbind (float_of_int x) (fun x' => Ok (PyFloat (x' - y)%float))
  | PyFloat x, PyInt y => rbind (float_of_int y) (fun y' => Ok (PyFloat (x - y')%float))
  | PyFloat x, PyFloat y => Ok (PyFloat (x - y)%float)
  | _, _ => Raise TypeError
  end.

(** [a * b] for a numeric left operand and a numeric right operand (the
    code multiplies a difference, which is a number, by the literal
    [100]). *)
Definition mul (a b : value) : result value :=
  match a, b with
  | PyInt x, PyInt y => Ok (PyInt (x * y))
  | PyInt x, PyFloat y => rbind (float_of_int x) (fun x' => Ok (PyFloat (x' * y)%float))
  | PyFloat x, PyInt y => rbind (float_of_int y) (fun y' => Ok (PyFloat (x * y')%float))
  | PyFloat x, PyFloat y => Ok (PyFloat (x * y)%float)
  | _, _ => Raise TypeError
  end.

(** Nearest integer to [n / d] for [n >= 0] and [d > 0], ties to even. *)
Definition round_half_even (n d : Z) : Z :=
  let q := n / d in
  let r := n mod d in
  match (2 * r) ?= d with
  | Lt => q
  | Gt => q + 1
  | Eq => if Z.even q then q else q + 1
  end.

(** [round(x, ndigits)] on a [float], for [ndigits >= 0]: the exact
    binary value of [x] is rounded to [ndigits] decimal places, ties to
    even, and the decimal obtained is converted back to the nearest
    binary64 value; the sign of [x] is kept; infinities and NaN round to
    themselves. *)
Definition double_round (x : float) (ndigits : Z) : float :=
  match Prim2SF x with
  | S754_finite s m e =>
      let scale := 10 ^ ndigits in
      let k :=
        match e with
        | Zneg p => round_half_even (Zpos m * scale) (2 ^ Zpos p)
        | _ => Zpos m * 2 ^ e * scale
        end in
      match k with
      | Zpos k' => SF2Prim (ratio_to_sf s k' (Z.to_pos scale))
      | _ => SF2Prim (S754_zero s)
      end
  | _ => x
  end.

(** [round(v, ndigits)] for [ndigits >= 0]: an [int] is returned as it
    is. *)
Definition round (v : value) (ndigits : Z) : result value :=
  match v with
  | PyInt z => Ok (PyInt z)
  | PyFloat f => Ok (PyFloat (double_round f ndigits))
  | _ => Raise TypeError
  end.

(** [v == 0] *)
Definition eq_zero (v : value) : bool :=
  match v with
  | PyInt z => z =? 0
  | PyFloat f => PrimFloat.eqb f 0%float
  | _ => false
  end.

Definition is_number (v : value) : bool :=
  match v with
  | PyInt _ | PyFloat _ => true
  | _ => false
  end.

End PyNum.

(** [round((1 - crash_count / total_count) * 100, 3)] *)
Definition crash_free_rate (crash_count total_count : value) : result value :=
  rbind (PyNum.truediv crash_count total_count) (fun q =>
  rbind (PyNum.sub (PyInt 1) q) (fun d =>
  rbind (PyNum.mul d (PyInt 100)) (fun p =>
  PyNum.round p 3))).

(** [round((1 - v) * 100, 3)] *)
Definition crash_free_of_rate (v : value) : result value :=
  rbind (PyNum.sub (PyInt 1) v) (fun d =>
  rbind (PyNum.mul d (PyInt 100)) (fun p =>
  PyNum.round p 3)).

(** ** Regular expressions

    The fragment of Python's [re] that the module uses: literals, a
    greedy starred one-character class, alternation, capturing groups and
    the start anchor, matched by backtracking as [re] does: the first
    alternative that lets the rest of the pattern match wins, and a star
    takes as many characters as the rest of the pattern allows. *)
Module Re.

Inductive regex : Set :=
  | Bol                            (* ^ *)
  | Lit (s : string)               (* literal text *)
  | StarChar (c : ascii)           (* [c]* *)
  | Alt (r1 r2 : regex)            (* r1|r2 *)
  | Seq (r1 r2 : regex)            (* r1r2 *)
  | Group (i : nat) (r : regex).   (* (r), the i-th group *)

(** A match object: the span matched, its text and the text of each
    group. *)
Record Match : Set := {
  m_start : nat;
  m_end : nat;
  m_text : string;
  m_groups : list (nat * string)
}.

Fixpoint strip_prefix (p s : string) : option string :=
  match p, s with
  | EmptyString, _ => Some s
  | String a p', String b s' => if Ascii.eqb a b then strip_prefix p' s' else None
  | String _ _, EmptyString => None
  end.

(** The text between two positions of the subject, given as the text
    from the first position on and the text from the second on. *)
Definition consumed (rest rest' : string) : string :=
  substring 0 (String.length rest - String.length rest') rest.

Fixpoint lookup_group (i : nat) (gs : list (nat * string)) : option string :=
  match gs with
  | [] => None
  | (j, s) :: gs' => if Nat.eqb i j then Some s else lookup_group i gs'
  end.

(** [m.group()] *)
Definition group0 (m : Match) : string := m_text m.

(** [m.group(i)] for [i >= 1]; [None] for a group that took no part in
    the match. *)
Definition group (m : Match) (i : nat) : option string :=
  lookup_group i (m_groups m).

Section Run.
Context {R : Type}.

(** [[c]*] at position [pos], where [rest] is the text from [pos] on:
    the longest run first, then shorter ones. *)
Fixpoint star_greedy (c : ascii) (pos : nat) (rest : string)
    (k : nat -> string -> option R) : option R :=
  match rest with
  | String a rest' =>
      if Ascii.eqb a c then
        match star_greedy c (S pos) rest' k with
        | Some r => Some r
        | None => k pos rest
        end
      else k pos rest
  | EmptyString => k pos rest
  end.

Fixpoint run (r : regex) (pos : nat) (rest : string) (gs : list (nat * string))
    (k : nat -> string -> list (nat * string) -> option R) : option R :=
  match r with
  | Bol => if Nat.eqb pos 0 then k pos rest gs else None
  | Lit t =>
      match strip_prefix t rest with
      | Some rest' => k (pos + String.length t)%nat rest' gs
      | None => None
      end
  | StarChar c => star_greedy c pos rest (fun pos' rest' => k pos' rest' gs)
  | Alt r1 r2 =>
      match run r1 pos rest gs k with
      | Some x => Some x
      | None => run r2 pos rest gs k
      end
  | Seq r1 r2 =>
      run r1 pos rest gs (fun pos' rest' gs' => run r2 pos' rest' gs' k)
  | Group i r' =>
      run r' pos rest gs (fun pos' rest' gs' =>
        k pos' rest' ((i, consumed rest rest') :: gs'))
  end.
End Run.

(** The match of [r] that starts at [pos], if there is one; [rest] is
    the text from [pos] on. *)
Definition match_at (r : regex) (pos : nat) (rest : string) : option Match :=
  run r pos rest [] (fun pos' rest' gs =>
    Some {| m_start := pos; m_end := pos'; m_text := consumed rest rest';
            m_groups := gs |}).

(** [re.match(r, s)] *)
Definition re_match (r : regex) (s : string) : option Match :=
  match_at r 0 s.

Fixpoint search_from (r : regex) (pos : nat) (rest : string) : option Match :=
  match match_at r pos rest with
  | Some m => Some m
  | None =>
      match rest with
      | String _ rest' => search_from r (S pos) rest'
      | EmptyString => None
      end
  end.

(** [re.search(r, s)]: the match at the leftmost position that has one. *)
Definition re_search (r : regex) (s : string) : option Match :=
  search_from r 0 s.

End Re.

Infix ">>" := Re.Seq (at level 60, right associativity).

(** ** Datasets and entities *)

(** Modelled from the spec: the members of [QueryDatasets], declared in
    [sentry.snuba.models], are those the spec lists for Dataset. *)
Module QueryDatasets.
Inductive t : Set := EVENTS | TRANSACTIONS | SESSIONS | METRICS.

#[global] Instance dataset_eq_dec : EqDecision t.
Proof. solve_decision. Defined.
End QueryDatasets.

(** The members of [EntityKey] that the module names. *)
Module EntityKey.
Inductive t : Set := Events | Sessions | Transactions | MetricsCounters | MetricsSets.

#[global] Instance entity_key_eq_dec : EqDecision t.
Proof. solve_decision. Defined.
End EntityKey.

Definition DATASET_CONDITIONS (dataset : QueryDatasets.t) : option string :=
  match dataset with
  | QueryDatasets.EVENTS => Some "event.type:error"
  | QueryDatasets.TRANSACTIONS => Some "event.type:transaction"
  | _ => None
  end.

Definition ENTITY_TIME_COLUMNS (k : EntityKey.t) : string :=
  match k with
  | EntityKey.Events => "timestamp"
  | EntityKey.Sessions => "started"
  | EntityKey.Transactions => "finish_ts"
  | EntityKey.MetricsCounters => "timestamp"
  | EntityKey.MetricsSets => "timestamp"
  end.

(** [^percentage\([ ]*(sessions_crashed|users_crashed)[ ]*\,[ ]*(sessions|users)[ ]*\)] *)
Definition CRASH_RATE_ALERT_AGGREGATE_RE : Re.regex :=
  Re.Bol >> Re.Lit "percentage(" >> Re.StarChar " "
    >> Re.Group 1 (Re.Alt (Re.Lit "sessions_crashed") (Re.Lit "users_crashed"))
    >> Re.StarChar " " >> Re.Lit "," >> Re.StarChar " "
    >> Re.Group 2 (Re.Alt (Re.Lit "sessions") (Re.Lit "users"))
    >> Re.StarChar " " >> Re.Lit ")".

Definition ALERT_BLOCKED_FIELDS : list string :=
  ["start"; "end"; "last_seen()"; "time"; "timestamp"; "timestamp.to_hour";
   "timestamp.to_day"].

Definition map_aggregate_to_entity_key (dataset : QueryDatasets.t) (aggregate : string)
    : result EntityKey.t :=
  match dataset with
  | QueryDatasets.EVENTS => Ok EntityKey.Events
  | QueryDatasets.TRANSACTIONS => Ok EntityKey.Transactions
  | QueryDatasets.METRICS | QueryDatasets.SESSIONS =>
      match Re.re_match CRASH_RATE_ALERT_AGGREGATE_RE aggregate with
      | None => Raise UnsupportedQuerySubscription
      | Some m =>
          match dataset with
          | QueryDatasets.METRICS =>
              let count_col_matched := Re.group m 2 in
              if decide (count_col_matched = Some "sessions")
              then Ok EntityKey.MetricsCounters
              else Ok EntityKey.MetricsSets
          | _ => Ok EntityKey.Sessions
          end
      end
  end.

(** ** The dataset condition policy *)

(** An event type as [apply_dataset_query_conditions] sees it: an enum
    member, of which only [name] is read.  The enum is declared in
    [sentry.snuba.models]. *)
Module SnubaQueryEventType.
Record t : Set := { name : string }.
End SnubaQueryEventType.

(** [str.lower()] on ASCII text. *)
Definition lower_ascii (c : ascii) : ascii :=
  let n := nat_of_ascii c in
  if (65 <=? n)%nat && (n <=? 90)%nat then ascii_of_nat (n + 32) else c.

Fixpoint lower (s : string) : string :=
  match s with
  | EmptyString => EmptyString
  | String c s' => String (lower_ascii c) (lower s')
  end.

(** The truth value of a [str]. *)
Definition nonempty (s : string) : bool :=
  match s with
  | EmptyString => false
  | String _ _ => true
  end.

Definition apply_dataset_query_conditions
    (dataset : QueryDatasets.t) (query : string)
    (event_types : option (list SnubaQueryEventType.t)) (discover : bool) : string :=
  if negb discover && bool_decide (dataset = QueryDatasets.TRANSACTIONS) then query
  else
    let conditions :=
      match event_types with
      | Some ((_ :: _) as ets) =>
          Some (String.concat " OR "
                  (map (fun event_type =>
                          "event.type:" ++ lower (SnubaQueryEventType.name event_type))
                       ets))
      | _ => DATASET_CONDITIONS dataset
      end in
    match conditions with
    | None => query
    | Some event_type_conditions =>
        if nonempty query
        then "(" ++ event_type_conditions ++ ") AND (" ++ query ++ ")"
        else event_type_conditions
    end.

(** ** Collaborators

    What the module imports and this development takes as given: the two
    column-name constants of [sentry.constants], and the tag resolver of
    [sentry.sentry_metrics.utils], a lookup between tag strings and integer
    indices: [tag_key_column org_id name] is the column of a tag key that
    is indexed, and [reverse_resolve_tag_value index] is the string of an
    index, or [None]. *)
Class Collaborators : Type := {
  CRASH_RATE_ALERT_AGGREGATE_ALIAS : string;
  CRASH_RATE_ALERT_SESSION_COUNT_ALIAS : string;
  tag_key_column : Z -> string -> option string;
  reverse_resolve_tag_value : value -> option string
}.

(** [resolve_tag_key(org_id, name)]: it raises [MetricIndexNotFound] for a
    tag key that is not indexed. *)
Definition resolve_tag_key `{Collaborators} (org_id : Z) (name : string)
    : result string :=
  match tag_key_column org_id name with
  | Some column => Ok column
  | None => Raise MetricIndexNotFound
  end.

(** ** The store: rows shared by reference, and emitted telemetry *)

Definition loc : Set := nat.

(** One call of [metrics.incr]. *)
Record metric_event : Set := {
  ev_key : string;
  ev_tags : list (string * string);
  ev_sample_rate : option float
}.

Definition incr_event (key : string) : metric_event :=
  {| ev_key := key; ev_tags := []; ev_sample_rate := None |}.

Record state : Type := {
  heap : list (gmap string value);
  telemetry : list metric_event
}.

(** A computation reads and updates the store and returns or raises;
    what it did before raising stays done. *)
Definition M (A : Type) : Type := state -> result A * state.

Definition mret {A} (a : A) : M A := fun st => (Ok a, st).

Definition mraise {A} (e : exn) : M A := fun st => (Raise e, st).

Definition mbind {A B} (m : M A) (f : A -> M B) : M B :=
  fun st =>
    match m st with
    | (Ok a, st') => f a st'
    | (Raise e, st') => (Raise e, st')
    end.

Definition lift {A} (r : result A) : M A := fun st => (r, st).

Notation "'let!' x ':=' m 'in' k" := (mbind m (fun x => k))
  (at level 10, x pattern, m at level 100, k at level 200).
Notation "m ';;' k" := (mbind m (fun _ => k))
  (at level 100, k at level 200, right associativity).

(** [metrics.incr(key, tags=tags, sample_rate=sample_rate)] *)
Definition metrics_incr (ev : metric_event) : M unit :=
  fun st => (Ok tt, {| heap := heap st; telemetry := telemetry st ++ [ev] |}).

(** [assert b] *)
Definition assert (b : bool) : M unit :=
  if b then mret tt else mraise AssertionError.

(** The dictionary a reference stands for. *)
Definition deref (l : loc) : M (gmap string value) :=
  fun st =>
    match heap st !! l with
    | Some d => (Ok d, st)
    | None => (Raise DanglingReference, st)
    end.

(** [d[key]] *)
Definition getitem (l : loc) (key : string) : M value :=
  let! d := deref l in
  match d !! key with
  | Some v => mret v
  | None => mraise KeyError
  end.

(** [key in d] *)
Definition contains (l : loc) (key : string) : M bool :=
  let! d := deref l in
  mret (bool_decide (is_Some (d !! key))).

(** [d[key] = v] *)
Definition setitem (l : loc) (key : string) (v : value) : M unit :=
  fun st =>
    match heap st !! l with
    | Some d =>
        (Ok tt, {| heap := <[l := <[key := v]> d]> (heap st);
                   telemetry := telemetry st |})
    | None => (Raise DanglingReference, st)
    end.

(** A dictionary display [{...}]: a new object. *)
Definition new_dict (d : gmap string value) : M loc :=
  fun st =>
    (Ok (length (heap st)),
     {| heap := heap st ++ [d]; telemetry := telemetry st |}).

(** [try: body except MetricIndexNotFound: handler] *)
Definition try_except_MetricIndexNotFound {A} (body handler : M A) : M A :=
  fun st =>
    match body st with
    | (Raise MetricIndexNotFound, st') => handler st'
    | r => r
    end.

(** [alias if alias else default] *)
Definition alias_or (alias : option string) (default : string) : string :=
  match alias with
  | Some a => if nonempty a then a else default
  | None => default
  end.

(** ** Entity subscriptions *)

(** [_EntitySpecificParams]: a dictionary in which each key may be
    missing; [event_types], when present, may hold [None]. *)
Module EntitySpecificParams.
Record t : Set := {
  org_id : option Z;
  event_types : option (option (list SnubaQueryEventType.t))
}.

(** The truth value of [extra_fields]: [None] and the empty dictionary
    are false. *)
Definition truthy (extra_fields : option t) : bool :=
  match extra_fields with
  | None => false
  | Some {| org_id := None; event_types := None |} => false
  | Some _ => true
  end.

(** [not extra_fields or "org_id" not in extra_fields] *)
Definition lacks_org_id (extra_fields : option t) : bool :=
  negb (truthy extra_fields)
  || match extra_fields with
     | Some {| org_id := Some _ |} => false
     | _ => true
     end.
End EntitySpecificParams.

Module SessionMRI.
Inductive t : Set := SESSION | USER.
End SessionMRI.

(** [Environment], of which only [name] is read. *)
Module Environment.
Record t : Set := { name : string }.
End Environment.

(** A value of the [params] mapping handed to a query builder. *)
Inductive param : Type :=
  | ProjectIds (project_ids : list Z)
  | EnvironmentName (name : string)
  | Param (v : value).

(** The arguments a query builder of [sentry.search.events.builder] is
    constructed with; the builder itself is outside the module. *)
Record QueryBuilder : Type := {
  qb_dataset : QueryDatasets.t;
  qb_query : string;
  qb_selected_columns : list string;
  qb_params : gmap string param;
  qb_functions_acl : list string;
  qb_skip_time_conditions : bool;
  qb_blocked_keys : list string
}.

Module BaseEventsAndTransactionEntitySubscription.

(** The two concrete subclasses. *)
Inductive subclass : Set := EventsEntitySubscription | TransactionsEntitySubscription.

Definition dataset (c : subclass) : QueryDatasets.t :=
  match c with
  | EventsEntitySubscription => QueryDatasets.EVENTS
  | TransactionsEntitySubscription => QueryDatasets.TRANSACTIONS
  end.

Definition entity_key (c : subclass) : EntityKey.t :=
  match c with
  | EventsEntitySubscription => EntityKey.Events
  | TransactionsEntitySubscription => EntityKey.Transactions
  end.

Record t : Set := {
  cls : subclass;
  time_col : string;
  aggregate : string;
  event_types : option (list SnubaQueryEventType.t)
}.

Definition __init__ (c : subclass) (aggregate : string) (time_window : Z)
    (extra_fields : option EntitySpecificParams.t) : result t :=
  let time_col := ENTITY_TIME_COLUMNS (entity_key c) in
  let event_types :=
    if EntitySpecificParams.truthy extra_fields then
      match extra_fields with
      | Some {| EntitySpecificParams.event_types := Some v |} => v
      | _ => None
      end
    else None in
  Ok {| cls := c; time_col := time_col; aggregate := aggregate;
        event_types := event_types |}.

Definition aggregate_query_results (self : t) (data : list loc)
    (alias : option string) : M (list loc) :=
  mret data.

(** The arguments [build_query_builder] constructs [QueryBuilder] with;
    [offset] and [limit] are [None]. *)
Record EventsQueryBuilder : Type := {
  eqb_dataset : QueryDatasets.t;
  eqb_query : string;
  eqb_selected_columns : list string;
  eqb_params : gmap string param;
  eqb_skip_time_conditions : bool;
  eqb_blocked_keys : list string
}.

Definition build_query_builder (self : t) (query : string)
    (project_ids : list Z) (environment : option Environment.t)
    (params : option (gmap string param)) : EventsQueryBuilder :=
  let params := match params with Some p => p | None => ∅ end in
  let params := <["project_id" := ProjectIds project_ids]> params in
  let query :=
    apply_dataset_query_conditions (dataset (cls self)) query (event_types self) false in
  let params :=
    match environment with
    | Some env => <["environment" := EnvironmentName (Environment.name env)]> params
    | None => params
    end in
  {| eqb_dataset := dataset (cls self); eqb_query := query;
     eqb_selected_columns := [aggregate self]; eqb_params := params;
     eqb_skip_time_conditions := true;
     eqb_blocked_keys := ALERT_BLOCKED_FIELDS |}.

Definition get_entity_extra_params (self : t) : gmap string value := ∅.

End BaseEventsAndTransactionEntitySubscription.

Module SessionsEntitySubscription.

Definition dataset : QueryDatasets.t := QueryDatasets.SESSIONS.
Definition entity_key : EntityKey.t := EntityKey.Sessions.

Record t : Set := {
  time_col : string;
  aggregate : string;
  org_id : Z
}.

Definition __init__ (aggregate : string) (time_window : Z)
    (extra_fields : option EntitySpecificParams.t) : result t :=
  let time_col := ENTITY_TIME_COLUMNS entity_key in
  if EntitySpecificParams.lacks_org_id extra_fields
  then Raise InvalidQuerySubscription
  else
    match extra_fields with
    | Some {| EntitySpecificParams.org_id := Some org |} =>
        Ok {| time_col := time_col; aggregate := aggregate; org_id := org |}
    | _ => Raise KeyError
    end.

Section Methods.
Context `{Collaborators}.

Definition aggregate_query_results (self : t) (data : list loc)
    (alias : option string) : M (list loc) :=
  assert (length data =? 1)%nat;;
  let col_name := alias_or alias CRASH_RATE_ALERT_AGGREGATE_ALIAS in
  match data with
  | [] => mraise IndexError
  | row :: _ =>
      let! v := getitem row col_name in
      (if negb (is_none v) then
         let! v1 := getitem row col_name in
         let! rounded := lift (crash_free_of_rate v1) in
         setitem row col_name rounded
       else
         metrics_incr (incr_event
           "incidents.entity_subscription.sessions.aggregate_query_results.no_session_data"));;
      mret data
  end.

(** The method up to its last line: [Raise] is the exception it raises
    itself, and [Ok] holds the arguments of the call
    [SessionsQueryBuilder(...)] that it returns.  The constructor is
    outside the module: what it does with these arguments, failing
    included, is not modelled. *)
Definition build_query_builder (self : t) (query : string)
    (project_ids : list Z) (environment : option Environment.t)
    (params : option (gmap string param)) : result QueryBuilder :=
  let aggregations := [aggregate self] in
  let count_col :=
    Re.re_search (Re.Group 1 (Re.Alt (Re.Lit "sessions") (Re.Lit "users")))
                 (aggregate self) in
  match count_col with
  | None => Raise UnsupportedQuerySubscription
  | Some m =>
      let count_col_matched := Re.group0 m in
      let aggregations :=
        (aggregations
         ++ [("identity(" ++ count_col_matched ++ ") AS "
              ++ CRASH_RATE_ALERT_SESSION_COUNT_ALIAS)%string])%list in
      let params := match params with Some p => p | None => ∅ end in
      let params := <["project_id" := ProjectIds project_ids]> params in
      let params :=
        match environment with
        | Some env => <["environment" := EnvironmentName (Environment.name env)]> params
        | None => params
        end in
      Ok {| qb_dataset := dataset; qb_query := query;
            qb_selected_columns := aggregations; qb_params := params;
            qb_functions_acl := ["identity"];
            qb_skip_time_conditions := true;
            qb_blocked_keys := ALERT_BLOCKED_FIELDS |}
  end.
End Methods.

Definition get_entity_extra_params (self : t) : gmap string value :=
  {[ "organization" := PyInt (org_id self) ]}.

End SessionsEntitySubscription.

Module BaseMetricsEntitySubscription.

(** The two concrete subclasses. *)
Inductive subclass : Set :=
  MetricsCountersEntitySubscription | MetricsSetsEntitySubscription.

Definition dataset : QueryDatasets.t := QueryDatasets.METRICS.

Definition entity_key (c : subclass) : EntityKey.t :=
  match c with
  | MetricsCountersEntitySubscription => EntityKey.MetricsCounters
  | MetricsSetsEntitySubscription => EntityKey.MetricsSets
  end.

Definition metric_key (c : subclass) : SessionMRI.t :=
  match c with
  | MetricsCountersEntitySubscription => SessionMRI.SESSION
  | MetricsSetsEntitySubscription => SessionMRI.USER
  end.

Record t : Set := {
  cls : subclass;
  time_col : string;
  aggregate : string;
  org_id : Z;
  session_status : string;
  time_window : Z
}.

Definition get_granularity (self : t) : Z :=
  if time_window self <=? 3600 then 10
  else if time_window self <=? 4 * 3600 then 60
  else if (4 * 3600 <? time_window self) && (time_window self <=? 24 * 3600) then 3600
  else 24 * 3600.

Definition get_snql_aggregations (self : t) : list string :=
  match cls self with
  | MetricsCountersEntitySubscription =>
      ["sumIf(session.status, init) as count";
       "sumIf(session.status, crashed) as crashed"]
  | MetricsSetsEntitySubscription =>
      ["uniq() as count"; "uniqIf(session.status, crashed) as crashed"]
  end.

Section Methods.
Context `{Collaborators}.

Definition __init__ (c : subclass) (aggregate : string) (time_window : Z)
    (extra_fields : option EntitySpecificParams.t) : result t :=
  let time_col := ENTITY_TIME_COLUMNS (entity_key c) in
  if EntitySpecificParams.lacks_org_id extra_fields
  then Raise InvalidQuerySubscription
  else
    match extra_fields with
    | Some {| EntitySpecificParams.org_id := Some org |} =>
        rbind (resolve_tag_key org "session.status") (fun status =>
        Ok {| cls := c; time_col := time_col; aggregate := aggregate;
              org_id := org; session_status := status;
              time_window := time_window |})
    | _ => Raise KeyError
    end.

(** The loop of [translate_sessions_tag_keys_and_values]; the
    dictionary [translated_data] is local to the call. *)
Fixpoint translate_rows (session_status value_col_name : string)
    (data : list loc) (translated_data : gmap string value)
    : M (gmap string value) :=
  match data with
  | [] => mret translated_data
  | row :: data' =>
      let! tag_index := getitem row session_status in
      let tag_value := reverse_resolve_tag_value tag_index in
      match tag_value with
      | Some (String _ _ as label) =>
          let! v := getitem row value_col_name in
          translate_rows session_status value_col_name data'
                         (<[label := v]> translated_data)
      | _ => mraise MetricIndexNotFound
      end
  end.

Definition translate_sessions_tag_keys_and_values (data : list loc)
    (org_id : Z) (alias : option string) : M (value * value) :=
  let value_col_name := alias_or alias "value" in
  try_except_MetricIndexNotFound
    (let! session_status := lift (resolve_tag_key org_id "session.status") in
     let! translated_data := translate_rows session_status value_col_name data ∅ in
     let total_session_count := default (PyInt 0) (translated_data !! "init") in
     let crash_count := default (PyInt 0) (translated_data !! "crashed") in
     mret (total_session_count, crash_count))
    (metrics_incr (incr_event "incidents.entity_subscription.metric_index_not_found");;
     mret (PyInt 0, PyInt 0)).

Definition is_crash_rate_format_v2 (data : list loc) : M bool :=
  match data with
  | [] => mret false
  | row :: _ => contains row "crashed"
  end.

(** The tail that both formats share: the rate from the two counts,
    and the one-row result. *)
Definition crash_free_result (total_count crash_count : value)
    (alias : option string) : M (list loc) :=
  let! rate :=
    if PyNum.eq_zero total_count then
      metrics_incr (incr_event
        "incidents.entity_subscription.metrics.aggregate_query_results.no_session_data");;
      mret PyNone
    else lift (crash_free_rate crash_count total_count) in
  let col_name := alias_or alias CRASH_RATE_ALERT_AGGREGATE_ALIAS in
  let! row := new_dict {[ col_name := rate ]} in
  mret [row].

Definition _aggregate_query_results_v1 (self : t) (data : list loc)
    (alias : option string) : M (list loc) :=
  let! counts := translate_sessions_tag_keys_and_values data (org_id self) alias in
  let '(total_session_count, crash_count) := counts in
  crash_free_result total_session_count crash_count alias.

Definition _aggregate_query_results_v2 (self : t) (data : list loc)
    (alias : option string) : M (list loc) :=
  let! counts :=
    match data with
    | [] => mret (PyInt 0, PyInt 0)
    | row :: _ =>
        assert (length data =? 1)%nat;;
        let! total_count := getitem row "count" in
        let! crash_count := getitem row "crashed" in
        mret (total_count, crash_count)
    end in
  let '(total_count, crash_count) := counts in
  crash_free_result total_count crash_count alias.

Definition aggregate_query_results (self : t) (data : list loc)
    (alias : option string) : M (list loc) :=
  let! v2 := is_crash_rate_format_v2 data in
  let version := if v2 : bool then "v2" else "v1" in
  let! result :=
    if v2 : bool then _aggregate_query_results_v2 self data alias
    else _aggregate_query_results_v1 self data alias in
  metrics_incr {| ev_key := "incidents.entity_subscription.aggregate_query_results";
                  ev_tags := [("format", version)];
                  ev_sample_rate := Some 1%float |};;
  mret result.
End Methods.

Definition get_entity_extra_params (self : t) : gmap string value :=
  {[ "organization" := PyInt (org_id self);
     "granularity" := PyInt (get_granularity self) ]}.

End BaseMetricsEntitySubscription.

(** An instance of one of the five classes. *)
Inductive EntitySubscription : Set :=
  | EventsOrTransactions (self : BaseEventsAndTransactionEntitySubscription.t)
  | Sessions (self : SessionsEntitySubscription.t)
  | Metrics (self : BaseMetricsEntitySubscription.t).

Section Dispatch.
Context `{Collaborators}.

(** The class an entity key stands for, as the call of its constructor. *)
Definition ENTITY_KEY_TO_ENTITY_SUBSCRIPTION (k : EntityKey.t)
    (aggregate : string) (time_window : Z)
    (extra_fields : option EntitySpecificParams.t) : result EntitySubscription :=
  match k with
  | EntityKey.Events =>
      rbind (BaseEventsAndTransactionEntitySubscription.__init__
               BaseEventsAndTransactionEntitySubscription.EventsEntitySubscription
               aggregate time_window extra_fields)
            (fun self => Ok (EventsOrTransactions self))
  | EntityKey.Transactions =>
      rbind (BaseEventsAndTransactionEntitySubscription.__init__
               BaseEventsAndTransactionEntitySubscription.TransactionsEntitySubscription
               aggregate time_window extra_fields)
            (fun self => Ok (EventsOrTransactions self))
  | EntityKey.Sessions =>
      rbind (SessionsEntitySubscription.__init__ aggregate time_window extra_fields)
            (fun self => Ok (Sessions self))
  | EntityKey.MetricsCounters =>
      rbind (BaseMetricsEntitySubscription.__init__
               BaseMetricsEntitySubscription.MetricsCountersEntitySubscription
               aggregate time_window extra_fields)
            (fun self => Ok (Metrics self))
  | EntityKey.MetricsSets =>
      rbind (BaseMetricsEntitySubscription.__init__
               BaseMetricsEntitySubscription.MetricsSetsEntitySubscription
               aggregate time_window extra_fields)
            (fun self => Ok (Metrics self))
  end.

Definition get_entity_subscription_for_dataset (dataset : QueryDatasets.t)
    (aggregate : string) (time_window : Z)
    (extra_fields : option EntitySpecificParams.t) : result EntitySubscription :=
  rbind (map_aggregate_to_entity_key dataset aggregate) (fun entity_key =>
  ENTITY_KEY_TO_ENTITY_SUBSCRIPTION entity_key aggregate time_window extra_fields).

(** The method [aggregate_query_results], by the class of [self]. *)
Definition aggregate_query_results (self : EntitySubscription)
    (data : list loc) (alias : option string) : M (list loc) :=
  match self with
  | EventsOrTransactions o =>
      BaseEventsAndTransactionEntitySubscription.aggregate_query_results o data alias
  | Sessions o => SessionsEntitySubscription.aggregate_query_results o data alias
  | Metrics o => BaseMetricsEntitySubscription.aggregate_query_results o data alias
  end.

End Dispatch.

(** The method [get_entity_extra_params], by the class of [self]. *)
Definition get_entity_extra_params (self : EntitySubscription) : gmap string value :=
  match self with
  | EventsOrTransactions o =>
      BaseEventsAndTransactionEntitySubscription.get_entity_extra_params o
  | Sessions o => SessionsEntitySubscription.get_entity_extra_params o
  | Metrics o => BaseMetricsEntitySubscription.get_entity_extra_params o
  end.

(** The attributes [entity_key], [dataset], [time_col] and [aggregate] of
    an instance; the first two are attributes of its class. *)
Definition self_entity_key (self : EntitySubscription) : EntityKey.t :=
  match self with
  | EventsOrTransactions o =>
      BaseEventsAndTransactionEntitySubscription.entity_key
        (BaseEventsAndTransactionEntitySubscription.cls o)
  | Sessions _ => SessionsEntitySubscription.entity_key
  | Metrics o =>
      BaseMetricsEntitySubscription.entity_key (BaseMetricsEntitySubscription.cls o)
  end.

Definition self_dataset (self : EntitySubscription) : QueryDatasets.t :=
  match self with
  | EventsOrTransactions o =>
      BaseEventsAndTransactionEntitySubscription.dataset
        (BaseEventsAndTransactionEntitySubscription.cls o)
  | Sessions _ => SessionsEntitySubscription.dataset
  | Metrics _ => BaseMetricsEntitySubscription.dataset
  end.

Definition self_time_col (self : EntitySubscription) : string :=
  match self with
  | EventsOrTransactions o => BaseEventsAndTransactionEntitySubscription.time_col o
  | Sessions o => SessionsEntitySubscription.time_col o
  | Metrics o => BaseMetricsEntitySubscription.time_col o
  end.

Definition self_aggregate (self : EntitySubscription) : string :=
  match self with
  | EventsOrTransactions o => BaseEventsAndTransactionEntitySubscription.aggregate o
  | Sessions o => SessionsEntitySubscription.aggregate o
  | Metrics o => BaseMetricsEntitySubscription.aggregate o
  end.

(** The rows a list of references stands for in a store. *)
Definition rows_of (st : state) (data : list loc) : list (option (gmap string value)) :=
  map (fun l => heap st !! l) data.

(** ** Notions the properties are stated with *)

(** The small letter of a capital letter, looked up in the alphabet; a
    character that is not a capital letter is kept. *)
Fixpoint small_letter (capitals smalls : string) (c : ascii) : ascii :=
  match capitals, smalls with
  | String a capitals', String b smalls' =>
      if Ascii.eqb c a then b else small_letter capitals' smalls' c
  | _, _ => c
  end.

(** A text in lower case: every capital letter [A] to [Z] replaced by
    its small letter. *)
Fixpoint lowercased (s : string) : string :=
  match s with
  | EmptyString => EmptyString
  | String c s' =>
      String (small_letter "ABCDEFGHIJKLMNOPQRSTUVWXYZ" "abcdefghijklmnopqrstuvwxyz" c)
             (lowercased s')
  end.

(** The clauses [event.type:<name>] of the given names, with [OR]
    between one clause and the next. *)
Fixpoint alternatives (names : list string) : string :=
  match names with
  | [] => EmptyString
  | name :: names' =>
      match names' with
      | [] => "event.type:" ++ name
      | _ :: _ => "event.type:" ++ name ++ " OR " ++ alternatives names'
      end
  end.

(** The event-type clause as the specification words it: the
    alternatives [event.type:<lowercased name>] joined by [OR] when the
    list of event types is not empty, else the default clause of the
    dataset, if it has one. *)
Definition event_type_clause (dataset : QueryDatasets.t)
    (event_types : option (list SnubaQueryEventType.t)) : option string :=
  match event_types with
  | Some (e :: ets) =>
      Some (alternatives
              (map (fun t => lowercased (SnubaQueryEventType.name t)) (e :: ets)))
  | _ =>
      match dataset with
      | QueryDatasets.EVENTS => Some "event.type:error"
      | QueryDatasets.TRANSACTIONS => Some "event.type:transaction"
      | _ => None
      end
  end.

(** [extra_fields] is absent or has no organization id. *)
Definition no_organization_id (extra_fields : option EntitySpecificParams.t) : Prop :=
  extra_fields = None
  \/ exists ef, extra_fields = Some ef /\ EntitySpecificParams.org_id ef = None.

(** [n] times the character [c]. *)
Fixpoint chars (c : ascii) (n : nat) : string :=
  match n with
  | O => EmptyString
  | S n' => String c (chars c n')
  end.

(** [n] spaces. *)
Definition spaces (n : nat) : string := chars " " n.

(** The text [aggregate] starts with [percentage(], a numerator [g1], a
    comma, a denominator [g2] and [)], with any number of spaces around
    the two arguments. *)
Definition crash_rate_shape (g1 g2 aggregate : string) : Prop :=
  exists n1 n2 n3 n4 rest,
    aggregate
    = "percentage(" ++ spaces n1 ++ g1 ++ spaces n2 ++ ","
        ++ spaces n3 ++ g2 ++ spaces n4 ++ ")" ++ rest.

(** [aggregate] matches the crash-free percentage pattern
    [percentage((sessions_crashed|users_crashed), (sessions|users))] with
    [counted] for its second group. *)
Definition crash_free_percentage (counted aggregate : string) : Prop :=
  crash_rate_shape "sessions_crashed" counted aggregate
  \/ crash_rate_shape "users_crashed" counted aggregate.

(** The text that is left after the leading run of [c]. *)
Fixpoint skip (c : ascii) (s : string) : string :=
  match s with
  | String a s' => if Ascii.eqb a c then skip c s' else s
  | EmptyString => s
  end.

(** The length of the leading run of [c]. *)
Fixpoint run_length (c : ascii) (s : string) : nat :=
  match s with
  | String a s' => if Ascii.eqb a c then S (run_length c s') else O
  | EmptyString => O
  end.

(** One of two literals at the start of [s], and the text after it. *)
Definition either_prefix (a b s : string) : option (string * string) :=
  match Re.strip_prefix a s with
  | Some r => Some (a, r)
  | None =>
      match Re.strip_prefix b s with
      | Some r => Some (b, r)
      | None => None
      end
  end.

(** The crash-rate pattern read from left to right with no backtracking:
    the position and the text after the match, and the two groups. *)
Definition crash_rate_parse (s : string) : option (nat * string * string * string) :=
  match Re.strip_prefix "percentage(" s with
  | None => None
  | Some s1 =>
      match either_prefix "sessions_crashed" "users_crashed" (skip " " s1) with
      | None => None
      | Some (g1, s3) =>
          match Re.strip_prefix "," (skip " " s3) with
          | None => None
          | Some s5 =>
              match either_prefix "sessions" "users" (skip " " s5) with
              | None => None
              | Some (g2, s7) =>
                  match Re.strip_prefix ")" (skip " " s7) with
                  | None => None
                  | Some s9 =>
                      Some ((0 + 11 + run_length " " s1 + String.length g1
                             + run_length " " s3 + 1 + run_length " " s5
                             + String.length g2 + run_length " " s7 + 1)%nat,
                            s9, g1, g2)
                  end
              end
          end
      end
  end.

(** Two literals that differ at their first character. *)
Definition heads_differ (a b : string) : Prop :=
  match a, b with
  | String x _, String y _ => x <> y
  | _, _ => False
  end.

(** The two numerators and the two denominators of the pattern. *)
Definition numerator (g : string) : Prop :=
  g = "sessions_crashed" \/ g = "users_crashed".

Definition denominator (g : string) : Prop :=
  g = "sessions" \/ g = "users".

(** [tok] occurs in [s] at position [i]. *)
Definition occurs_at (tok s : string) (i : nat) : Prop :=
  exists pre post, s = pre ++ tok ++ post /\ String.length pre = i.

(** The first occurrence of [sessions] or [users] in [s] is one of
    [tok]: [tok] occurs at some position and neither occurs before it. *)
Definition first_occurrence (tok s : string) : Prop :=
  exists i, occurs_at tok s i
            /\ forall t j, denominator t -> occurs_at t s j -> (i <= j)%nat.

(** The first of [sessions] and [users] met when [s] is read from left
    to right. *)
Fixpoint first_token (s : string) : option string :=
  match either_prefix "sessions" "users" s with
  | Some (g, _) => Some g
  | None =>
      match s with
      | String _ s' => first_token s'
      | EmptyString => None
      end
  end.

(** The selected columns of a query builder that was built. *)
Definition selected_columns (r : result QueryBuilder) : result (list string) :=
  rbind r (fun qb => Ok (qb_selected_columns qb)).

(** *** Result normalisation as a function of the rows

    What the metrics classes compute, stated on the dictionaries the
    references of a batch stand for ([None] for a reference that is not
    in the store): the twin of the code that the properties below compare
    the code with. *)

Definition NO_SESSION_DATA_METRICS : metric_event :=
  incr_event
    "incidents.entity_subscription.metrics.aggregate_query_results.no_session_data".

Definition NO_SESSION_DATA_SESSIONS : metric_event :=
  incr_event
    "incidents.entity_subscription.sessions.aggregate_query_results.no_session_data".

Definition METRIC_INDEX_NOT_FOUND : metric_event :=
  incr_event "incidents.entity_subscription.metric_index_not_found".

Definition FORMAT (version : string) : metric_event :=
  {| ev_key := "incidents.entity_subscription.aggregate_query_results";
     ev_tags := [("format", version)];
     ev_sample_rate := Some 1%float |}.

Section RowFunctions.
Context `{Collaborators}.

(** The dictionary [translated_data] after the rows, read in order. *)
Fixpoint translated (session_status value_col_name : string)
    (rows : list (option (gmap string value)))
    (translated_data : gmap string value) : result (gmap string value) :=
  match rows with
  | [] => Ok translated_data
  | None :: _ => Raise DanglingReference
  | Some d :: rows' =>
      match d !! session_status with
      | None => Raise KeyError
      | Some tag_index =>
          match reverse_resolve_tag_value tag_index with
          | Some (String _ _ as label) =>
              match d !! value_col_name with
              | None => Raise KeyError
              | Some v =>
                  translated session_status value_col_name rows'
                             (<[label := v]> translated_data)
              end
          | _ => Raise MetricIndexNotFound
          end
      end
  end.

(** The two counts of a format-v1 batch, and the telemetry of getting
    them. *)
Definition counts_v1 (rows : list (option (gmap string value))) (org_id : Z)
    (alias : option string) : result (value * value) * list metric_event :=
  match
    rbind (resolve_tag_key org_id "session.status") (fun session_status =>
    rbind (translated session_status (alias_or alias "value") rows ∅) (fun td =>
    Ok (default (PyInt 0) (td !! "init"), default (PyInt 0) (td !! "crashed"))))
  with
  | Raise MetricIndexNotFound => (Ok (PyInt 0, PyInt 0), [METRIC_INDEX_NOT_FOUND])
  | r => (r, [])
  end.

(** The two counts of a format-v2 batch. *)
Definition counts_v2 (rows : list (option (gmap string value)))
    : result (value * value) :=
  match rows with
  | [] => Ok (PyInt 0, PyInt 0)
  | row :: _ =>
      if (length rows =? 1)%nat then
        match row with
        | None => Raise DanglingReference
        | Some d =>
            match d !! "count" with
            | None => Raise KeyError
            | Some total =>
                match d !! "crashed" with
                | None => Raise KeyError
                | Some crashed => Ok (total, crashed)
                end
            end
        end
      else Raise AssertionError
  end.

(** Whether the batch is read as format v2. *)
Definition format_v2 (rows : list (option (gmap string value))) : result bool :=
  match rows with
  | [] => Ok false
  | None :: _ => Raise DanglingReference
  | Some d :: _ => Ok (bool_decide (is_Some (d !! "crashed")))
  end.

(** The value of the canonical column from the two counts, and the
    telemetry of computing it. *)
Definition rate_of_counts (total crashed : value) : result value * list metric_event :=
  if PyNum.eq_zero total then (Ok PyNone, [NO_SESSION_DATA_METRICS])
  else (crash_free_rate crashed total, []).

(** The value of the canonical column that a metrics subscription of
    [org_id] computes from the rows, and the telemetry it emits. *)
Definition metrics_outcome (rows : list (option (gmap string value))) (org_id : Z)
    (alias : option string) : result value * list metric_event :=
  match format_v2 rows with
  | Raise e => (Raise e, [])
  | Ok v2 =>
      let '(counts, evs1) :=
        if v2 : bool then (counts_v2 rows, []) else counts_v1 rows org_id alias in
      match counts with
      | Raise e => (Raise e, evs1)
      | Ok (total, crashed) =>
          let '(rate, evs2) := rate_of_counts total crashed in
          match rate with
          | Ok v => (Ok v, (evs1 ++ evs2 ++ [FORMAT (if v2 then "v2" else "v1")])%list)
          | Raise e => (Raise e, (evs1 ++ evs2)%list)
          end
      end
  end.

(** The store after a metrics subscription has run: the one-row result
    is a new dictionary, and the telemetry is added. *)
Definition after_metrics (st : state) (outcome : result value * list metric_event)
    (alias : option string) : result (list loc) * state :=
  match outcome with
  | (Ok v, evs) =>
      (Ok [length (heap st)],
       {| heap :=
            (heap st ++ [{[ alias_or alias CRASH_RATE_ALERT_AGGREGATE_ALIAS := v ]}])%list;
          telemetry := (telemetry st ++ evs)%list |})
  | (Raise e, evs) =>
      (Raise e, {| heap := heap st; telemetry := (telemetry st ++ evs)%list |})
  end.

End RowFunctions.

(** *** Rounding to decimals

    [round(x, ndigits)] stated on the value, not computed: the finite
    binary64 value [x] is [m * 2 ^ e] with a sign; the integer [k]
    nearest to [x * 10 ^ ndigits] is taken, the even one when two are
    equally near, and the result is the binary64 value nearest to
    [k / 10 ^ ndigits]. *)

(** [k] is the integer nearest to the fraction [n / d], and the even one
    of the two when the fraction is halfway between two integers. *)
Definition nearest_integer (n d k : Z) : Prop :=
  Z.abs (2 * (n - k * d)) <= d
  /\ (Z.abs (2 * (n - k * d)) = d -> Z.even k = true).

(** The binary64 value nearest to the decimal [k / 10 ^ ndigits], with
    the sign [s]. *)
Definition decimal (s : bool) (k ndigits : Z) : float :=
  match k with
  | Zpos k' =>
      SF2Prim (SFdiv prec emax (S754_finite s k' 0)
                 (S754_finite false (Z.to_pos (10 ^ ndigits)) 0))
  | _ => SF2Prim (S754_zero s)
  end.

(** [r] is [x] rounded to [ndigits] decimals; a zero, an infinity and
    NaN are their own rounding. *)
Definition rounded_to (ndigits : Z) (x r : float) : Prop :=
  match Prim2SF x with
  | S754_finite s m e =>
      exists k,
        nearest_integer (Zpos m * 2 ^ Z.max e 0 * 10 ^ ndigits) (2 ^ Z.max (- e) 0) k
        /\ r = decimal s k ndigits
  | _ => r = x
  end.

(** [r] is a float rounded to 3 decimals. *)
Definition three_decimals (r : float) : Prop :=
  exists x, rounded_to 3 x r.

(** [v'] is [round((1 - v) * 100, 3)] for a number [v]: on a float the
    binary64 value of [(1 - v) * 100] rounded to 3 decimals, on an
    integer the integer [(1 - v) * 100]. *)
Definition crash_free_of (v v' : value) : Prop :=
  match v with
  | PyFloat f => exists r, rounded_to 3 ((1 - f) * 100)%float r /\ v' = PyFloat r
  | PyInt z => v' = PyInt ((1 - z) * 100)
  | _ => False
  end.

(** The row a reference stands for has a [crashed] field. *)
Definition has_crashed_field (st : state) (l : loc) : Prop :=
  exists d, heap st !! l = Some d /\ is_Some (d !! "crashed").

(** A batch is read as format v2 exactly when one of its rows has a
    [crashed] field. *)
Definition v2_when_a_row_has_crashed (data : list loc) (st : state) : Prop :=
  (BaseMetricsEntitySubscription.is_crash_rate_format_v2 data st).1 = Ok true
  <-> Exists (has_crashed_field st) data.

(** The outcome of a call from the store [st] is the return of a
    one-row list whose row is a new dictionary, equal to [d]. *)
Definition returns_row (outcome : result (list loc) * state) (st : state)
    (d : gmap string value) : Prop :=
  outcome.1 = Ok [length (heap st)] /\ heap outcome.2 = (heap st ++ [d])%list.

(** *** Format v1: labels and values

    A row of a format-v1 batch, once its tag value is resolved, is a pair
    of a label and the value of the value column. *)

Section Labels.
Context `{Collaborators}.

(** The row that [l] stands for has the tag column and the value column;
    its tag value resolves to the label [lv.1], which is not empty, and
    its value is [lv.2]. *)
Definition labelled (st : state) (session_status value_col_name : string)
    (l : loc) (lv : string * value) : Prop :=
  exists d tag_index,
    heap st !! l = Some d
    /\ d !! session_status = Some tag_index
    /\ reverse_resolve_tag_value tag_index = Some lv.1
    /\ lv.1 <> EmptyString
    /\ d !! value_col_name = Some lv.2.

End Labels.

(** The value of the last row of the given label, if there is one. *)
Fixpoint last_value (label : string) (lvs : list (string * value)) : option value :=
  match lvs with
  | [] => None
  | (l, v) :: lvs' =>
      match last_value label lvs' with
      | Some v' => Some v'
      | None => if decide (l = label) then Some v else None
      end
  end.

(** The sum of the integer values of the rows of the given label. *)
Fixpoint summed (label : string) (lvs : list (string * value)) : Z :=
  match lvs with
  | [] => 0
  | (l, v) :: lvs' =>
      (if decide (l = label) then match v with PyInt z => z | _ => 0 end else 0)
      + summed label lvs'
  end.

(** The two counts as sums over the rows of each label: what they would
    be if the values of rows of one label were added up. *)
Definition counts_are_sums `{Collaborators} (data : list loc) (org_id : Z)
    (alias : option string) (st : state) : Prop :=
  forall session_status lvs,
    resolve_tag_key org_id "session.status" = Ok session_status ->
    Forall2 (labelled st session_status (alias_or alias "value")) data lvs ->
    (BaseMetricsEntitySubscription.translate_sessions_tag_keys_and_values
       data org_id alias st).1
    = Ok (PyInt (summed "init" lvs), PyInt (summed "crashed" lvs)).

(** A format-v1 row of the sample resolver: a tag index and a value. *)
Definition v1_row (tag_index n : Z) : gmap string value :=
  {[ "tags[7]" := PyInt tag_index; "value" := PyInt n ]}.

(** *** Calling twice, and the shape of the output *)

(** Two outcomes have the same output: the same rows are returned, or the
    same exception is raised. *)
Definition same_output (o1 o2 : result (list loc) * state) : Prop :=
  match o1.1, o2.1 with
  | Ok out1, Ok out2 => rows_of o1.2 out1 = rows_of o2.2 out2
  | Raise e1, Raise e2 => e1 = e2
  | _, _ => False
  end.

Section Shapes.
Context `{Collaborators}.

(** Calling [aggregate_query_results] on a batch, and then again on the
    same batch, gives the same output. *)
Definition same_output_twice (self : EntitySubscription) (data : list loc)
    (alias : option string) (st : state) : Prop :=
  let o1 := aggregate_query_results self data alias st in
  let o2 := aggregate_query_results self data alias o1.2 in
  same_output o1 o2.

(** An outcome is the return of exactly one mapping that holds the
    canonical field, with [None] or a float rounded to 3 decimals. *)
Definition one_canonical_row (outcome : result (list loc) * state)
    (alias : option string) : Prop :=
  exists l d v,
    outcome.1 = Ok [l]
    /\ heap outcome.2 !! l = Some d
    /\ d !! alias_or alias CRASH_RATE_ALERT_AGGREGATE_ALIAS = Some v
    /\ (v = PyNone \/ exists r, v = PyFloat r /\ three_decimals r).

(** An outcome from the store [st] is the return of exactly one mapping,
    a new one: the store is as before with one dictionary more, which
    holds the canonical field and nothing else, with [None] or a float
    rounded to 3 decimals. *)
Definition one_new_canonical_row (outcome : result (list loc) * state) (st : state)
    (alias : option string) : Prop :=
  exists v,
    returns_row outcome st {[ alias_or alias CRASH_RATE_ALERT_AGGREGATE_ALIAS := v ]}
    /\ (v = PyNone \/ exists r, v = PyFloat r /\ three_decimals r).

(** The column the sessions class would read if it took the alias
    whenever one is given. *)
Definition alias_when_given (alias : option string) : string :=
  default CRASH_RATE_ALERT_AGGREGATE_ALIAS alias.

(** A call on the one-row batch [row] reads the column [col] and puts
    the crash-free percentage of its value there: for every number [v]
    in that column, the call returns the batch, and the row is as before
    except that [col] holds [round((1 - v) * 100, 3)]. *)
Definition transforms_column (self : SessionsEntitySubscription.t) (row : loc)
    (alias : option string) (st : state) (col : string) : Prop :=
  forall d v v',
    heap st !! row = Some d -> d !! col = Some v -> crash_free_of v v' ->
    aggregate_query_results (Sessions self) [row] alias st
    = (Ok [row],
       {| heap := <[row := <[col := v']> d]> (heap st); telemetry := telemetry st |}).

End Shapes.

(** *** Notions of the further properties *)

(** [aggregate] matches the crash-free percentage pattern. *)
Definition crash_free_aggregate (aggregate : string) : Prop :=
  crash_free_percentage "sessions" aggregate \/ crash_free_percentage "users" aggregate.

(** [extra_fields] holds the organization id [org]. *)
Definition has_organization_id (extra_fields : option EntitySpecificParams.t)
    (org : Z) : Prop :=
  exists ef, extra_fields = Some ef /\ EntitySpecificParams.org_id ef = Some org.

(** A label the two counts are read from. *)
Definition counted_label (label : string) : bool :=
  bool_decide (label = "init") || bool_decide (label = "crashed").

(** The granularity of a time window, as the table of the comment in
    [get_granularity] gives it. *)
Definition granularity_of_window (w : Z) : Z :=
  if w <=? 3600 then 10
  else if w <=? 14400 then 60
  else if w <=? 86400 then 3600
  else 86400.

(** The [params] a builder is given: the caller's mapping (empty when it
    is [None]) with [project_id] set to the project ids, and with
    [environment] set to the name of the environment when there is one. *)
Definition params_passed (ps : gmap string param) (caller : option (gmap string param))
    (project_ids : list Z) (environment : option Environment.t) : Prop :=
  ps !! "project_id" = Some (ProjectIds project_ids)
  /\ (forall env, environment = Some env ->
        ps !! "environment" = Some (EnvironmentName (Environment.name env)))
  /\ (forall key, key <> "project_id" -> key <> "environment" \/ environment = None ->
        ps !! key = default ∅ caller !! key).

(** The event types [extra_fields] gives: those under [event_types], or
    [None] when [extra_fields] is absent, is empty or has no such key. *)
Definition given_event_types (extra_fields : option EntitySpecificParams.t)
    : option (list SnubaQueryEventType.t) :=
  match extra_fields with
  | Some ef =>
      match EntitySpecificParams.event_types ef with
      | Some ets => ets
      | None => None
      end
  | None => None
  end.

(** ** Sample collaborators and instances

    A resolver in which [session.status] is the tag key of index 7, index
    1 stands for [init] and index 2 for [crashed], and no other index
    resolves; the column names are those the specification uses. *)
Definition sample_collaborators : Collaborators := {|
  CRASH_RATE_ALERT_AGGREGATE_ALIAS := "crash_rate_alert_aggregate_value";
  CRASH_RATE_ALERT_SESSION_COUNT_ALIAS := "_total_count";
  tag_key_column := fun _ key =>
    if String.eqb key "session.status" then Some "tags[7]" else None;
  reverse_resolve_tag_value := fun v =>
    match v with
    | PyInt 1 => Some "init"
    | PyInt 2 => Some "crashed"
    | _ => None
    end
|}.

(** A metrics subscription of organization 1 over a given time window. *)
Definition sample_metrics (w : Z) : BaseMetricsEntitySubscription.t := {|
  BaseMetricsEntitySubscription.cls :=
    BaseMetricsEntitySubscription.MetricsCountersEntitySubscription;
  BaseMetricsEntitySubscription.time_col := "timestamp";
  BaseMetricsEntitySubscription.aggregate := "percentage(sessions_crashed, sessions)";
  BaseMetricsEntitySubscription.org_id := 1;
  BaseMetricsEntitySubscription.session_status := "tags[7]";
  BaseMetricsEntitySubscription.time_window := w
|}.

(** A sessions subscription of organization 1 over a given aggregate. *)
Definition sample_sessions (aggregate : string) : SessionsEntitySubscription.t := {|
  SessionsEntitySubscription.time_col := "started";
  SessionsEntitySubscription.aggregate := aggregate;
  SessionsEntitySubscription.org_id := 1
|}.

(** An events subscription. *)
Definition sample_events : BaseEventsAndTransactionEntitySubscription.t := {|
  BaseEventsAndTransactionEntitySubscription.cls :=
    BaseEventsAndTransactionEntitySubscription.EventsEntitySubscription;
  BaseEventsAndTransactionEntitySubscription.time_col := "timestamp";
  BaseEventsAndTransactionEntitySubscription.aggregate := "count()";
  BaseEventsAndTransactionEntitySubscription.event_types := None
|}.

(** A store that holds the given rows and has no telemetry yet. *)
Definition store_of (rows : list (gmap string value)) : state :=
  {| heap := rows; telemetry := [] |}.

(** The sample resolver with one more tag value: index 3 stands for
    [errored]. *)
Definition sample_collaborators_errored : Collaborators := {|
  CRASH_RATE_ALERT_AGGREGATE_ALIAS := "crash_rate_alert_aggregate_value";
  CRASH_RATE_ALERT_SESSION_COUNT_ALIAS := "_total_count";
  tag_key_column := fun _ key =>
    if String.eqb key "session.status" then Some "tags[7]" else None;
  reverse_resolve_tag_value := fun v =>
    match v with
    | PyInt 1 => Some "init"
    | PyInt 2 => Some "crashed"
    | PyInt 3 => Some "errored"
    | _ => None
    end
|}.

(** * Properties *)

#[local] Arguments String.append !s1 s2 : simpl nomatch.

(** ** Granularity *)

(** C6: the granularity of a metrics subscription is 10 for a time window
    of at most 3600 seconds, 60 above that up to 14400, 3600 above that up
    to 86400, and 86400 beyond; this holds for every integer time window,
    the positive ones among them. *)
Theorem get_granularity_table (self : BaseMetricsEntitySubscription.t) :
  let w := BaseMetricsEntitySubscription.time_window self in
  let g := BaseMetricsEntitySubscription.get_granularity self in
  (w <= 3600 -> g = 10)
  /\ (3600 < w <= 14400 -> g = 60)
  /\ (14400 < w <= 86400 -> g = 3600)
  /\ (86400 < w -> g = 86400).
Proof.
  unfold BaseMetricsEntitySubscription.get_granularity.
  cbv zeta.
  set (w := BaseMetricsEntitySubscription.time_window self).
  repeat split; intros Hw;
    repeat match goal with
           | |- context [?a <=? ?b] => destruct (Z.leb_spec a b); try lia
           | |- context [?a <? ?b] => destruct (Z.ltb_spec a b); try lia
           end; reflexivity.
Qed.

Lemma get_granularity_table_witness :
  let g w := BaseMetricsEntitySubscription.get_granularity (sample_metrics w) in
  g 3600 = 10 /\ g 3601 = 60 /\ g 14400 = 60 /\ g 14401 = 3600
  /\ g 86400 = 3600 /\ g 86401 = 86400.
Proof.
  cbv zeta. refine (conj _ (conj _ (conj _ (conj _ (conj _ _))))).
  - apply (proj1 (get_granularity_table (sample_metrics 3600))). simpl. lia.
  - apply (proj1 (proj2 (get_granularity_table (sample_metrics 3601)))). simpl. lia.
  - apply (proj1 (proj2 (get_granularity_table (sample_metrics 14400)))). simpl. lia.
  - apply (proj1 (proj2 (proj2 (get_granularity_table (sample_metrics 14401))))).
    simpl. lia.
  - apply (proj1 (proj2 (proj2 (get_granularity_table (sample_metrics 86400))))).
    simpl. lia.
  - apply (proj2 (proj2 (proj2 (get_granularity_table (sample_metrics 86401))))).
    simpl. lia.
Defined.

(** ** Construction *)

Section Construction.
Context `{Collaborators}.

Lemma lacks_org_id_true extra_fields :
  no_organization_id extra_fields ->
  EntitySpecificParams.lacks_org_id extra_fields = true.
Proof.
  intros [-> | (ef & -> & Hef)]; [reflexivity |].
  destruct ef as [o e]; simpl in Hef; subst o.
  unfold EntitySpecificParams.lacks_org_id. apply orb_true_r.
Qed.

(** C5: constructing a sessions or a metrics subscription, for any
    aggregate and time window, with [extra_fields] absent or lacking the
    organization id raises [InvalidQuerySubscription], so that no
    instance is returned; the factory does so for
    [percentage(sessions_crashed, sessions)], a window of 3600 and the
    empty [extra_fields]. *)
Theorem org_id_required aggregate time_window extra_fields :
  no_organization_id extra_fields ->
  SessionsEntitySubscription.__init__ aggregate time_window extra_fields
    = Raise InvalidQuerySubscription
  /\ (forall c, BaseMetricsEntitySubscription.__init__ c aggregate time_window extra_fields
                 = Raise InvalidQuerySubscription)
  /\ (forall k, k = EntityKey.Sessions \/ k = EntityKey.MetricsCounters
                 \/ k = EntityKey.MetricsSets ->
        ENTITY_KEY_TO_ENTITY_SUBSCRIPTION k aggregate time_window extra_fields
          = Raise InvalidQuerySubscription)
  /\ get_entity_subscription_for_dataset QueryDatasets.SESSIONS
       "percentage(sessions_crashed, sessions)" 3600
       (Some {| EntitySpecificParams.org_id := None;
                EntitySpecificParams.event_types := None |})
     = Raise InvalidQuerySubscription.
Proof.
  intros Hno. pose proof (lacks_org_id_true _ Hno) as Hl.
  assert (Hs : SessionsEntitySubscription.__init__ aggregate time_window extra_fields
               = Raise InvalidQuerySubscription).
  { unfold SessionsEntitySubscription.__init__. now rewrite Hl. }
  assert (Hm : forall c,
             BaseMetricsEntitySubscription.__init__ c aggregate time_window extra_fields
             = Raise InvalidQuerySubscription).
  { intros c. unfold BaseMetricsEntitySubscription.__init__. now rewrite Hl. }
  split; [exact Hs |]. split; [exact Hm |]. split.
  - intros k [-> | [-> | ->]]; simpl; now rewrite ?Hs, ?Hm.
  - reflexivity.
Qed.

End Construction.

Lemma org_id_required_witness :
  @SessionsEntitySubscription.__init__ "percentage(users_crashed, users)" 60
     (Some {| EntitySpecificParams.org_id := None;
              EntitySpecificParams.event_types := Some None |})
  = Raise InvalidQuerySubscription.
Proof.
  apply (@org_id_required sample_collaborators "percentage(users_crashed, users)" 60
           (Some {| EntitySpecificParams.org_id := None;
                    EntitySpecificParams.event_types := Some None |})).
  right. eexists. split; reflexivity.
Defined.

(** ** The dataset condition policy *)

Lemma nonempty_decide (s : string) :
  nonempty s = if decide (s = EmptyString) then false else true.
Proof. destruct s; reflexivity. Qed.

Lemma lower_ascii_small_letter (c : ascii) :
  lower_ascii c
  = small_letter "ABCDEFGHIJKLMNOPQRSTUVWXYZ" "abcdefghijklmnopqrstuvwxyz" c.
Proof.
  destruct c as [[|] [|] [|] [|] [|] [|] [|] [|]]; vm_compute; reflexivity.
Qed.

Lemma lower_lowercased (s : string) : lower s = lowercased s.
Proof.
  induction s as [| c s IH]; [reflexivity |].
  cbn [lower lowercased]. now rewrite lower_ascii_small_letter, IH.
Qed.

Lemma concat_alternatives (names : list string) :
  String.concat " OR " (map (String.append "event.type:") names) = alternatives names.
Proof.
  induction names as [| name [| name' names] IH]; [reflexivity | reflexivity |].
  change (alternatives (name :: name' :: names))
    with ("event.type:" ++ name ++ " OR " ++ alternatives (name' :: names))%string.
  rewrite <- IH. reflexivity.
Qed.

Lemma event_type_conditions_clause dataset (event_types : option (list SnubaQueryEventType.t)) :
  match event_types with
  | Some ((_ :: _) as ets) =>
      Some (String.concat " OR "
              (map (fun event_type =>
                      "event.type:" ++ lower (SnubaQueryEventType.name event_type))
                   ets))
  | _ => DATASET_CONDITIONS dataset
  end%string
  = event_type_clause dataset event_types.
Proof.
  destruct event_types as [[| e ets] |]; try (now destruct dataset).
  unfold event_type_clause. f_equal. rewrite <- concat_alternatives, map_map.
  f_equal. apply map_ext. intros t. now rewrite lower_lowercased.
Qed.

(** C7: [apply_dataset_query_conditions] returns the query unchanged for
    the transactions dataset when [discover] is false, and for a dataset
    with neither a non-empty list of event types nor a default clause;
    otherwise it forms the event-type clause and returns
    [(<clause>) AND (<query>)] for a non-empty query and the clause alone
    for the empty one.  It is a function of its arguments alone.  The
    clause is stated on its own: lower case by the alphabet, and the
    alternatives written out with [OR] between them. *)
Theorem apply_dataset_query_conditions_spec dataset query event_types discover :
  apply_dataset_query_conditions dataset query event_types discover
  = (if decide (dataset = QueryDatasets.TRANSACTIONS /\ discover = false) then query
     else
       match event_type_clause dataset event_types with
       | None => query
       | Some clause =>
           if decide (query = EmptyString) then clause
           else "(" ++ clause ++ ") AND (" ++ query ++ ")"
       end)%string.
Proof.
  unfold apply_dataset_query_conditions.
  rewrite event_type_conditions_clause, nonempty_decide.
  destruct (decide (dataset = QueryDatasets.TRANSACTIONS /\ discover = false))
    as [[-> ->] | Hne].
  - reflexivity.
  - replace (negb discover && bool_decide (dataset = QueryDatasets.TRANSACTIONS))
      with false.
    + destruct (event_type_clause dataset event_types) as [clause |]; [| reflexivity].
      now destruct (decide (query = EmptyString)).
    + destruct discover; [reflexivity |]. cbn [negb andb].
      symmetry. apply bool_decide_eq_false_2. intros ->. now apply Hne.
Qed.

(** The cases of the specification, and event types whose names mix
    capital and small letters. *)
Lemma apply_dataset_query_conditions_spec_witness :
  apply_dataset_query_conditions QueryDatasets.SESSIONS "release:1.0"
    (Some [ {| SnubaQueryEventType.name := "ERROR" |};
            {| SnubaQueryEventType.name := "Default" |};
            {| SnubaQueryEventType.name := "tRANSACTION_2" |} ]) true
  = "(event.type:error OR event.type:default OR event.type:transaction_2) AND (release:1.0)"
  /\ apply_dataset_query_conditions QueryDatasets.EVENTS EmptyString
       (Some [ {| SnubaQueryEventType.name := "DEFAULT" |} ]) false
     = "event.type:default"
  /\ apply_dataset_query_conditions QueryDatasets.EVENTS EmptyString None false
     = "event.type:error"
  /\ apply_dataset_query_conditions QueryDatasets.EVENTS "release:1.0" None false
     = "(event.type:error) AND (release:1.0)"
  /\ apply_dataset_query_conditions QueryDatasets.TRANSACTIONS "release:1.0"
       (Some [ {| SnubaQueryEventType.name := "ERROR" |} ]) false
     = "release:1.0"
  /\ apply_dataset_query_conditions QueryDatasets.TRANSACTIONS "release:1.0" None true
     = "(event.type:transaction) AND (release:1.0)"
  /\ apply_dataset_query_conditions QueryDatasets.SESSIONS "release:1.0" None false
     = "release:1.0".
Proof.
  rewrite !apply_dataset_query_conditions_spec.
  repeat split; vm_compute; reflexivity.
Defined.

Example apply_dataset_query_conditions_transactions :
  apply_dataset_query_conditions QueryDatasets.TRANSACTIONS "release:1.0" None false
  = "release:1.0".
Proof. reflexivity. Qed.

Example apply_dataset_query_conditions_events_empty :
  apply_dataset_query_conditions QueryDatasets.EVENTS EmptyString None false = "event.type:error".
Proof. reflexivity. Qed.

Example apply_dataset_query_conditions_events :
  apply_dataset_query_conditions QueryDatasets.EVENTS "release:1.0" None false
  = "(event.type:error) AND (release:1.0)".
Proof. reflexivity. Qed.

Example apply_dataset_query_conditions_event_types :
  apply_dataset_query_conditions QueryDatasets.SESSIONS "release:1.0"
    (Some [ {| SnubaQueryEventType.name := "ERROR" |};
            {| SnubaQueryEventType.name := "DEFAULT" |} ]) true
  = "(event.type:error OR event.type:default) AND (release:1.0)".
Proof. reflexivity. Qed.

(** ** Regular expressions *)

Lemma strip_prefix_app (p s : string) : Re.strip_prefix p (p ++ s) = Some s.
Proof.
  induction p as [| a p IH]; simpl; [reflexivity |].
  now rewrite Ascii.eqb_refl.
Qed.

Lemma strip_prefix_Some (p s s' : string) :
  Re.strip_prefix p s = Some s' -> s = (p ++ s')%string.
Proof.
  revert s. induction p as [| a p IH]; intros s Hs; simpl in *.
  - congruence.
  - destruct s as [| b s]; [discriminate |].
    destruct (Ascii.eqb_spec a b) as [-> | Hne]; [| discriminate].
    f_equal. now apply IH.
Qed.

Lemma length_append (s t : string) :
  String.length (s ++ t) = (String.length s + String.length t)%nat.
Proof. induction s as [| a s IH]; simpl; congruence. Qed.

Lemma substring_prefix (s t : string) :
  substring 0 (String.length s) (s ++ t) = s.
Proof. induction s as [| a s IH]; simpl; [now destruct t | now rewrite IH]. Qed.

Lemma consumed_app (s t : string) : Re.consumed (s ++ t) t = s.
Proof.
  unfold Re.consumed. rewrite length_append.
  replace (String.length s + String.length t - String.length t)%nat
    with (String.length s) by lia.
  apply substring_prefix.
Qed.

Lemma skip_spec (c : ascii) (s : string) :
  s = (chars c (run_length c s) ++ skip c s)%string.
Proof.
  induction s as [| a s IH]; simpl; [reflexivity |].
  destruct (Ascii.eqb_spec a c) as [-> | Hne]; simpl; [| reflexivity].
  now rewrite <- IH.
Qed.

Lemma strip_prefix_other (a b r : string) :
  heads_differ a b -> Re.strip_prefix b (a ++ r) = None.
Proof.
  destruct a as [| x a], b as [| y b]; simpl; try contradiction.
  intros Hne. destruct (Ascii.eqb_spec y x); [congruence | reflexivity].
Qed.

Section RunLemmas.
Context {R : Type}.

Lemma star_greedy_skip c pos rest (k : nat -> string -> option R) :
  (forall p t, k p (String c t) = None) ->
  Re.star_greedy c pos rest k = k (pos + run_length c rest)%nat (skip c rest).
Proof.
  intros Hk. revert pos.
  induction rest as [| a rest IH]; intros pos; simpl.
  - now rewrite Nat.add_0_r.
  - destruct (Ascii.eqb_spec a c) as [-> | Hne].
    + rewrite IH, Nat.add_succ_comm.
      destruct (k _ (skip c rest)); [reflexivity | apply Hk].
    + now rewrite Nat.add_0_r.
Qed.

Lemma run_seq r1 r2 pos rest gs (k : nat -> string -> list (nat * string) -> option R) :
  Re.run (r1 >> r2) pos rest gs k
  = Re.run r1 pos rest gs (fun pos' rest' gs' => Re.run r2 pos' rest' gs' k).
Proof. reflexivity. Qed.

Lemma run_bol rest gs (k : nat -> string -> list (nat * string) -> option R) :
  Re.run Re.Bol 0 rest gs k = k 0%nat rest gs.
Proof. reflexivity. Qed.

Lemma run_lit t pos rest gs (k : nat -> string -> list (nat * string) -> option R) :
  Re.run (Re.Lit t) pos rest gs k
  = match Re.strip_prefix t rest with
    | Some rest' => k (pos + String.length t)%nat rest' gs
    | None => None
    end.
Proof. reflexivity. Qed.

Lemma run_star c pos rest gs (k : nat -> string -> list (nat * string) -> option R) :
  (forall p t, k p (String c t) gs = None) ->
  Re.run (Re.StarChar c) pos rest gs k
  = k (pos + run_length c rest)%nat (skip c rest) gs.
Proof. intros Hk. simpl. now rewrite star_greedy_skip. Qed.

Lemma run_group_either i a b pos rest gs
    (k : nat -> string -> list (nat * string) -> option R) :
  heads_differ a b ->
  Re.run (Re.Group i (Re.Alt (Re.Lit a) (Re.Lit b))) pos rest gs k
  = match either_prefix a b rest with
    | Some (g, rest') => k (pos + String.length g)%nat rest' ((i, g) :: gs)
    | None => None
    end.
Proof.
  intros Hab. unfold either_prefix. simpl.
  destruct (Re.strip_prefix a rest) as [r |] eqn:Ea.
  - apply strip_prefix_Some in Ea as ->.
    rewrite consumed_app, strip_prefix_other by assumption.
    now destruct (k _ r _).
  - destruct (Re.strip_prefix b rest) as [r |] eqn:Eb; [| reflexivity].
    apply strip_prefix_Some in Eb as ->. now rewrite consumed_app.
Qed.

Lemma run_crash_rate_re s (k : nat -> string -> list (nat * string) -> option R) :
  Re.run CRASH_RATE_ALERT_AGGREGATE_RE 0 s [] k
  = match crash_rate_parse s with
    | Some (pos, rest, g1, g2) => k pos rest [(2%nat, g2); (1%nat, g1)]
    | None => None
    end.
Proof.
  unfold CRASH_RATE_ALERT_AGGREGATE_RE, crash_rate_parse.
  rewrite run_seq, run_bol, run_seq, run_lit.
  destruct (Re.strip_prefix "percentage(" s) as [s1 |]; [| reflexivity].
  rewrite run_seq, run_star by reflexivity.
  rewrite run_seq, run_group_either by (intros ?; discriminate).
  destruct (either_prefix _ _ (skip " " s1)) as [[g1 s3] |]; [| reflexivity].
  rewrite run_seq, run_star by reflexivity.
  rewrite run_seq, run_lit.
  destruct (Re.strip_prefix "," (skip " " s3)) as [s5 |]; [| reflexivity].
  rewrite run_seq, run_star by reflexivity.
  rewrite run_seq, run_group_either by (intros ?; discriminate).
  destruct (either_prefix _ _ (skip " " s5)) as [[g2 s7] |]; [| reflexivity].
  rewrite run_seq, run_star by reflexivity.
  rewrite run_lit.
  destruct (Re.strip_prefix ")" (skip " " s7)) as [s9 |]; reflexivity.
Qed.

End RunLemmas.

Lemma skip_chars_app (c : ascii) (n : nat) (t : string) :
  skip c (chars c n ++ t) = skip c t.
Proof. induction n as [| n IH]; simpl; [reflexivity |]. now rewrite Ascii.eqb_refl. Qed.

Lemma either_prefix_Some (a b s g r : string) :
  either_prefix a b s = Some (g, r) -> (g = a \/ g = b) /\ s = (g ++ r)%string.
Proof.
  unfold either_prefix.
  destruct (Re.strip_prefix a s) as [ra |] eqn:Ea.
  - intros [= <- <-]. split; [now left | now apply strip_prefix_Some].
  - destruct (Re.strip_prefix b s) as [rb |] eqn:Eb; [| discriminate].
    intros [= <- <-]. split; [now right | now apply strip_prefix_Some].
Qed.

Lemma either_prefix_l (a b r : string) : either_prefix a b (a ++ r) = Some (a, r).
Proof. unfold either_prefix. now rewrite strip_prefix_app. Qed.

Lemma either_prefix_r (a b r : string) :
  heads_differ b a -> either_prefix a b (b ++ r) = Some (b, r).
Proof.
  intros Hba. unfold either_prefix.
  now rewrite strip_prefix_other, strip_prefix_app by assumption.
Qed.

(** What the left-to-right reading accepts is of the shape of the
    pattern. *)
Lemma crash_rate_parse_shape s pos rest g1 g2 :
  crash_rate_parse s = Some (pos, rest, g1, g2) ->
  numerator g1 /\ denominator g2 /\ crash_rate_shape g1 g2 s.
Proof.
  unfold crash_rate_parse.
  destruct (Re.strip_prefix "percentage(" s) as [s1 |] eqn:E1; [| discriminate].
  destruct (either_prefix _ _ (skip " " s1)) as [[h1 s3] |] eqn:E2; [| discriminate].
  destruct (Re.strip_prefix "," (skip " " s3)) as [s5 |] eqn:E3; [| discriminate].
  destruct (either_prefix _ _ (skip " " s5)) as [[h2 s7] |] eqn:E4; [| discriminate].
  destruct (Re.strip_prefix ")" (skip " " s7)) as [s9 |] eqn:E5; [| discriminate].
  intros [= _ <- <- <-].
  apply strip_prefix_Some in E1, E3, E5.
  apply either_prefix_Some in E2 as [Hn E2], E4 as [Hd E4].
  split; [exact Hn |]. split; [exact Hd |].
  exists (run_length " " s1), (run_length " " s3), (run_length " " s5),
         (run_length " " s7), s9.
  unfold spaces.
  rewrite <- E5, <- skip_spec, <- E4, <- skip_spec, <- E3, <- skip_spec, <- E2,
          <- skip_spec.
  exact E1.
Qed.

(** A text of the shape of the pattern is accepted, with the same
    groups. *)
Lemma crash_rate_shape_parse s g1 g2 :
  numerator g1 -> denominator g2 -> crash_rate_shape g1 g2 s ->
  exists pos rest, crash_rate_parse s = Some (pos, rest, g1, g2).
Proof.
  intros Hn Hd (n1 & n2 & n3 & n4 & rest & ->).
  unfold crash_rate_parse, spaces.
  rewrite strip_prefix_app, skip_chars_app.
  assert (E2 : forall r, either_prefix "sessions_crashed" "users_crashed"
                           (skip " " (g1 ++ r)) = Some (g1, r)).
  { intros r.
    destruct Hn as [-> | ->]; change (skip " " (?a ++ r)) with (a ++ r)%string.
    - apply either_prefix_l.
    - apply (either_prefix_r "sessions_crashed" "users_crashed").
      intros ?; discriminate. }
  assert (E4 : forall r, either_prefix "sessions" "users"
                           (skip " " (g2 ++ r)) = Some (g2, r)).
  { intros r.
    destruct Hd as [-> | ->]; change (skip " " (?a ++ r)) with (a ++ r)%string.
    - apply either_prefix_l.
    - apply (either_prefix_r "sessions" "users"). intros ?; discriminate. }
  rewrite E2, skip_chars_app.
  change (skip " " ("," ++ ?r)) with ("," ++ r)%string.
  rewrite strip_prefix_app, skip_chars_app, E4, skip_chars_app.
  change (skip " " (")" ++ ?r)) with (")" ++ r)%string.
  rewrite strip_prefix_app. eauto.
Qed.

(** ** The entity classifier *)

Lemma re_match_crash_rate s :
  Re.re_match CRASH_RATE_ALERT_AGGREGATE_RE s
  = match crash_rate_parse s with
    | Some (pos, rest, g1, g2) =>
        Some {| Re.m_start := 0; Re.m_end := pos; Re.m_text := Re.consumed s rest;
                Re.m_groups := [(2%nat, g2); (1%nat, g1)] |}
    | None => None
    end.
Proof.
  unfold Re.re_match, Re.match_at. rewrite run_crash_rate_re.
  now destruct (crash_rate_parse s) as [[[[pos rest] g1] g2] |].
Qed.

Lemma map_sessions_parse s :
  map_aggregate_to_entity_key QueryDatasets.SESSIONS s
  = match crash_rate_parse s with
    | Some _ => Ok EntityKey.Sessions
    | None => Raise UnsupportedQuerySubscription
    end.
Proof.
  unfold map_aggregate_to_entity_key. rewrite re_match_crash_rate.
  now destruct (crash_rate_parse s) as [[[[pos rest] g1] g2] |].
Qed.

Lemma map_metrics_parse s :
  map_aggregate_to_entity_key QueryDatasets.METRICS s
  = match crash_rate_parse s with
    | Some (_, _, _, g2) =>
        if decide (g2 = "sessions") then Ok EntityKey.MetricsCounters
        else Ok EntityKey.MetricsSets
    | None => Raise UnsupportedQuerySubscription
    end.
Proof.
  unfold map_aggregate_to_entity_key. rewrite re_match_crash_rate.
  destruct (crash_rate_parse s) as [[[[pos rest] g1] g2] |]; [| reflexivity].
  cbn [Re.group Re.m_groups Re.lookup_group Nat.eqb].
  destruct (decide (g2 = "sessions")) as [-> | Hne].
  - now rewrite decide_True.
  - rewrite decide_False; [reflexivity | congruence].
Qed.

Lemma crash_free_percentage_shape counted s :
  crash_free_percentage counted s
  <-> exists g1, numerator g1 /\ crash_rate_shape g1 counted s.
Proof.
  unfold crash_free_percentage, numerator. split.
  - intros [Hs | Hs]; eauto.
  - intros (g1 & [-> | ->] & Hs); auto.
Qed.

(** The second group of a match is determined by the text. *)
Lemma crash_rate_parse_counted s pos rest g1 g2 counted :
  crash_rate_parse s = Some (pos, rest, g1, g2) ->
  denominator counted ->
  crash_free_percentage counted s <-> g2 = counted.
Proof.
  intros Hp Hd. split.
  - intros (h1 & Hn & Hs)%crash_free_percentage_shape.
    destruct (crash_rate_shape_parse s h1 counted Hn Hd Hs) as (pos' & rest' & Hp').
    congruence.
  - intros <-. apply crash_free_percentage_shape.
    destruct (crash_rate_parse_shape _ _ _ _ _ Hp) as (Hn & _ & Hs). eauto.
Qed.

Lemma crash_rate_parse_None s counted :
  crash_rate_parse s = None -> denominator counted ->
  ~ crash_free_percentage counted s.
Proof.
  intros Hp Hd (h1 & Hn & Hs)%crash_free_percentage_shape.
  destruct (crash_rate_shape_parse s h1 counted Hn Hd Hs) as (pos' & rest' & Hp').
  congruence.
Qed.

(** C1: the classifier maps the events dataset to the events kind and the
    transactions dataset to the transactions kind, whatever the
    aggregate; for the sessions and the metrics datasets the aggregate
    has to match the crash-free percentage pattern; on a match the
    sessions dataset gives the sessions kind and the metrics dataset
    gives [MetricsCounters] when the second group is [sessions] and
    [MetricsSets] when it is [users]; every other pair raises
    [UnsupportedQuerySubscription]. *)
Theorem map_aggregate_to_entity_key_spec (aggregate : string) :
  let matches :=
    crash_free_percentage "sessions" aggregate
    \/ crash_free_percentage "users" aggregate in
  map_aggregate_to_entity_key QueryDatasets.EVENTS aggregate = Ok EntityKey.Events
  /\ map_aggregate_to_entity_key QueryDatasets.TRANSACTIONS aggregate
     = Ok EntityKey.Transactions
  /\ (map_aggregate_to_entity_key QueryDatasets.SESSIONS aggregate = Ok EntityKey.Sessions
      <-> matches)
  /\ (map_aggregate_to_entity_key QueryDatasets.METRICS aggregate
        = Ok EntityKey.MetricsCounters
      <-> crash_free_percentage "sessions" aggregate)
  /\ (map_aggregate_to_entity_key QueryDatasets.METRICS aggregate
        = Ok EntityKey.MetricsSets
      <-> crash_free_percentage "users" aggregate)
  /\ (map_aggregate_to_entity_key QueryDatasets.SESSIONS aggregate
        = Raise UnsupportedQuerySubscription
      <-> ~ matches)
  /\ (map_aggregate_to_entity_key QueryDatasets.METRICS aggregate
        = Raise UnsupportedQuerySubscription
      <-> ~ matches).
Proof.
  cbv zeta. split; [reflexivity |]. split; [reflexivity |].
  rewrite map_sessions_parse, map_metrics_parse.
  assert (Hds : denominator "sessions") by now left.
  assert (Hdu : denominator "users") by now right.
  destruct (crash_rate_parse aggregate) as [[[[pos rest] g1] g2] |] eqn:Hp.
  - pose proof (crash_rate_parse_counted _ _ _ _ _ _ Hp Hds) as Hs.
    pose proof (crash_rate_parse_counted _ _ _ _ _ _ Hp Hdu) as Hu.
    destruct (crash_rate_parse_shape _ _ _ _ _ Hp) as (_ & Hd & _).
    rewrite Hs, Hu.
    destruct (decide (g2 = "sessions")) as [-> | Hne].
    + repeat split; intros; try tauto; try discriminate.
    + destruct Hd as [-> | ->]; [contradiction |].
      repeat split; intros; try tauto; try discriminate.
  - pose proof (crash_rate_parse_None _ _ Hp Hds) as Hs.
    pose proof (crash_rate_parse_None _ _ Hp Hdu) as Hu.
    repeat split; intros; try tauto; try discriminate.
Qed.

Example classify_counters :
  map_aggregate_to_entity_key QueryDatasets.METRICS "percentage(sessions_crashed, sessions)"
  = Ok EntityKey.MetricsCounters.
Proof. reflexivity. Qed.

Example classify_sets :
  map_aggregate_to_entity_key QueryDatasets.METRICS "percentage(users_crashed, users)"
  = Ok EntityKey.MetricsSets.
Proof. reflexivity. Qed.

Example classify_mixed :
  map_aggregate_to_entity_key QueryDatasets.METRICS "percentage(sessions_crashed, users)"
  = Ok EntityKey.MetricsSets.
Proof. reflexivity. Qed.

Example classify_other :
  map_aggregate_to_entity_key QueryDatasets.SESSIONS "count()"
  = Raise UnsupportedQuerySubscription.
Proof. reflexivity. Qed.

Lemma map_aggregate_to_entity_key_spec_witness :
  map_aggregate_to_entity_key QueryDatasets.METRICS "percentage(sessions_crashed, users)"
  = Ok EntityKey.MetricsSets.
Proof.
  apply (proj1 (proj2 (proj2 (proj2 (proj2
           (map_aggregate_to_entity_key_spec "percentage(sessions_crashed, users)")))))).
  left. exists 0%nat, 0%nat, 1%nat, 0%nat, EmptyString. reflexivity.
Defined.

(** ** The total-count column of the sessions query *)

Lemma match_at_either (a b : string) pos rest :
  heads_differ a b ->
  Re.match_at (Re.Group 1 (Re.Alt (Re.Lit a) (Re.Lit b))) pos rest
  = match either_prefix a b rest with
    | Some (g, rest') =>
        Some {| Re.m_start := pos; Re.m_end := pos + String.length g;
                Re.m_text := g; Re.m_groups := [(1%nat, g)] |}
    | None => None
    end.
Proof.
  intros Hab. unfold Re.match_at. rewrite run_group_either by assumption.
  destruct (either_prefix a b rest) as [[g rest'] |] eqn:E; [| reflexivity].
  apply either_prefix_Some in E as [_ ->]. now rewrite consumed_app.
Qed.

Lemma search_from_first_token pos rest :
  option_map Re.group0
    (Re.search_from (Re.Group 1 (Re.Alt (Re.Lit "sessions") (Re.Lit "users"))) pos rest)
  = first_token rest.
Proof.
  revert pos. induction rest as [| a rest IH]; intros pos.
  - reflexivity.
  - cbn [Re.search_from first_token].
    rewrite match_at_either by (intros ?; discriminate).
    destruct (either_prefix "sessions" "users" (String a rest)) as [[g r] |].
    + reflexivity.
    + apply IH.
Qed.

Lemma occurs_at_tail t a s j : occurs_at t s j -> occurs_at t (String a s) (S j).
Proof.
  intros (pre & post & -> & <-). exists (String a pre), post. split; reflexivity.
Qed.

Lemma first_occurrence_first_token tok s :
  denominator tok -> first_occurrence tok s -> first_token s = Some tok.
Proof.
  intros Hd (i & (pre & post & -> & <-) & Hmin).
  induction pre as [| a pre IH].
  - change (EmptyString ++ tok ++ post)%string with (tok ++ post)%string.
    destruct post as [| c post'], Hd as [-> | ->]; reflexivity.
  - change (String a pre ++ tok ++ post)%string
      with (String a (pre ++ tok ++ post)%string) in *.
    cbn [first_token].
    destruct (either_prefix "sessions" "users" (String a (pre ++ tok ++ post)))
      as [[g r] |] eqn:E.
    + apply either_prefix_Some in E as [Hg E].
      assert (Hocc : occurs_at g (String a (pre ++ tok ++ post)) 0).
      { exists EmptyString, r. split; [exact E | reflexivity]. }
      apply Hmin in Hocc; [simpl in Hocc; lia | exact Hg].
    + apply IH. intros t j Ht Hocc.
      apply (occurs_at_tail _ a) in Hocc. apply Hmin in Hocc; [| exact Ht].
      simpl in Hocc. lia.
Qed.

Section SessionsQuery.
Context `{Collaborators}.

Lemma build_query_builder_columns self query project_ids environment params :
  selected_columns
    (SessionsEntitySubscription.build_query_builder self query project_ids
       environment params)
  = match first_token (SessionsEntitySubscription.aggregate self) with
    | Some tok =>
        Ok [SessionsEntitySubscription.aggregate self;
            ("identity(" ++ tok ++ ") AS " ++ CRASH_RATE_ALERT_SESSION_COUNT_ALIAS)%string]
    | None => Raise UnsupportedQuerySubscription
    end.
Proof.
  unfold SessionsEntitySubscription.build_query_builder, Re.re_search.
  rewrite <- search_from_first_token with (pos := 0%nat).
  now destruct (Re.search_from _ 0 _).
Qed.

(** C10: the sessions query gets its total-count column from the first
    occurrence of [sessions] or [users] in the aggregate: when it is
    [sessions] the column is [identity(sessions) AS <alias>], when it is
    [users] it is [identity(users) AS <alias>].  So every
    [percentage(sessions_crashed, X)] counts sessions and
    [percentage(users_crashed, sessions)] counts users: the numerator
    decides, not the second argument. *)
Theorem sessions_count_column self query project_ids environment params :
  let columns :=
    selected_columns
      (SessionsEntitySubscription.build_query_builder self query project_ids
         environment params) in
  let aggregate := SessionsEntitySubscription.aggregate self in
  let identity tok :=
    ("identity(" ++ tok ++ ") AS " ++ CRASH_RATE_ALERT_SESSION_COUNT_ALIAS)%string in
  (forall tok, denominator tok -> first_occurrence tok aggregate ->
     columns = Ok [aggregate; identity tok])
  /\ (forall X, aggregate = ("percentage(sessions_crashed, " ++ X)%string ->
        columns = Ok [aggregate; identity "sessions"])
  /\ (aggregate = "percentage(users_crashed, sessions)" ->
        columns = Ok [aggregate; identity "users"]).
Proof.
  cbv zeta. rewrite build_query_builder_columns.
  split; [| split].
  - intros tok Hd Hfirst.
    now rewrite (first_occurrence_first_token _ _ Hd Hfirst).
  - intros X ->. reflexivity.
  - intros ->. reflexivity.
Qed.

End SessionsQuery.

Lemma sessions_count_column_witness :
  @selected_columns
    (@SessionsEntitySubscription.build_query_builder sample_collaborators
       (sample_sessions "percentage(users_crashed, sessions)") EmptyString [1] None None)
  = Ok ["percentage(users_crashed, sessions)"; "identity(users) AS _total_count"].
Proof.
  apply (proj1 (@sessions_count_column sample_collaborators
                  (sample_sessions "percentage(users_crashed, sessions)")
                  EmptyString [1] None None) "users").
  - now right.
  - exists 11%nat. split.
    + exists "percentage(", "_crashed, sessions)". split; reflexivity.
    + intros t j Ht (pre & post & Hs & <-).
      simpl in Hs.
      destruct Ht as [-> | ->];
        do 11 (destruct pre as [| ? pre]; [discriminate Hs | injection Hs as _ Hs]);
        simpl; lia.
Defined.

(** ** Result normalisation: the code and the function of the rows *)

Section Normalisation.
Context `{Collaborators}.

Lemma getitem_eq l key st :
  getitem l key st
  = (match heap st !! l with
     | None => Raise DanglingReference
     | Some d => match d !! key with Some v => Ok v | None => Raise KeyError end
     end, st).
Proof.
  unfold getitem, mbind, deref.
  destruct (heap st !! l) as [d |]; [| reflexivity].
  now destruct (d !! key).
Qed.

Lemma translate_rows_translated session_status value_col_name data acc st :
  BaseMetricsEntitySubscription.translate_rows session_status value_col_name data acc st
  = (translated session_status value_col_name (rows_of st data) acc, st).
Proof.
  revert acc. induction data as [| row data IH]; intros acc; [reflexivity |].
  cbn [BaseMetricsEntitySubscription.translate_rows rows_of map translated].
  unfold mbind at 1. rewrite getitem_eq.
  destruct (heap st !! row) as [d |] eqn:Hrow; [| reflexivity].
  destruct (d !! session_status) as [tag_index |]; [| reflexivity].
  cbv zeta.
  destruct (reverse_resolve_tag_value tag_index) as [[| a label] |];
    try reflexivity.
  unfold mbind at 1. rewrite getitem_eq, Hrow.
  destruct (d !! value_col_name) as [v |]; [| reflexivity].
  apply IH.
Qed.

Lemma translate_sessions_counts data org alias st :
  BaseMetricsEntitySubscription.translate_sessions_tag_keys_and_values data org alias st
  = ((counts_v1 (rows_of st data) org alias).1,
     {| heap := heap st;
        telemetry := telemetry st ++ (counts_v1 (rows_of st data) org alias).2 |}).
Proof.
  destruct st as [h t].
  unfold BaseMetricsEntitySubscription.translate_sessions_tag_keys_and_values,
    try_except_MetricIndexNotFound, counts_v1, mbind at 1, lift.
  destruct (resolve_tag_key org "session.status") as [status | e]; cbn [rbind].
  - unfold mbind at 1. rewrite translate_rows_translated.
    destruct (translated _ _ _ _) as [td | e]; cbn [rbind].
    + unfold mret. cbn. now rewrite app_nil_r.
    + destruct e; cbn; now rewrite ?app_nil_r.
  - destruct e; cbn; now rewrite ?app_nil_r.
Qed.

Lemma crash_free_result_outcome total crashed alias st :
  BaseMetricsEntitySubscription.crash_free_result total crashed alias st
  = after_metrics st (rate_of_counts total crashed) alias.
Proof.
  destruct st as [h t].
  unfold BaseMetricsEntitySubscription.crash_free_result, rate_of_counts.
  destruct (PyNum.eq_zero total).
  - reflexivity.
  - unfold mbind at 1, lift.
    destruct (crash_free_rate crashed total) as [v | e]; cbn;
      now rewrite ?app_nil_r.
Qed.

Lemma is_crash_rate_format_v2_eq data st :
  BaseMetricsEntitySubscription.is_crash_rate_format_v2 data st
  = (format_v2 (rows_of st data), st).
Proof.
  destruct data as [| row data]; [reflexivity |].
  cbn [BaseMetricsEntitySubscription.is_crash_rate_format_v2 rows_of map format_v2].
  unfold contains, mbind, deref.
  now destruct (heap st !! row).
Qed.

Lemma aggregate_v2_counts self data alias st :
  BaseMetricsEntitySubscription._aggregate_query_results_v2 self data alias st
  = match counts_v2 (rows_of st data) with
    | Ok (total, crashed) => after_metrics st (rate_of_counts total crashed) alias
    | Raise e => (Raise e, st)
    end.
Proof.
  unfold BaseMetricsEntitySubscription._aggregate_query_results_v2, counts_v2.
  destruct data as [| row data].
  - unfold mbind at 1, mret. apply crash_free_result_outcome.
  - cbn [rows_of map length]. rewrite length_map.
    unfold mbind at 1, mbind at 1, assert.
    destruct (S (length data) =? 1)%nat; [| reflexivity].
    unfold mret at 1. unfold mbind at 1. rewrite getitem_eq.
    destruct (heap st !! row) as [d |] eqn:Hrow; [| reflexivity].
    destruct (d !! "count") as [total |]; [| reflexivity].
    unfold mbind at 1. rewrite getitem_eq, Hrow.
    destruct (d !! "crashed") as [crashed |]; [| reflexivity].
    unfold mret. apply crash_free_result_outcome.
Qed.

(** What a metrics subscription does on a batch is what
    [metrics_outcome] says of the rows of the batch. *)
Lemma metrics_aggregate_outcome self data alias st :
  aggregate_query_results (Metrics self) data alias st
  = after_metrics st
      (metrics_outcome (rows_of st data) (BaseMetricsEntitySubscription.org_id self) alias)
      alias.
Proof.
  cbn [aggregate_query_results].
  unfold BaseMetricsEntitySubscription.aggregate_query_results, metrics_outcome.
  unfold mbind at 1. rewrite is_crash_rate_format_v2_eq.
  destruct (format_v2 (rows_of st data)) as [[|] | e];
    [| | destruct st as [h t]; cbn; now rewrite app_nil_r].
  - unfold mbind at 1. rewrite aggregate_v2_counts.
    destruct (counts_v2 (rows_of st data)) as [[total crashed] | e].
    + destruct (rate_of_counts total crashed) as [[v | e] evs]; destruct st as [h t];
        cbn; now rewrite ?app_nil_r, <- ?app_assoc.
    + destruct st as [h t]; cbn. now rewrite app_nil_r.
  - unfold mbind at 1.
    unfold BaseMetricsEntitySubscription._aggregate_query_results_v1, mbind at 1.
    rewrite translate_sessions_counts.
    destruct (counts_v1 (rows_of st data) _ alias) as [[[total crashed] | e] evs1].
    + cbn [fst snd]. rewrite crash_free_result_outcome.
      destruct (rate_of_counts total crashed) as [[v | e] evs]; destruct st as [h t];
        cbn; now rewrite ?app_nil_r, <- ?app_assoc.
    + reflexivity.
Qed.

End Normalisation.

(** ** Rounding to decimals *)

Lemma round_half_even_nearest n d :
  0 < d -> nearest_integer n d (PyNum.round_half_even n d).
Proof.
  intros Hd. unfold nearest_integer, PyNum.round_half_even.
  pose proof (Z.div_mod n d ltac:(lia)) as Hn.
  pose proof (Z.mod_pos_bound n d Hd) as Hr.
  set (q := n / d) in *. set (r := n mod d) in *.
  destruct (Z.compare_spec (2 * r) d) as [He | Hl | Hg].
  - destruct (Z.even q) eqn:Hq.
    + split; [nia | auto].
    + split; [nia |]. intros _. rewrite Z.even_add, Hq. reflexivity.
  - split; [nia | nia].
  - split; [nia | nia].
Qed.

Lemma nearest_integer_unique n d k k' :
  0 < d -> nearest_integer n d k -> nearest_integer n d k' -> k = k'.
Proof.
  intros Hd [Hk Ek] [Hk' Ek'].
  assert (Hclose : k' = k \/ k' = k + 1 \/ k' = k - 1).
  { apply Z.abs_le in Hk, Hk'.
    assert (Hup : (k' - k) * d <= 1 * d) by nia.
    assert (Hlow : (-1) * d <= (k' - k) * d) by nia.
    apply Z.mul_le_mono_pos_r in Hup, Hlow; lia. }
  destruct Hclose as [-> | [-> | ->]]; [reflexivity | |].
  - assert (Z.even k = true) by (apply Ek; lia).
    assert (Z.even (k + 1) = true) by (apply Ek'; lia).
    rewrite Z.even_add in *. destruct (Z.even k); discriminate.
  - assert (Z.even k = true) by (apply Ek; lia).
    assert (Z.even (k - 1) = true) by (apply Ek'; lia).
    rewrite Z.even_sub in *. destruct (Z.even k); discriminate.
Qed.

Lemma nearest_integer_exact n : nearest_integer n 1 n.
Proof.
  unfold nearest_integer. replace (n - n * 1) with 0 by ring.
  split; [discriminate | discriminate].
Qed.

(** What [round] computes is the rounding of the value. *)
Lemma double_round_rounded x ndigits :
  rounded_to ndigits x (PyNum.double_round x ndigits).
Proof.
  unfold rounded_to, PyNum.double_round.
  destruct (Prim2SF x) as [s | s | | s m e]; try reflexivity.
  cbv zeta. destruct e as [| p | p].
  - eexists. split; [| reflexivity]. apply nearest_integer_exact.
  - eexists. split; [| reflexivity].
    replace (Z.max (- Zpos p) 0) with 0 by lia.
    replace (Z.max (Zpos p) 0) with (Zpos p) by lia.
    apply nearest_integer_exact.
  - eexists. split; [| reflexivity].
    replace (Z.max (Zneg p) 0) with 0 by lia.
    replace (Z.max (- Zneg p) 0) with (Zpos p) by lia.
    change (2 ^ 0) with 1. rewrite Z.mul_1_r.
    apply round_half_even_nearest. apply Z.pow_pos_nonneg; lia.
Qed.

(** A value has one rounding. *)
Lemma rounded_to_functional ndigits x r r' :
  rounded_to ndigits x r -> rounded_to ndigits x r' -> r = r'.
Proof.
  unfold rounded_to.
  destruct (Prim2SF x) as [s | s | | s m e]; try congruence.
  intros (k & Hk & ->) (k' & Hk' & ->).
  f_equal. eapply nearest_integer_unique; [| exact Hk | exact Hk'].
  apply Z.pow_pos_nonneg; lia.
Qed.

Lemma rounded_to_double_round ndigits x r :
  rounded_to ndigits x r -> r = PyNum.double_round x ndigits.
Proof. intros Hr. eapply rounded_to_functional, double_round_rounded. exact Hr. Qed.

Lemma float_of_int_1 : PyNum.float_of_int 1 = Ok 1%float.
Proof. vm_compute. reflexivity. Qed.

Lemma float_of_int_100 : PyNum.float_of_int 100 = Ok 100%float.
Proof. vm_compute. reflexivity. Qed.

(** A quotient is defined only for a divisor that is not zero. *)
Lemma truediv_nonzero a b q : PyNum.truediv a b = Ok q -> PyNum.eq_zero b = false.
Proof.
  unfold PyNum.truediv, PyNum.int_truediv, PyNum.float_truediv.
  destruct a as [| x | x | x], b as [| y | y | y]; try discriminate; cbn [PyNum.eq_zero].
  - now destruct y.
  - destruct (PyNum.float_of_int x) as [x' |]; [| discriminate]. cbn [rbind].
    now destruct (PrimFloat.eqb y 0).
  - destruct y; [vm_compute; discriminate | reflexivity | reflexivity].
  - now destruct (PrimFloat.eqb y 0).
Qed.

(** The rate of two counts with the quotient [q]: the value of
    [(1 - q) * 100] rounded to 3 decimals. *)
Lemma crash_free_rate_rounded crashed total q :
  PyNum.truediv crashed total = Ok (PyFloat q) ->
  exists r,
    rounded_to 3 ((1 - q) * 100) r /\ crash_free_rate crashed total = Ok (PyFloat r).
Proof.
  intros Hq. unfold crash_free_rate. rewrite Hq. cbn [rbind PyNum.sub].
  rewrite float_of_int_1. cbn [rbind PyNum.mul]. rewrite float_of_int_100.
  cbn [rbind PyNum.round]. eexists. split; [apply double_round_rounded | reflexivity].
Qed.

(** ** Metrics: format v2 *)

Section MetricsV2.
Context `{Collaborators}.

Lemma after_metrics_returns st v evs alias :
  returns_row (after_metrics st (Ok v, evs) alias) st
    {[ alias_or alias CRASH_RATE_ALERT_AGGREGATE_ALIAS := v ]}.
Proof. split; reflexivity. Qed.

Lemma counts_v1_nil org alias :
  exists evs, counts_v1 [] org alias = (Ok (PyInt 0, PyInt 0), evs).
Proof.
  unfold counts_v1, resolve_tag_key.
  destruct (tag_key_column org "session.status"); cbn; eauto.
Qed.

Lemma metrics_outcome_nil org alias :
  exists evs, metrics_outcome [] org alias = (Ok PyNone, evs).
Proof.
  unfold metrics_outcome. cbn [format_v2].
  destruct (counts_v1_nil org alias) as [evs ->]. cbn. eauto.
Qed.

Lemma format_v2_true st data :
  format_v2 (rows_of st data) = Ok true
  <-> exists row rest, data = row :: rest /\ has_crashed_field st row.
Proof.
  destruct data as [| row rest]; cbn.
  - split; [discriminate | intros (? & ? & [=] & _)].
  - unfold has_crashed_field. destruct (heap st !! row) as [d |] eqn:Hrow.
    + split.
      * intros [= Hd%bool_decide_eq_true_1]. eauto 6.
      * intros (? & ? & [= <- <-] & d' & Hd' & Hc).
        rewrite Hrow in Hd'. injection Hd' as <-.
        now rewrite bool_decide_eq_true_2.
    + split; [discriminate |].
      intros (? & ? & [= <- <-] & d' & Hd' & _). congruence.
Qed.

(** C2, as the code has it: a metrics subscription reads a batch as
    format v2 exactly when the batch is not empty and its first row has a
    [crashed] field; for a batch in which a [crashed] field comes with a
    single row, that is: exactly when a row has one.  A format-v2 batch
    that has not exactly one row fails the assertion.  On a single row
    with a [count] and a [crashed] field the total is the [count] and the
    crashed count the [crashed], and the one row returned, a new one,
    holds in the canonical column [None] when the total is zero, and
    otherwise the value of [(1 - q) * 100] rounded to 3 decimals, [q]
    being the quotient [crashed / total].  The empty batch gives [None]
    as well. *)
Theorem metrics_format_v2 self data alias st :
  let col := alias_or alias CRASH_RATE_ALERT_AGGREGATE_ALIAS in
  let outcome := aggregate_query_results (Metrics self) data alias st in
  let v2 := (BaseMetricsEntitySubscription.is_crash_rate_format_v2 data st).1 = Ok true in
  (v2 <-> exists row rest, data = row :: rest /\ has_crashed_field st row)
  /\ ((Exists (has_crashed_field st) data -> length data = 1%nat) ->
        v2_when_a_row_has_crashed data st)
  /\ (v2 -> length data <> 1%nat -> outcome = (Raise AssertionError, st))
  /\ (forall row d total crashed,
        data = [row] -> heap st !! row = Some d ->
        d !! "count" = Some total -> d !! "crashed" = Some crashed ->
        v2
        /\ (total = PyInt 0 \/ (exists t, total = PyFloat t /\ PrimFloat.eqb t 0 = true) ->
              returns_row outcome st {[ col := PyNone ]})
        /\ (forall q, PyNum.truediv crashed total = Ok (PyFloat q) ->
              exists r,
                rounded_to 3 ((1 - q) * 100) r
                /\ returns_row outcome st {[ col := PyFloat r ]})
        /\ (forall t c,
              total = PyFloat t -> crashed = PyFloat c -> PrimFloat.eqb t 0 = false ->
              exists r,
                rounded_to 3 ((1 - c / t) * 100) r
                /\ returns_row outcome st {[ col := PyFloat r ]})
        /\ (PyNum.eq_zero total = true -> returns_row outcome st {[ col := PyNone ]})
        /\ (forall rate, PyNum.eq_zero total = false ->
              crash_free_rate crashed total = Ok rate ->
              returns_row outcome st {[ col := rate ]}))
  /\ (data = [] -> returns_row outcome st {[ col := PyNone ]}).
Proof.
  cbv zeta. unfold v2_when_a_row_has_crashed.
  rewrite is_crash_rate_format_v2_eq, metrics_aggregate_outcome. cbn [fst].
  pose proof (format_v2_true st data) as Hv2.
  split; [exact Hv2 | split; [| split; [| split]]].
  - intros Hone. rewrite Hv2. split.
    + intros (row & rest & -> & Hrow). now left.
    + intros Hex. specialize (Hone Hex).
      destruct data as [| row [| row' rest]]; try discriminate.
      apply Exists_cons in Hex as [Hrow | Hnil]; [eauto | inversion Hnil].
  - intros Hf Hlen. unfold metrics_outcome. rewrite Hf.
    destruct data as [| row [| row' rest]]; [discriminate | contradiction |].
    destruct st as [h t]. cbn. now rewrite app_nil_r.
  - intros row d total crashed -> Hrow Hcount Hcrashed.
    assert (Hf : format_v2 (rows_of st [row]) = Ok true).
    { apply Hv2. exists row, []. split; [reflexivity |].
      exists d. split; [exact Hrow |]. rewrite Hcrashed. eauto. }
    split; [exact Hf |].
    unfold metrics_outcome. rewrite Hf.
    cbn [rows_of map counts_v2 length Nat.eqb]. rewrite Hrow, Hcount, Hcrashed.
    unfold rate_of_counts.
    assert (Hq : forall q, PyNum.truediv crashed total = Ok (PyFloat q) ->
              exists r,
                rounded_to 3 ((1 - q) * 100) r
                /\ returns_row
                     (after_metrics st
                        (let '(rate, evs2) :=
                           if PyNum.eq_zero total
                           then (Ok PyNone, [NO_SESSION_DATA_METRICS])
                           else (crash_free_rate crashed total, []) in
                         match rate with
                         | Ok v => (Ok v, ([] ++ evs2 ++ [FORMAT "v2"])%list)
                         | Raise e => (Raise e, ([] ++ evs2)%list)
                         end) alias) st
                     {[ alias_or alias CRASH_RATE_ALERT_AGGREGATE_ALIAS := PyFloat r ]}).
    { intros q Hq. rewrite (truediv_nonzero _ _ _ Hq).
      destruct (crash_free_rate_rounded _ _ _ Hq) as (r & Hr & ->).
      exists r. split; [exact Hr | apply after_metrics_returns]. }
    split; [| split; [exact Hq | split; [| split]]].
    + intros [-> | (t & -> & Ht)]; cbn [PyNum.eq_zero]; [| rewrite Ht];
        apply after_metrics_returns.
    + intros t c -> -> Ht. apply Hq.
      cbn [PyNum.truediv]. unfold PyNum.float_truediv. now rewrite Ht.
    + intros ->. apply after_metrics_returns.
    + intros rate -> ->. apply after_metrics_returns.
  - intros ->. cbn [rows_of map].
    destruct (metrics_outcome_nil (BaseMetricsEntitySubscription.org_id self) alias)
      as [evs ->].
    apply after_metrics_returns.
Qed.

End MetricsV2.

Lemma metrics_format_v2_witness :
  let run rows :=
    @aggregate_query_results sample_collaborators (Metrics (sample_metrics 3600))
      [0%nat] None (store_of rows) in
  let col := "crash_rate_alert_aggregate_value" in
  let ints := [ {[ "count" := PyInt 100; "crashed" := PyInt 5 ]} ] in
  let thirds := [ {[ "count" := PyInt 3; "crashed" := PyInt 1 ]} ] in
  let sevenths := [ {[ "count" := PyFloat 7; "crashed" := PyFloat 2 ]} ] in
  let zero := [ {[ "count" := PyFloat (-0); "crashed" := PyFloat 2 ]} ] in
  returns_row (run ints) (store_of ints) {[ col := PyFloat 95 ]}
  /\ returns_row (run thirds) (store_of thirds) {[ col := PyFloat 0x1.0aab020c49ba6p+6 ]}
  /\ returns_row (run sevenths) (store_of sevenths)
       {[ col := PyFloat 0x1.1db74bc6a7efap+6 ]}
  /\ returns_row (run zero) (store_of zero) {[ col := PyNone ]}
  /\ returns_row
       (@aggregate_query_results sample_collaborators (Metrics (sample_metrics 3600))
          [] None (store_of []))
       (store_of [])
       {[ col := PyNone ]}.
Proof.
  cbv zeta.
  assert (Hrow : forall d total crashed,
            d !! "count" = Some total -> d !! "crashed" = Some crashed ->
            (total = PyInt 0 \/ (exists t, total = PyFloat t /\ PrimFloat.eqb t 0 = true) ->
               returns_row
                 (@aggregate_query_results sample_collaborators
                    (Metrics (sample_metrics 3600)) [0%nat] None (store_of [d]))
                 (store_of [d]) {[ "crash_rate_alert_aggregate_value" := PyNone ]})
            /\ (forall q r, PyNum.truediv crashed total = Ok (PyFloat q) ->
                  PyNum.double_round ((1 - q) * 100) 3 = r ->
                  returns_row
                    (@aggregate_query_results sample_collaborators
                       (Metrics (sample_metrics 3600)) [0%nat] None (store_of [d]))
                    (store_of [d])
                    {[ "crash_rate_alert_aggregate_value" := PyFloat r ]})).
  { intros d total crashed Hcount Hcrashed.
    pose proof (@metrics_format_v2 sample_collaborators (sample_metrics 3600)
                  [0%nat] None (store_of [d])) as (_ & _ & _ & Hone & _).
    destruct (Hone 0%nat d total crashed eq_refl eq_refl Hcount Hcrashed)
      as (_ & Hzero & Hrate & _).
    split; [exact Hzero |].
    intros q r Hq <-. destruct (Hrate q Hq) as (r & Hr & Hret).
    now rewrite <- (rounded_to_double_round _ _ _ Hr). }
  split; [| split; [| split; [| split]]].
  - destruct (Hrow {[ "count" := PyInt 100; "crashed" := PyInt 5 ]} (PyInt 100) (PyInt 5))
      as [_ Hrate]; [reflexivity | reflexivity |].
    eapply Hrate; vm_compute; reflexivity.
  - destruct (Hrow {[ "count" := PyInt 3; "crashed" := PyInt 1 ]} (PyInt 3) (PyInt 1))
      as [_ Hrate]; [reflexivity | reflexivity |].
    eapply Hrate; vm_compute; reflexivity.
  - destruct (Hrow {[ "count" := PyFloat 7; "crashed" := PyFloat 2 ]}
                (PyFloat 7) (PyFloat 2))
      as [_ Hrate]; [reflexivity | reflexivity |].
    eapply Hrate; vm_compute; reflexivity.
  - destruct (Hrow {[ "count" := PyFloat (-0); "crashed" := PyFloat 2 ]}
                (PyFloat (-0)) (PyFloat 2))
      as [Hzero _]; [reflexivity | reflexivity |].
    apply Hzero. right. exists (-0)%float. split; reflexivity.
  - apply (@metrics_format_v2 sample_collaborators (sample_metrics 3600)
             [] None (store_of [])).
    reflexivity.
Defined.

(** C2 as stated fails: in a batch of two rows of which the second has a
    [crashed] field and the first has none, a row has a [crashed] field,
    and the batch is not read as format v2. *)
Lemma v2_read_off_first_row :
  ~ v2_when_a_row_has_crashed [0; 1]%nat
      (store_of [v1_row 1 3; {[ "count" := PyInt 100; "crashed" := PyInt 5 ]}]).
Proof.
  intros [_ Hv2].
  assert (Hex : Exists
            (has_crashed_field
               (store_of [v1_row 1 3; {[ "count" := PyInt 100; "crashed" := PyInt 5 ]}]))
            [0; 1]%nat).
  { right. left. eexists. split; [reflexivity |]. exists (PyInt 5). reflexivity. }
  specialize (Hv2 Hex). vm_compute in Hv2. discriminate Hv2.
Qed.

(** ** Sessions *)

Lemma crash_free_of_rate_number v :
  PyNum.is_number v = true ->
  crash_free_of_rate v
  = Ok match v with
       | PyInt z => PyInt ((1 - z) * 100)
       | PyFloat f => PyFloat (PyNum.double_round ((1 - f) * 100) 3)
       | _ => PyNone
       end.
Proof.
  destruct v as [| z | f | s]; try discriminate; intros _.
  - reflexivity.
  - unfold crash_free_of_rate. cbn [PyNum.sub]. rewrite float_of_int_1. cbn [rbind PyNum.mul].
    rewrite float_of_int_100. reflexivity.
Qed.

Section SessionsResults.
Context `{Collaborators}.

Lemma sessions_aggregate_row self row alias st d v :
  let col := alias_or alias CRASH_RATE_ALERT_AGGREGATE_ALIAS in
  heap st !! row = Some d -> d !! col = Some v ->
  SessionsEntitySubscription.aggregate_query_results self [row] alias st
  = if is_none v then
      (Ok [row],
       {| heap := heap st; telemetry := telemetry st ++ [NO_SESSION_DATA_SESSIONS] |})
    else
      match crash_free_of_rate v with
      | Ok rounded =>
          (Ok [row],
           {| heap := <[row := <[col := rounded]> d]> (heap st);
              telemetry := telemetry st |})
      | Raise e => (Raise e, st)
      end.
Proof.
  cbv zeta. intros Hrow Hv.
  unfold SessionsEntitySubscription.aggregate_query_results.
  unfold mbind at 1. cbn [length Nat.eqb assert mret].
  unfold mbind at 1. rewrite getitem_eq, Hrow, Hv.
  destruct (is_none v); cbn [negb].
  - reflexivity.
  - unfold mbind at 1, mbind at 1. rewrite getitem_eq, Hrow, Hv.
    unfold mbind at 1, lift.
    destruct (crash_free_of_rate v) as [rounded | e]; [| reflexivity].
    unfold setitem. now rewrite Hrow.
Qed.

Lemma crash_free_of_rate_of v v' :
  crash_free_of v v' -> crash_free_of_rate v = Ok v'.
Proof.
  destruct v as [| z | f | s]; cbn [crash_free_of]; try contradiction.
  - intros ->. reflexivity.
  - intros (r & Hr & ->).
    rewrite (crash_free_of_rate_number (PyFloat f)) by reflexivity.
    now rewrite (rounded_to_double_round _ _ _ Hr).
Qed.

Lemma crash_free_of_number v :
  PyNum.is_number v = true -> exists v', crash_free_of v v'.
Proof.
  destruct v as [| z | f | s]; try discriminate; intros _; cbn [crash_free_of].
  - eauto.
  - eexists. eexists. split; [apply double_round_rounded | reflexivity].
Qed.

(** C4, as the code has it: on a one-row batch a sessions subscription
    reads the canonical column, which is the alias when one is given and
    is not the empty string, and the default name otherwise; a number [v]
    in it is replaced by [round((1 - v) * 100, 3)], which for a float is
    the value of [(1 - v) * 100] rounded to 3 decimals; [None] stays, and
    the no-data counter is incremented; a batch that has not exactly one
    row fails the assertion. *)
Theorem sessions_aggregate_query_results self data alias st :
  let col := alias_or alias CRASH_RATE_ALERT_AGGREGATE_ALIAS in
  let outcome := aggregate_query_results (Sessions self) data alias st in
  (alias = None -> col = CRASH_RATE_ALERT_AGGREGATE_ALIAS)
  /\ (forall a, alias = Some a -> a <> EmptyString -> col = a)
  /\ (alias = Some EmptyString -> col = CRASH_RATE_ALERT_AGGREGATE_ALIAS)
  /\ (alias <> Some EmptyString -> col = alias_when_given alias)
  /\ (forall row, data = [row] -> transforms_column self row alias st col)
  /\ (forall row d v,
        data = [row] -> heap st !! row = Some d -> d !! col = Some v ->
        (v = PyNone ->
           outcome
           = (Ok [row],
              {| heap := heap st;
                 telemetry := telemetry st ++ [NO_SESSION_DATA_SESSIONS] |}))
        /\ (forall f, v = PyFloat f ->
              exists r,
                rounded_to 3 ((1 - f) * 100) r
                /\ outcome
                   = (Ok [row],
                      {| heap := <[row := <[col := PyFloat r]> d]> (heap st);
                         telemetry := telemetry st |}))
        /\ (forall rounded, v <> PyNone -> crash_free_of_rate v = Ok rounded ->
              outcome
              = (Ok [row],
                 {| heap := <[row := <[col := rounded]> d]> (heap st);
                    telemetry := telemetry st |})))
  /\ (forall v, PyNum.is_number v = true -> exists rounded, crash_free_of_rate v = Ok rounded)
  /\ (forall v, PyNum.is_number v = true -> exists v', crash_free_of v v')
  /\ (length data <> 1%nat -> outcome = (Raise AssertionError, st)).
Proof.
  cbv zeta. cbn [aggregate_query_results].
  split; [now intros -> |]. split.
  { intros a -> Ha. destruct a; [contradiction | reflexivity]. }
  split; [now intros -> |]. split.
  { intros Ha. destruct alias as [[| c a] |]; [contradiction | reflexivity | reflexivity]. }
  split; [| split; [| split; [| split]]].
  - intros row -> d v v' Hrow Hv Hfree. cbn [aggregate_query_results].
    rewrite (sessions_aggregate_row self row alias st d v Hrow Hv).
    rewrite (crash_free_of_rate_of _ _ Hfree).
    now destruct v.
  - intros row d v -> Hrow Hv.
    rewrite (sessions_aggregate_row self row alias st d v Hrow Hv). split; [| split].
    + intros ->. reflexivity.
    + intros f ->. exists (PyNum.double_round ((1 - f) * 100) 3).
      split; [apply double_round_rounded |].
      now rewrite (crash_free_of_rate_number (PyFloat f)) by reflexivity.
    + intros rounded Hnone ->. now destruct v.
  - intros v Hv. rewrite crash_free_of_rate_number by assumption. eauto.
  - apply crash_free_of_number.
  - intros Hlen. unfold SessionsEntitySubscription.aggregate_query_results.
    unfold mbind at 1.
    destruct (Nat.eqb_spec (length data) 1) as [Heq | Hne]; [contradiction |].
    reflexivity.
Qed.

End SessionsResults.

Lemma sessions_aggregate_query_results_witness :
  let col := "crash_rate_alert_aggregate_value" in
  @aggregate_query_results sample_collaborators (Sessions (sample_sessions "x"))
    [0%nat] None (store_of [ {[ col := PyFloat 0x1.999999999999ap-4 ]} ])
  = (Ok [0%nat], store_of [ {[ col := PyFloat 90 ]} ])
  /\ @aggregate_query_results sample_collaborators (Sessions (sample_sessions "x"))
       [0%nat] (Some "rate")
       (store_of [ {[ "rate" := PyFloat 0x1.f9add3739635fp-4; "_total_count" := PyInt 40 ]} ])
     = (Ok [0%nat],
        store_of [ {[ "rate" := PyFloat 0x1.5e9db22d0e560p+6; "_total_count" := PyInt 40 ]} ]).
Proof.
  cbv zeta. split.
  - pose proof (@sessions_aggregate_query_results sample_collaborators
                  (sample_sessions "x") [0%nat] None
                  (store_of [ {[ "crash_rate_alert_aggregate_value"
                                   := PyFloat 0x1.999999999999ap-4 ]} ]))
      as (_ & _ & _ & _ & Hcol & _).
    etransitivity; [apply (Hcol 0%nat eq_refl
               {[ "crash_rate_alert_aggregate_value" := PyFloat 0x1.999999999999ap-4 ]}
               (PyFloat 0x1.999999999999ap-4)
               (PyFloat (PyNum.double_round ((1 - 0x1.999999999999ap-4) * 100) 3)));
                     [reflexivity | reflexivity |]
                  | vm_compute; reflexivity].
    eexists. split; [apply double_round_rounded | reflexivity].
  - pose proof (@sessions_aggregate_query_results sample_collaborators
                  (sample_sessions "x") [0%nat] (Some "rate")
                  (store_of [ {[ "rate" := PyFloat 0x1.f9add3739635fp-4;
                                 "_total_count" := PyInt 40 ]} ]))
      as (_ & _ & _ & _ & Hcol & _).
    etransitivity; [apply (Hcol 0%nat eq_refl
               {[ "rate" := PyFloat 0x1.f9add3739635fp-4; "_total_count" := PyInt 40 ]}
               (PyFloat 0x1.f9add3739635fp-4)
               (PyFloat (PyNum.double_round ((1 - 0x1.f9add3739635fp-4) * 100) 3)));
                     [reflexivity | reflexivity |]
                  | vm_compute; reflexivity].
    eexists. split; [apply double_round_rounded | reflexivity].
Defined.

(** C4 as stated fails: with the empty string for alias the sessions
    class does not read the column of that name: it reads the default
    column, and leaves the other as it is. *)
Lemma sessions_empty_alias :
  ~ @transforms_column sample_collaborators (sample_sessions "x") 0%nat (Some EmptyString)
      (store_of [ {[ EmptyString := PyFloat 0x1.999999999999ap-4;
                     "crash_rate_alert_aggregate_value" := PyFloat 0.5 ]} ])
      (@alias_when_given sample_collaborators (Some EmptyString)).
Proof.
  intros Hcol.
  specialize (Hcol {[ EmptyString := PyFloat 0x1.999999999999ap-4;
                      "crash_rate_alert_aggregate_value" := PyFloat 0.5 ]}
                (PyFloat 0x1.999999999999ap-4)
                (PyFloat (PyNum.double_round ((1 - 0x1.999999999999ap-4) * 100) 3))
                eq_refl eq_refl).
  assert (Hfree : crash_free_of (PyFloat 0x1.999999999999ap-4)
                    (PyFloat (PyNum.double_round ((1 - 0x1.999999999999ap-4) * 100) 3))).
  { eexists. split; [apply double_round_rounded | reflexivity]. }
  specialize (Hcol Hfree).
  apply (f_equal (fun o : result (list loc) * state =>
                    heap o.2 !! 0%nat ≫= (fun d => d !! EmptyString))) in Hcol.
  vm_compute in Hcol. discriminate Hcol.
Qed.

(** What the code does there: the default column is transformed. *)
Example sessions_empty_alias_values :
  @aggregate_query_results sample_collaborators (Sessions (sample_sessions "x"))
    [0%nat] (Some EmptyString)
    (store_of [ {[ EmptyString := PyFloat 0x1.999999999999ap-4;
                   "crash_rate_alert_aggregate_value" := PyFloat 0.5 ]} ])
  = (Ok [0%nat],
     store_of [ {[ EmptyString := PyFloat 0x1.999999999999ap-4;
                   "crash_rate_alert_aggregate_value" := PyFloat 50 ]} ]).
Proof. vm_compute. reflexivity. Qed.

(** ** Metrics: format v1 *)

Lemma foldl_insert_lookup (label : string) (lvs : list (string * value))
    (acc : gmap string value) :
  foldl (fun m lv => <[lv.1 := lv.2]> m) acc lvs !! label
  = match last_value label lvs with
    | Some v => Some v
    | None => acc !! label
    end.
Proof.
  revert acc. induction lvs as [| [l v] lvs IH]; intros acc; cbn [foldl last_value].
  - reflexivity.
  - rewrite IH. destruct (last_value label lvs) as [v' |]; [reflexivity |].
    cbn [fst snd]. destruct (decide (l = label)) as [-> | Hne].
    + apply lookup_insert_eq.
    + now apply lookup_insert_ne.
Qed.

Lemma last_value_summed (label : string) (lvs : list (string * value)) :
  NoDup (map fst lvs) ->
  Forall (fun lv => exists z, lv.2 = PyInt z) lvs ->
  default (PyInt 0) (last_value label lvs) = PyInt (summed label lvs).
Proof.
  induction lvs as [| [l v] lvs IH]; intros Hnd Hint; cbn [last_value summed].
  - reflexivity.
  - apply NoDup_cons in Hnd as [Hl Hnd]. apply Forall_cons in Hint as [[z Hz] Hint].
    cbn in Hz. subst v. specialize (IH Hnd Hint).
    destruct (decide (l = label)) as [-> | Hne].
    + assert (Hnone : last_value label lvs = None).
      { clear -Hl. induction lvs as [| [l' v'] lvs IH]; [reflexivity |].
        cbn [last_value map fst] in *.
        apply not_elem_of_cons in Hl as [Hne Hl].
        rewrite (IH Hl). now rewrite decide_False by congruence. }
      rewrite Hnone in *. cbn in IH. injection IH as <-. cbn. f_equal. lia.
    + destruct (last_value label lvs); cbn in *; rewrite IH; f_equal; lia.
Qed.

Section MetricsV1.
Context `{Collaborators}.

Lemma translated_labelled st session_status value_col_name data lvs acc :
  Forall2 (labelled st session_status value_col_name) data lvs ->
  translated session_status value_col_name (rows_of st data) acc
  = Ok (foldl (fun m lv => <[lv.1 := lv.2]> m) acc lvs).
Proof.
  intros Hl. revert acc.
  induction Hl as [| l [label v] data lvs (d & idx & Hd & Hidx & Hres & Hne & Hv) _ IH];
    intros acc; [reflexivity |].
  cbn [rows_of map translated foldl fst snd] in *.
  rewrite Hd, Hidx, Hres, Hv.
  destruct label as [| a label]; [contradiction |].
  apply IH.
Qed.

(** C3, as the code has it: on a format-v1 batch in which every row has
    the tag column and the value column and its tag value resolves, the
    total is the value of the last row whose label is [init] and the
    crashed count that of the last row whose label is [crashed]; a label
    that no row has gives 0.  The counts are the sums of the values of
    each label when no two rows have the same label and the values are
    integers.  These are the counts the rate of the batch is computed
    from. *)
Theorem v1_counts_last_row self data alias st session_status lvs :
  let org := BaseMetricsEntitySubscription.org_id self in
  let total := default (PyInt 0) (last_value "init" lvs) in
  let crashed := default (PyInt 0) (last_value "crashed" lvs) in
  resolve_tag_key org "session.status" = Ok session_status ->
  Forall2 (labelled st session_status (alias_or alias "value")) data lvs ->
  BaseMetricsEntitySubscription.translate_sessions_tag_keys_and_values data org alias st
  = (Ok (total, crashed), st)
  /\ BaseMetricsEntitySubscription._aggregate_query_results_v1 self data alias st
     = after_metrics st (rate_of_counts total crashed) alias
  /\ (NoDup (map fst lvs) -> Forall (fun lv => exists z, lv.2 = PyInt z) lvs ->
      total = PyInt (summed "init" lvs) /\ crashed = PyInt (summed "crashed" lvs)).
Proof.
  cbv zeta. intros Hkey Hl.
  assert (Hc : counts_v1 (rows_of st data) (BaseMetricsEntitySubscription.org_id self) alias
               = (Ok (default (PyInt 0) (last_value "init" lvs),
                      default (PyInt 0) (last_value "crashed" lvs)), [])).
  { unfold counts_v1. rewrite Hkey. cbn [rbind].
    rewrite (translated_labelled _ _ _ _ _ _ Hl). cbn [rbind].
    rewrite !foldl_insert_lookup, !lookup_empty.
    now destruct (last_value "init" lvs), (last_value "crashed" lvs). }
  assert (Ht : BaseMetricsEntitySubscription.translate_sessions_tag_keys_and_values
                 data (BaseMetricsEntitySubscription.org_id self) alias st
               = (Ok (default (PyInt 0) (last_value "init" lvs),
                      default (PyInt 0) (last_value "crashed" lvs)), st)).
  { rewrite translate_sessions_counts, Hc. destruct st as [h t]. cbn.
    now rewrite app_nil_r. }
  split; [exact Ht |]. split.
  - unfold BaseMetricsEntitySubscription._aggregate_query_results_v1, mbind at 1.
    rewrite Ht. apply crash_free_result_outcome.
  - intros Hnd Hint. split; now apply last_value_summed.
Qed.

End MetricsV1.

Lemma labelled_v1_row (rows : list (gmap string value)) l tag_index n label :
  rows !! l = Some (v1_row tag_index n) ->
  @reverse_resolve_tag_value sample_collaborators (PyInt tag_index) = Some label ->
  label <> EmptyString ->
  @labelled sample_collaborators (store_of rows) "tags[7]" "value" l (label, PyInt n).
Proof.
  intros Hl Hres Hne. exists (v1_row tag_index n), (PyInt tag_index).
  repeat split; try assumption; reflexivity.
Qed.

Lemma v1_counts_last_row_witness :
  let rows := [v1_row 1 3; v1_row 1 4; v1_row 2 1] in
  @BaseMetricsEntitySubscription.translate_sessions_tag_keys_and_values
    sample_collaborators [0; 1; 2]%nat 1 None (store_of rows)
  = (Ok (PyInt 4, PyInt 1), store_of rows).
Proof.
  cbv zeta.
  apply (@v1_counts_last_row sample_collaborators (sample_metrics 3600)
           [0; 1; 2]%nat None (store_of [v1_row 1 3; v1_row 1 4; v1_row 2 1])
           "tags[7]" [("init", PyInt 3); ("init", PyInt 4); ("crashed", PyInt 1)]).
  - reflexivity.
  - repeat constructor;
      (eapply labelled_v1_row; [reflexivity | reflexivity | discriminate]).
Defined.

(** C3 as stated fails: two rows of label [init], of values 3 and 4, give
    the total 4, not 7. *)
Lemma v1_counts_not_summed :
  ~ @counts_are_sums sample_collaborators [0; 1]%nat 1 None
      (store_of [v1_row 1 3; v1_row 1 4]).
Proof.
  intros Hsum.
  specialize (Hsum "tags[7]" [("init", PyInt 3); ("init", PyInt 4)] eq_refl).
  assert (Hl : Forall2 (@labelled sample_collaborators
                          (store_of [v1_row 1 3; v1_row 1 4]) "tags[7]" "value")
                 [0; 1]%nat [("init", PyInt 3); ("init", PyInt 4)]).
  { repeat constructor;
      (eapply labelled_v1_row; [reflexivity | reflexivity | discriminate]). }
  specialize (Hsum Hl). vm_compute in Hsum. discriminate Hsum.
Qed.

(** ** Calling twice *)

Lemma crash_free_of_rate_Ok v r :
  crash_free_of_rate v = Ok r -> PyNum.is_number r = true.
Proof.
  destruct v as [| z | f | s]; try discriminate.
  - intros [= <-]. reflexivity.
  - rewrite (crash_free_of_rate_number (PyFloat f)) by reflexivity.
    intros [= <-]. reflexivity.
Qed.

Lemma lookup_snoc {A} (l : list A) (x : A) : (l ++ [x])%list !! length l = Some x.
Proof. rewrite lookup_app_r by lia. now rewrite Nat.sub_diag. Qed.

Section Twice.
Context `{Collaborators}.

Lemma after_metrics_rows st outcome alias data :
  Forall (fun l => (l < length (heap st))%nat) data ->
  rows_of (after_metrics st outcome alias).2 data = rows_of st data.
Proof.
  intros Hvalid. unfold rows_of. apply map_ext_Forall.
  eapply Forall_impl; [exact Hvalid |]. intros l Hl. cbv beta.
  destruct outcome as [[v | e] evs]; cbn; [| reflexivity].
  now apply lookup_app_l.
Qed.

Lemma metrics_same_output_twice self data alias st :
  Forall (fun l => (l < length (heap st))%nat) data ->
  same_output_twice (Metrics self) data alias st.
Proof.
  intros Hvalid. unfold same_output_twice. cbv zeta.
  rewrite !metrics_aggregate_outcome, after_metrics_rows by assumption.
  destruct (metrics_outcome _ _ _) as [[v | e] evs]; unfold same_output; cbn.
  - now rewrite !lookup_snoc.
  - reflexivity.
Qed.

End Twice.

Section TwiceClaims.
Context `{Collaborators}.

(** C8, as the code has it: calling [aggregate_query_results] twice on
    the same batch yields the same output for the events and transactions
    classes, for the metrics classes (on a batch whose references are in
    the store) and for the sessions class when the value is [None].  For
    a value that is not [None] the sessions class overwrites the canonical
    column of the row of the batch, so that the second call transforms
    the value the first call has put there. *)
Theorem same_output_twice_spec data alias st :
  let col := alias_or alias CRASH_RATE_ALERT_AGGREGATE_ALIAS in
  (forall self, same_output_twice (EventsOrTransactions self) data alias st)
  /\ (forall self, Forall (fun l => (l < length (heap st))%nat) data ->
        same_output_twice (Metrics self) data alias st)
  /\ (forall self row d,
        data = [row] -> heap st !! row = Some d -> d !! col = Some PyNone ->
        same_output_twice (Sessions self) data alias st)
  /\ (forall self row d v once twice,
        data = [row] -> heap st !! row = Some d -> d !! col = Some v ->
        v <> PyNone ->
        crash_free_of_rate v = Ok once -> crash_free_of_rate once = Ok twice ->
        let o1 := aggregate_query_results (Sessions self) data alias st in
        let o2 := aggregate_query_results (Sessions self) data alias o1.2 in
        rows_of o1.2 data = [Some (<[col := once]> d)]
        /\ o2.1 = Ok data
        /\ rows_of o2.2 data = [Some (<[col := twice]> d)]).
Proof.
  cbv zeta. split; [| split; [| split]].
  - intros self. unfold same_output_twice, same_output. reflexivity.
  - intros self. apply metrics_same_output_twice.
  - intros self row d -> Hrow Hnone.
    unfold same_output_twice. cbv zeta. cbn [aggregate_query_results].
    rewrite (sessions_aggregate_row self row alias st d PyNone Hrow Hnone).
    cbn [is_none snd].
    erewrite (sessions_aggregate_row self row alias _ d PyNone); [| exact Hrow | exact Hnone].
    reflexivity.
  - intros self row d v once twice -> Hrow Hv Hnone Honce Htwice.
    cbn [aggregate_query_results].
    rewrite (sessions_aggregate_row self row alias st d v Hrow Hv), Honce.
    replace (is_none v) with false by (now destruct v).
    pose proof (lookup_lt_Some _ _ _ Hrow) as Hlt.
    cbn [snd fst rows_of map heap].
    assert (Hrow1 : <[row := <[alias_or alias CRASH_RATE_ALERT_AGGREGATE_ALIAS := once]> d]>
                      (heap st) !! row
                    = Some (<[alias_or alias CRASH_RATE_ALERT_AGGREGATE_ALIAS := once]> d))
      by now apply list_lookup_insert_eq.
    split; [now rewrite Hrow1 |].
    erewrite sessions_aggregate_row; [| exact Hrow1 | apply lookup_insert_eq].
    rewrite Htwice.
    replace (is_none once) with false
      by (apply crash_free_of_rate_Ok in Honce; now destruct once).
    cbn [fst snd heap]. split; [reflexivity |].
    rewrite list_insert_insert_eq, insert_insert_eq.
    now rewrite list_lookup_insert_eq.
Qed.

End TwiceClaims.

Lemma same_output_twice_spec_witness :
  @same_output_twice sample_collaborators (Metrics (sample_metrics 3600)) [0%nat] None
    (store_of [ {[ "count" := PyInt 100; "crashed" := PyInt 5 ]} ]).
Proof.
  apply (@same_output_twice_spec sample_collaborators [0%nat] None
           (store_of [ {[ "count" := PyInt 100; "crashed" := PyInt 5 ]} ])).
  repeat constructor.
Defined.

(** C8 as stated fails: the sessions class turns the rate 0.1 of its row
    into 90.0, and a second call on the same batch turns that 90.0 into
    -8900.0. *)
Lemma sessions_twice_differs :
  ~ @same_output_twice sample_collaborators (Sessions (sample_sessions "x")) [0%nat] None
      (store_of [ {[ "crash_rate_alert_aggregate_value" := PyFloat 0x1.999999999999ap-4 ]} ]).
Proof.
  unfold same_output_twice, same_output. cbv zeta. intros Hsame.
  apply (f_equal (fun rows : list (option (gmap string value)) =>
                    match rows with
                    | [Some d] => d !! "crash_rate_alert_aggregate_value"
                    | _ => None
                    end)) in Hsame.
  vm_compute in Hsame. discriminate Hsame.
Qed.

Example sessions_twice_values :
  let st := store_of [ {[ "crash_rate_alert_aggregate_value" := PyFloat 0x1.999999999999ap-4 ]} ] in
  let o1 := @aggregate_query_results sample_collaborators (Sessions (sample_sessions "x"))
              [0%nat] None st in
  let o2 := @aggregate_query_results sample_collaborators (Sessions (sample_sessions "x"))
              [0%nat] None o1.2 in
  o1 = (Ok [0%nat], store_of [ {[ "crash_rate_alert_aggregate_value" := PyFloat 90 ]} ])
  /\ o2 = (Ok [0%nat], store_of [ {[ "crash_rate_alert_aggregate_value" := PyFloat (-8900) ]} ]).
Proof. cbv zeta. split; vm_compute; reflexivity. Qed.

(** ** The shape of the output *)

Lemma truediv_Ok a b q : PyNum.truediv a b = Ok q -> exists f, q = PyFloat f.
Proof.
  unfold PyNum.truediv, PyNum.int_truediv, PyNum.float_truediv.
  destruct a as [| x | x | x], b as [| y | y | y]; try discriminate.
  - destruct y; [discriminate | |];
      (destruct x; [intros [= <-]; eauto | |]);
      (destruct (PyNum.ratio_to_sf _ _ _); [| discriminate | |];
       intros [= <-]; eauto).
  - destruct (PyNum.float_of_int x) as [x' |]; [| discriminate]. cbn [rbind].
    destruct (PrimFloat.eqb y 0); [discriminate |]. intros [= <-]; eauto.
  - destruct (PyNum.float_of_int y) as [y' |]; [| discriminate]. cbn [rbind].
    destruct (PrimFloat.eqb y' 0); [discriminate |]. intros [= <-]; eauto.
  - destruct (PrimFloat.eqb y 0); [discriminate |]. intros [= <-]; eauto.
Qed.

Lemma crash_free_rate_Ok crashed total v :
  crash_free_rate crashed total = Ok v ->
  exists f, v = PyFloat (PyNum.double_round f 3).
Proof.
  unfold crash_free_rate.
  destruct (PyNum.truediv crashed total) as [q |] eqn:Hq; [| discriminate].
  apply truediv_Ok in Hq as [f ->]. cbn [rbind PyNum.sub].
  rewrite float_of_int_1. cbn [rbind PyNum.mul]. rewrite float_of_int_100.
  cbn [rbind PyNum.round]. intros [= <-]. eauto.
Qed.

Lemma crash_free_rate_three_decimals crashed total v :
  crash_free_rate crashed total = Ok v ->
  exists r, v = PyFloat r /\ three_decimals r.
Proof.
  intros [f ->]%crash_free_rate_Ok. eexists. split; [reflexivity |].
  exists f. apply double_round_rounded.
Qed.

Section OneRow.
Context `{Collaborators}.

Lemma metrics_outcome_Ok rows org alias v evs :
  metrics_outcome rows org alias = (Ok v, evs) ->
  v = PyNone \/ exists r, v = PyFloat r /\ three_decimals r.
Proof.
  unfold metrics_outcome.
  destruct (format_v2 rows) as [v2 | e]; [| discriminate].
  destruct (if v2 then _ else _) as [[[total crashed] | e] evs1]; [| discriminate].
  unfold rate_of_counts.
  destruct (PyNum.eq_zero total).
  - intros [= <- _]. now left.
  - destruct (crash_free_rate crashed total) as [r |] eqn:Hr; [| discriminate].
    intros [= <- _]. right. eapply crash_free_rate_three_decimals, Hr.
Qed.

Lemma after_metrics_one_new_row st v evs alias :
  v = PyNone \/ (exists r, v = PyFloat r /\ three_decimals r) ->
  one_new_canonical_row (after_metrics st (Ok v, evs) alias) st alias.
Proof. intros Hv. exists v. split; [apply after_metrics_returns | exact Hv]. Qed.

Lemma one_new_canonical_row_one outcome st alias :
  one_new_canonical_row outcome st alias -> one_canonical_row outcome alias.
Proof.
  intros (v & [Hout Hheap] & Hv).
  exists (length (heap st)), {[ alias_or alias CRASH_RATE_ALERT_AGGREGATE_ALIAS := v ]}, v.
  split; [exact Hout |]. split; [rewrite Hheap; apply lookup_snoc |].
  split; [apply lookup_singleton_eq | exact Hv].
Qed.

Lemma metrics_outcome_v2_row d total crashed org alias :
  d !! "count" = Some total -> d !! "crashed" = Some crashed ->
  metrics_outcome [Some d] org alias
  = match rate_of_counts total crashed with
    | (Ok v, evs) => (Ok v, (evs ++ [FORMAT "v2"])%list)
    | (Raise e, evs) => (Raise e, evs)
    end.
Proof.
  intros Hcount Hcrashed. unfold metrics_outcome. cbn [format_v2].
  rewrite Hcrashed, bool_decide_eq_true_2 by eauto.
  cbn [counts_v2 length Nat.eqb]. rewrite Hcount, Hcrashed.
  now destruct (rate_of_counts total crashed) as [[v | e] evs].
Qed.

(** C9, as the code has it: for the metrics classes a call either raises
    or returns exactly one mapping, a new one: the store is as before
    with one dictionary more, which holds the canonical field and nothing
    else, with [None] or a float rounded to 3 decimals; it returns on the
    empty batch, and on a single row with a [count] and a [crashed] field
    of which the count is zero or the quotient is defined.  For the
    sessions class on a one-row batch whose canonical value is [None] or
    a number, the call returns that row, no new one, with [None] or
    [round((1 - value) * 100, 3)] in the canonical field.  The events and
    transactions classes return the batch they are given, whatever it
    holds. *)
Theorem one_row_spec data alias st :
  let col := alias_or alias CRASH_RATE_ALERT_AGGREGATE_ALIAS in
  (forall self,
     aggregate_query_results (EventsOrTransactions self) data alias st = (Ok data, st))
  /\ (forall self,
        let outcome := aggregate_query_results (Metrics self) data alias st in
        (exists e, outcome.1 = Raise e) \/ one_new_canonical_row outcome st alias)
  /\ (forall outcome,
        one_new_canonical_row outcome st alias -> one_canonical_row outcome alias)
  /\ (forall self, data = [] ->
        one_new_canonical_row
          (aggregate_query_results (Metrics self) data alias st) st alias)
  /\ (forall self row d total crashed,
        data = [row] -> heap st !! row = Some d ->
        d !! "count" = Some total -> d !! "crashed" = Some crashed ->
        PyNum.eq_zero total = true
        \/ (exists r, crash_free_rate crashed total = Ok r)
        \/ (exists q, PyNum.truediv crashed total = Ok q) ->
        one_new_canonical_row
          (aggregate_query_results (Metrics self) data alias st) st alias)
  /\ (forall self row d v,
        data = [row] -> heap st !! row = Some d -> d !! col = Some v ->
        v = PyNone \/ PyNum.is_number v = true ->
        let outcome := aggregate_query_results (Sessions self) data alias st in
        exists v',
          outcome.1 = Ok [row]
          /\ (heap outcome.2 !! row ≫= fun d' => d' !! col) = Some v'
          /\ length (heap outcome.2) = length (heap st)
          /\ (v = PyNone /\ v' = PyNone
              \/ crash_free_of v v' /\ crash_free_of_rate v = Ok v')).
Proof.
  cbv zeta. split; [reflexivity |]. split; [| split; [| split; [| split]]].
  - intros self. rewrite metrics_aggregate_outcome.
    destruct (metrics_outcome _ _ _) as [[v | e] evs] eqn:Ho.
    + right. eapply after_metrics_one_new_row, metrics_outcome_Ok, Ho.
    + left. exists e. reflexivity.
  - intros outcome. apply one_new_canonical_row_one.
  - intros self ->. rewrite metrics_aggregate_outcome. cbn [rows_of map].
    destruct (metrics_outcome_nil (BaseMetricsEntitySubscription.org_id self) alias)
      as [evs ->].
    apply after_metrics_one_new_row. now left.
  - intros self row d total crashed -> Hrow Hcount Hcrashed Hrate.
    rewrite metrics_aggregate_outcome. cbn [rows_of map]. rewrite Hrow.
    rewrite (metrics_outcome_v2_row d total crashed _ alias Hcount Hcrashed).
    unfold rate_of_counts.
    assert (Hdef : PyNum.eq_zero total = true
                   \/ exists r, crash_free_rate crashed total = Ok r).
    { destruct Hrate as [Hz | [Hr | [q Hq]]]; [now left | now right |].
      right. destruct (truediv_Ok _ _ _ Hq) as [f ->].
      destruct (crash_free_rate_rounded _ _ _ Hq) as (r & _ & Hr). eauto. }
    destruct Hdef as [-> | [r Hr]].
    + apply after_metrics_one_new_row. now left.
    + destruct (PyNum.eq_zero total).
      * apply after_metrics_one_new_row. now left.
      * rewrite Hr. apply after_metrics_one_new_row. right.
        eapply crash_free_rate_three_decimals, Hr.
  - intros self row d v -> Hrow Hv Hkind. cbn [aggregate_query_results].
    rewrite (sessions_aggregate_row self row alias st d v Hrow Hv).
    destruct Hkind as [-> | Hnum].
    + exists PyNone. cbn. rewrite Hrow. cbn. rewrite Hv. auto 6.
    + destruct (crash_free_of_number v Hnum) as [v' Hfree].
      rewrite (crash_free_of_rate_of _ _ Hfree).
      replace (is_none v) with false by (now destruct v).
      exists v'. cbn [fst snd heap]. split; [reflexivity |].
      rewrite list_lookup_insert_eq by (eapply lookup_lt_Some, Hrow).
      cbn. rewrite lookup_insert_eq. split; [reflexivity |].
      split; [apply length_insert |]. right. split; [exact Hfree | reflexivity].
Qed.

End OneRow.

Lemma one_row_spec_witness :
  let col := "crash_rate_alert_aggregate_value" in
  let thirds := store_of [ {[ "count" := PyInt 3; "crashed" := PyInt 1 ]} ] in
  let rate := store_of [ {[ col := PyFloat 0x1.f9add3739635fp-4 ]} ] in
  @one_new_canonical_row sample_collaborators
    (@aggregate_query_results sample_collaborators (Metrics (sample_metrics 3600))
       [0%nat] None thirds)
    thirds None
  /\ (heap (@aggregate_query_results sample_collaborators (Sessions (sample_sessions "x"))
              [0%nat] None rate).2 !! 0%nat ≫= fun d' => d' !! col)
     = Some (PyFloat 0x1.5e9db22d0e560p+6).
Proof.
  cbv zeta. split.
  - apply (proj1 (proj2 (proj2 (proj2 (proj2
             (@one_row_spec sample_collaborators [0%nat] None
                (store_of [ {[ "count" := PyInt 3; "crashed" := PyInt 1 ]} ]))))))
           (sample_metrics 3600) 0%nat
           {[ "count" := PyInt 3; "crashed" := PyInt 1 ]} (PyInt 3) (PyInt 1));
      [reflexivity | reflexivity | reflexivity | reflexivity |].
    right. right. eexists. vm_compute. reflexivity.
  - destruct (proj2 (proj2 (proj2 (proj2 (proj2
                (@one_row_spec sample_collaborators [0%nat] None
                   (store_of [ {[ "crash_rate_alert_aggregate_value"
                                    := PyFloat 0x1.f9add3739635fp-4 ]} ]))))))
                (sample_sessions "x") 0%nat
                {[ "crash_rate_alert_aggregate_value" := PyFloat 0x1.f9add3739635fp-4 ]}
                (PyFloat 0x1.f9add3739635fp-4))
      as (v' & _ & Hv' & _ & [[Hnone _] | [Hfree _]]);
      [reflexivity | reflexivity | reflexivity | right; reflexivity
      | discriminate Hnone |].
    etransitivity; [exact Hv' |].
    destruct Hfree as (r & Hr & ->).
    rewrite (rounded_to_double_round _ _ _ Hr). vm_compute. reflexivity.
Defined.

(** C9 as stated fails: the events class returns the empty batch it is
    given, which is not one mapping. *)
Lemma events_empty_batch :
  ~ @one_canonical_row sample_collaborators
      (@aggregate_query_results sample_collaborators (EventsOrTransactions sample_events)
         [] None (store_of []))
      None.
Proof. intros (l & d & v & Hout & _). discriminate Hout. Qed.

(** * Further properties of the module *)

(** ** The classifier and the factory *)

Lemma append_assoc (s t u : string) : ((s ++ t) ++ u = s ++ t ++ u)%string.
Proof. induction s as [| a s IH]; simpl; [reflexivity | now rewrite IH]. Qed.

Lemma crash_rate_shape_app g1 g2 s t :
  crash_rate_shape g1 g2 s -> crash_rate_shape g1 g2 (s ++ t).
Proof.
  intros (n1 & n2 & n3 & n4 & rest & ->).
  exists n1, n2, n3, n4, (rest ++ t)%string.
  now rewrite !append_assoc.
Qed.

Lemma crash_rate_parse_app s t pos rest g1 g2 :
  crash_rate_parse s = Some (pos, rest, g1, g2) ->
  exists pos' rest', crash_rate_parse (s ++ t) = Some (pos', rest', g1, g2).
Proof.
  intros (Hn & Hd & Hs)%crash_rate_parse_shape.
  apply crash_rate_shape_parse; [assumption | assumption |].
  now apply crash_rate_shape_app.
Qed.

(** X1: the pattern is not anchored at its end: when the classifier
    accepts an aggregate, it accepts the aggregate followed by any text,
    and gives the same entity. *)
Theorem map_aggregate_to_entity_key_suffix dataset aggregate t k :
  map_aggregate_to_entity_key dataset aggregate = Ok k ->
  map_aggregate_to_entity_key dataset (aggregate ++ t) = Ok k.
Proof.
  destruct dataset; try (intros H; exact H).
  - rewrite !map_sessions_parse.
    destruct (crash_rate_parse aggregate) as [[[[pos rest] g1] g2] |] eqn:Hp;
      [| discriminate].
    destruct (crash_rate_parse_app _ t _ _ _ _ Hp) as (pos' & rest' & ->).
    trivial.
  - rewrite !map_metrics_parse.
    destruct (crash_rate_parse aggregate) as [[[[pos rest] g1] g2] |] eqn:Hp;
      [| discriminate].
    destruct (crash_rate_parse_app _ t _ _ _ _ Hp) as (pos' & rest' & ->).
    trivial.
Qed.

Lemma map_aggregate_to_entity_key_suffix_witness :
  map_aggregate_to_entity_key QueryDatasets.METRICS
    ("percentage(users_crashed, users)" ++ " AS crash_free")
  = Ok EntityKey.MetricsSets.
Proof.
  apply (map_aggregate_to_entity_key_suffix QueryDatasets.METRICS
           "percentage(users_crashed, users)" " AS crash_free" EntityKey.MetricsSets).
  reflexivity.
Defined.

Lemma map_sessions_matches aggregate :
  map_aggregate_to_entity_key QueryDatasets.SESSIONS aggregate
  = Ok EntityKey.Sessions
  <-> crash_free_aggregate aggregate.
Proof.
  rewrite map_sessions_parse. unfold crash_free_aggregate.
  assert (Hds : denominator "sessions") by now left.
  assert (Hdu : denominator "users") by now right.
  destruct (crash_rate_parse aggregate) as [[[[pos rest] g1] g2] |] eqn:Hp.
  - rewrite (crash_rate_parse_counted _ _ _ _ _ _ Hp Hds),
            (crash_rate_parse_counted _ _ _ _ _ _ Hp Hdu).
    destruct (crash_rate_parse_shape _ _ _ _ _ Hp) as (_ & Hd & _). tauto.
  - pose proof (crash_rate_parse_None _ _ Hp Hds).
    pose proof (crash_rate_parse_None _ _ Hp Hdu).
    split; [discriminate | tauto].
Qed.

Lemma map_sessions_cases aggregate :
  (crash_free_aggregate aggregate
   /\ map_aggregate_to_entity_key QueryDatasets.SESSIONS aggregate = Ok EntityKey.Sessions)
  \/ (~ crash_free_aggregate aggregate
      /\ map_aggregate_to_entity_key QueryDatasets.SESSIONS aggregate
         = Raise UnsupportedQuerySubscription).
Proof.
  pose proof (map_sessions_matches aggregate) as Hm.
  rewrite map_sessions_parse in *.
  destruct (crash_rate_parse aggregate); [left | right]; split; try reflexivity.
  - now apply Hm.
  - intros Hc. apply Hm in Hc. discriminate.
Qed.

Lemma lacks_org_id_false extra_fields org :
  has_organization_id extra_fields org ->
  EntitySpecificParams.lacks_org_id extra_fields = false.
Proof. intros ([o e] & -> & Ho). cbn in Ho. now subst o. Qed.

Lemma organization_id_cases extra_fields :
  no_organization_id extra_fields \/ exists org, has_organization_id extra_fields org.
Proof.
  destruct extra_fields as [[[org |] e] |].
  - right. exists org. eexists. split; reflexivity.
  - left. right. eexists. split; reflexivity.
  - left. now left.
Qed.

Section Factory.
Context `{Collaborators}.

Lemma sessions_init_org aggregate time_window extra_fields org :
  has_organization_id extra_fields org ->
  SessionsEntitySubscription.__init__ aggregate time_window extra_fields
  = Ok {| SessionsEntitySubscription.time_col := "started";
          SessionsEntitySubscription.aggregate := aggregate;
          SessionsEntitySubscription.org_id := org |}.
Proof.
  intros Ho. unfold SessionsEntitySubscription.__init__.
  rewrite (lacks_org_id_false _ _ Ho).
  destruct Ho as ([o e] & -> & Ho). cbn in Ho. now subst o.
Qed.

(** X2: the outcomes of the factory on the sessions dataset.  It returns
    exactly when the aggregate matches the pattern and [extra_fields] has
    an organization id, and the instance then holds the aggregate, that
    organization and the time column [started].  The aggregate is
    checked first: an aggregate that does not match raises
    [UnsupportedQuerySubscription] whatever [extra_fields] is, and
    [InvalidQuerySubscription] is raised only for an aggregate that
    matches. *)
Theorem sessions_factory_outcomes aggregate time_window extra_fields :
  let made :=
    get_entity_subscription_for_dataset QueryDatasets.SESSIONS aggregate time_window
      extra_fields in
  (forall self, made = Ok self <->
     exists org,
       crash_free_aggregate aggregate /\ has_organization_id extra_fields org
       /\ self = Sessions {| SessionsEntitySubscription.time_col := "started";
                             SessionsEntitySubscription.aggregate := aggregate;
                             SessionsEntitySubscription.org_id := org |})
  /\ (made = Raise UnsupportedQuerySubscription <-> ~ crash_free_aggregate aggregate)
  /\ (made = Raise InvalidQuerySubscription
      <-> crash_free_aggregate aggregate /\ no_organization_id extra_fields).
Proof.
  cbv zeta. unfold get_entity_subscription_for_dataset.
  destruct (map_sessions_cases aggregate) as [[Hm ->] | [Hm ->]]; cbn [rbind].
  - cbn [ENTITY_KEY_TO_ENTITY_SUBSCRIPTION].
    destruct (organization_id_cases extra_fields) as [Hno | [org Ho]].
    + assert (Hnot : forall org, ~ has_organization_id extra_fields org).
      { intros org (ef & -> & Hef). destruct Hno as [[=] | (ef' & [= <-] & Hef')].
        congruence. }
      unfold SessionsEntitySubscription.__init__.
      rewrite (lacks_org_id_true _ Hno). cbn [rbind].
      split; [| split].
      * intros self. split; [discriminate |].
        intros (org & _ & Ho & _). now apply Hnot in Ho.
      * split; [discriminate | contradiction].
      * tauto.
    + rewrite (sessions_init_org _ _ _ _ Ho). cbn [rbind].
      assert (Hyes : ~ no_organization_id extra_fields).
      { destruct Ho as (ef & -> & Hef). intros [[=] | (ef' & [= <-] & Hef')].
        congruence. }
      split; [| split].
      * intros self. split.
        -- intros [= <-]. eauto.
        -- intros (org' & _ & Ho' & ->).
           destruct Ho as (ef & -> & Hef), Ho' as (ef' & [= <-] & Hef').
           congruence.
      * split; [discriminate | contradiction].
      * split; [discriminate | tauto].
  - split; [| split].
    + intros self. split; [discriminate |]. intros (org & Hc & _). contradiction.
    + tauto.
    + split; [discriminate | tauto].
Qed.

End Factory.

Lemma sessions_factory_outcomes_witness :
  @get_entity_subscription_for_dataset sample_collaborators QueryDatasets.SESSIONS
    "percentage(sessions_crashed, sessions)" 3600
    (Some {| EntitySpecificParams.org_id := Some 1;
             EntitySpecificParams.event_types := None |})
  = Ok (Sessions (sample_sessions "percentage(sessions_crashed, sessions)")).
Proof.
  apply (proj1 (@sessions_factory_outcomes sample_collaborators
                  "percentage(sessions_crashed, sessions)" 3600
                  (Some {| EntitySpecificParams.org_id := Some 1;
                           EntitySpecificParams.event_types := None |}))).
  exists 1. split; [| split].
  - left. left. exists 0%nat, 0%nat, 1%nat, 0%nat, EmptyString. reflexivity.
  - eexists. split; reflexivity.
  - reflexivity.
Defined.

Lemma crash_free_percentage_exclusive aggregate :
  ~ (crash_free_percentage "sessions" aggregate
     /\ crash_free_percentage "users" aggregate).
Proof.
  intros [Hs Hu].
  assert (Hds : denominator "sessions") by now left.
  assert (Hdu : denominator "users") by now right.
  destruct (crash_rate_parse aggregate) as [[[[pos rest] g1] g2] |] eqn:Hp.
  - apply (crash_rate_parse_counted _ _ _ _ _ _ Hp Hds) in Hs.
    apply (crash_rate_parse_counted _ _ _ _ _ _ Hp Hdu) in Hu. congruence.
  - now apply (crash_rate_parse_None _ _ Hp Hds).
Qed.

Lemma map_metrics_cases aggregate :
  (crash_free_percentage "sessions" aggregate
   /\ map_aggregate_to_entity_key QueryDatasets.METRICS aggregate
      = Ok EntityKey.MetricsCounters)
  \/ (crash_free_percentage "users" aggregate
      /\ map_aggregate_to_entity_key QueryDatasets.METRICS aggregate
         = Ok EntityKey.MetricsSets)
  \/ (~ crash_free_aggregate aggregate
      /\ map_aggregate_to_entity_key QueryDatasets.METRICS aggregate
         = Raise UnsupportedQuerySubscription).
Proof.
  rewrite map_metrics_parse. unfold crash_free_aggregate.
  assert (Hds : denominator "sessions") by now left.
  assert (Hdu : denominator "users") by now right.
  destruct (crash_rate_parse aggregate) as [[[[pos rest] g1] g2] |] eqn:Hp.
  - destruct (crash_rate_parse_shape _ _ _ _ _ Hp) as (_ & Hd & _).
    destruct (decide (g2 = "sessions")) as [-> | Hne].
    + left. split; [| reflexivity].
      now apply (crash_rate_parse_counted _ _ _ _ _ _ Hp Hds).
    + right. left. split; [| reflexivity].
      destruct Hd as [-> | ->]; [contradiction |].
      now apply (crash_rate_parse_counted _ _ _ _ _ _ Hp Hdu).
  - right. right. split; [| reflexivity].
    pose proof (crash_rate_parse_None _ _ Hp Hds).
    pose proof (crash_rate_parse_None _ _ Hp Hdu). tauto.
Qed.

Section MetricsFactory.
Context `{Collaborators}.

Lemma metrics_init_cases c aggregate time_window extra_fields :
  (no_organization_id extra_fields
   /\ BaseMetricsEntitySubscription.__init__ c aggregate time_window extra_fields
      = Raise InvalidQuerySubscription)
  \/ (exists org,
        has_organization_id extra_fields org
        /\ tag_key_column org "session.status" = None
        /\ BaseMetricsEntitySubscription.__init__ c aggregate time_window extra_fields
           = Raise MetricIndexNotFound)
  \/ (exists org status,
        has_organization_id extra_fields org
        /\ tag_key_column org "session.status" = Some status
        /\ BaseMetricsEntitySubscription.__init__ c aggregate time_window extra_fields
           = Ok {| BaseMetricsEntitySubscription.cls := c;
                   BaseMetricsEntitySubscription.time_col := "timestamp";
                   BaseMetricsEntitySubscription.aggregate := aggregate;
                   BaseMetricsEntitySubscription.org_id := org;
                   BaseMetricsEntitySubscription.session_status := status;
                   BaseMetricsEntitySubscription.time_window := time_window |}).
Proof.
  unfold BaseMetricsEntitySubscription.__init__.
  destruct (organization_id_cases extra_fields) as [Hno | [org Ho]].
  - left. split; [exact Hno |]. now rewrite (lacks_org_id_true _ Hno).
  - right. rewrite (lacks_org_id_false _ _ Ho).
    pose proof Ho as ([o e] & -> & Hef). cbn in Hef. subst o.
    unfold resolve_tag_key.
    destruct (tag_key_column org "session.status") as [status |] eqn:Hkey.
    + right. exists org, status. split; [exact Ho |]. split; [exact Hkey |].
      now destruct c.
    + left. exists org. split; [exact Ho |]. split; [exact Hkey | reflexivity].
Qed.

(** X3: the outcomes of the factory on the metrics dataset, of which
    exactly one applies.  The aggregate is checked first, then the
    organization id, then the tag key [session.status] is resolved for that
    organization: a key that is not indexed makes the construction raise
    [MetricIndexNotFound].  Otherwise the instance is of the counters class
    for the second group [sessions] and of the sets class for [users], and
    holds the aggregate, the organization, the resolved column and the
    time window. *)
Theorem metrics_factory_outcomes aggregate time_window extra_fields :
  let made :=
    get_entity_subscription_for_dataset QueryDatasets.METRICS aggregate time_window
      extra_fields in
  ((~ crash_free_aggregate aggregate /\ made = Raise UnsupportedQuerySubscription)
   \/ (crash_free_aggregate aggregate /\ no_organization_id extra_fields
       /\ made = Raise InvalidQuerySubscription)
   \/ (exists org,
         crash_free_aggregate aggregate /\ has_organization_id extra_fields org
         /\ tag_key_column org "session.status" = None
         /\ made = Raise MetricIndexNotFound)
   \/ (exists org status c,
         has_organization_id extra_fields org
         /\ tag_key_column org "session.status" = Some status
         /\ (crash_free_percentage "sessions" aggregate
             /\ c = BaseMetricsEntitySubscription.MetricsCountersEntitySubscription
             \/ crash_free_percentage "users" aggregate
                /\ c = BaseMetricsEntitySubscription.MetricsSetsEntitySubscription)
         /\ made
            = Ok (Metrics
                    {| BaseMetricsEntitySubscription.cls := c;
                       BaseMetricsEntitySubscription.time_col := "timestamp";
                       BaseMetricsEntitySubscription.aggregate := aggregate;
                       BaseMetricsEntitySubscription.org_id := org;
                       BaseMetricsEntitySubscription.session_status := status;
                       BaseMetricsEntitySubscription.time_window := time_window |})))
  /\ ~ (crash_free_percentage "sessions" aggregate
        /\ crash_free_percentage "users" aggregate)
  /\ ~ (no_organization_id extra_fields /\ exists org, has_organization_id extra_fields org).
Proof.
  cbv zeta. split; [| split; [apply crash_free_percentage_exclusive |]].
  - unfold get_entity_subscription_for_dataset.
    destruct (map_metrics_cases aggregate) as [[Hm ->] | [[Hm ->] | [Hm ->]]];
      cbn [rbind ENTITY_KEY_TO_ENTITY_SUBSCRIPTION].
    + assert (Hc : crash_free_aggregate aggregate) by now left.
      destruct (metrics_init_cases
                  BaseMetricsEntitySubscription.MetricsCountersEntitySubscription
                  aggregate time_window extra_fields)
        as [[Hno ->] | [(org & Ho & Hk & ->) | (org & status & Ho & Hk & ->)]];
        cbn [rbind].
      * right. left. auto.
      * right. right. left. exists org. auto.
      * right. right. right. exists org, status. eexists. eauto 6.
    + assert (Hc : crash_free_aggregate aggregate) by now right.
      destruct (metrics_init_cases
                  BaseMetricsEntitySubscription.MetricsSetsEntitySubscription
                  aggregate time_window extra_fields)
        as [[Hno ->] | [(org & Ho & Hk & ->) | (org & status & Ho & Hk & ->)]];
        cbn [rbind].
      * right. left. auto.
      * right. right. left. exists org. auto.
      * right. right. right. exists org, status. eexists. eauto 6.
    + left. auto.
  - intros [Hno (org & ef & -> & Hef)].
    destruct Hno as [[=] | (ef' & [= <-] & Hef')]. congruence.
Qed.

(** X4: what the factory returns is an instance for the dataset it was
    asked for: the dataset of the instance is that dataset, its entity key
    is the one the classifier gives for the dataset and the aggregate, its
    time column is the column of that entity, and it holds the
    aggregate. *)
Theorem factory_instance_invariant dataset aggregate time_window extra_fields self :
  get_entity_subscription_for_dataset dataset aggregate time_window extra_fields
  = Ok self ->
  self_dataset self = dataset
  /\ map_aggregate_to_entity_key dataset aggregate = Ok (self_entity_key self)
  /\ self_time_col self = ENTITY_TIME_COLUMNS (self_entity_key self)
  /\ self_aggregate self = aggregate.
Proof.
  unfold get_entity_subscription_for_dataset.
  destruct dataset.
  - cbn. intros [= <-]. auto.
  - cbn. intros [= <-]. auto.
  - destruct (map_sessions_cases aggregate) as [[_ ->] | [_ ->]]; [| discriminate].
    cbn [rbind ENTITY_KEY_TO_ENTITY_SUBSCRIPTION].
    unfold SessionsEntitySubscription.__init__.
    destruct (EntitySpecificParams.lacks_org_id extra_fields); [discriminate |].
    destruct extra_fields as [[[org |] e] |]; try discriminate.
    cbn. intros [= <-]. auto.
  - destruct (map_metrics_cases aggregate) as [[_ ->] | [[_ ->] | [_ ->]]];
      [| | discriminate]; cbn [rbind ENTITY_KEY_TO_ENTITY_SUBSCRIPTION].
    + destruct (metrics_init_cases
                  BaseMetricsEntitySubscription.MetricsCountersEntitySubscription
                  aggregate time_window extra_fields)
        as [[_ ->] | [(org & _ & _ & ->) | (org & status & _ & _ & ->)]];
        [discriminate | discriminate |].
      cbn. intros [= <-]. auto.
    + destruct (metrics_init_cases
                  BaseMetricsEntitySubscription.MetricsSetsEntitySubscription
                  aggregate time_window extra_fields)
        as [[_ ->] | [(org & _ & _ & ->) | (org & status & _ & _ & ->)]];
        [discriminate | discriminate |].
      cbn. intros [= <-]. auto.
Qed.

End MetricsFactory.

Lemma factory_instance_invariant_witness :
  self_dataset (Metrics (sample_metrics 3600)) = QueryDatasets.METRICS
  /\ map_aggregate_to_entity_key QueryDatasets.METRICS
       "percentage(sessions_crashed, sessions)"
     = Ok (self_entity_key (Metrics (sample_metrics 3600)))
  /\ self_time_col (Metrics (sample_metrics 3600))
     = ENTITY_TIME_COLUMNS (self_entity_key (Metrics (sample_metrics 3600)))
  /\ self_aggregate (Metrics (sample_metrics 3600))
     = "percentage(sessions_crashed, sessions)".
Proof.
  apply (@factory_instance_invariant sample_collaborators QueryDatasets.METRICS
           "percentage(sessions_crashed, sessions)" 3600
           (Some {| EntitySpecificParams.org_id := Some 1;
                    EntitySpecificParams.event_types := None |})
           (Metrics (sample_metrics 3600))).
  reflexivity.
Defined.

(** ** Extra parameters and granularity *)

Lemma get_granularity_window self :
  BaseMetricsEntitySubscription.get_granularity self
  = granularity_of_window (BaseMetricsEntitySubscription.time_window self).
Proof.
  unfold BaseMetricsEntitySubscription.get_granularity, granularity_of_window.
  repeat match goal with
         | |- context [?a <=? ?b] => destruct (Z.leb_spec a b)
         | |- context [?a <? ?b] => destruct (Z.ltb_spec a b)
         end; cbn; lia.
Qed.

(** X5: the granularity grows with the time window; it does not exceed a
    window of at least 10 seconds, and a window of up to a day spans at
    most 360 buckets of its granularity. *)
Theorem get_granularity_order (self self' : BaseMetricsEntitySubscription.t) :
  let w := BaseMetricsEntitySubscription.time_window self in
  let w' := BaseMetricsEntitySubscription.time_window self' in
  let g := BaseMetricsEntitySubscription.get_granularity self in
  let g' := BaseMetricsEntitySubscription.get_granularity self' in
  (w <= w' -> g <= g')
  /\ (10 <= w -> g <= w)
  /\ (w <= 86400 -> w <= 360 * g).
Proof.
  cbv zeta. rewrite !get_granularity_window. unfold granularity_of_window.
  repeat match goal with
         | |- context [?a <=? ?b] => destruct (Z.leb_spec a b)
         end; lia.
Qed.

Lemma get_granularity_order_witness :
  BaseMetricsEntitySubscription.get_granularity (sample_metrics 3600)
  <= BaseMetricsEntitySubscription.get_granularity (sample_metrics 7200)
  /\ BaseMetricsEntitySubscription.get_granularity (sample_metrics 7200) <= 7200
  /\ 7200 <= 360 * BaseMetricsEntitySubscription.get_granularity (sample_metrics 7200).
Proof.
  split; [| split].
  - apply (proj1 (get_granularity_order (sample_metrics 3600) (sample_metrics 7200))).
    simpl. lia.
  - apply (proj1 (proj2 (get_granularity_order (sample_metrics 7200) (sample_metrics 7200)))).
    simpl. lia.
  - apply (proj2 (proj2 (get_granularity_order (sample_metrics 7200) (sample_metrics 7200)))).
    simpl. lia.
Defined.

Section ExtraParams.
Context `{Collaborators}.

(** X6: the extra parameters of an instance the factory returns.  The
    organization id given in [extra_fields] comes back under
    [organization] for the sessions and metrics datasets, the metrics
    datasets add the granularity of the time window given, and the events
    and transactions datasets have no extra parameter, whatever
    [extra_fields] holds. *)
Theorem factory_extra_params dataset aggregate time_window extra_fields self :
  get_entity_subscription_for_dataset dataset aggregate time_window extra_fields
  = Ok self ->
  match dataset with
  | QueryDatasets.EVENTS | QueryDatasets.TRANSACTIONS =>
      get_entity_extra_params self = ∅
  | QueryDatasets.SESSIONS =>
      exists org,
        has_organization_id extra_fields org
        /\ get_entity_extra_params self = {[ "organization" := PyInt org ]}
  | QueryDatasets.METRICS =>
      exists org,
        has_organization_id extra_fields org
        /\ get_entity_extra_params self
           = {[ "organization" := PyInt org;
                "granularity" := PyInt (granularity_of_window time_window) ]}
  end.
Proof.
  unfold get_entity_subscription_for_dataset.
  destruct dataset.
  - cbn. now intros [= <-].
  - cbn. now intros [= <-].
  - destruct (map_sessions_cases aggregate) as [[_ ->] | [_ ->]]; [| discriminate].
    cbn [rbind ENTITY_KEY_TO_ENTITY_SUBSCRIPTION].
    destruct (organization_id_cases extra_fields) as [Hno | [org Ho]].
    + unfold SessionsEntitySubscription.__init__.
      now rewrite (lacks_org_id_true _ Hno).
    + rewrite (sessions_init_org _ _ _ _ Ho). cbn. intros [= <-]. eauto.
  - destruct (map_metrics_cases aggregate) as [[_ ->] | [[_ ->] | [_ ->]]];
      [| | discriminate]; cbn [rbind ENTITY_KEY_TO_ENTITY_SUBSCRIPTION].
    + destruct (metrics_init_cases
                  BaseMetricsEntitySubscription.MetricsCountersEntitySubscription
                  aggregate time_window extra_fields)
        as [[_ ->] | [(org & _ & _ & ->) | (org & status & Ho & _ & ->)]];
        [discriminate | discriminate |].
      cbn [rbind]. intros [= <-]. exists org. split; [exact Ho |].
      cbn [get_entity_extra_params].
      unfold BaseMetricsEntitySubscription.get_entity_extra_params.
      now rewrite get_granularity_window.
    + destruct (metrics_init_cases
                  BaseMetricsEntitySubscription.MetricsSetsEntitySubscription
                  aggregate time_window extra_fields)
        as [[_ ->] | [(org & _ & _ & ->) | (org & status & Ho & _ & ->)]];
        [discriminate | discriminate |].
      cbn [rbind]. intros [= <-]. exists org. split; [exact Ho |].
      cbn [get_entity_extra_params].
      unfold BaseMetricsEntitySubscription.get_entity_extra_params.
      now rewrite get_granularity_window.
Qed.

End ExtraParams.

Lemma factory_extra_params_witness :
  exists org,
    has_organization_id
      (Some {| EntitySpecificParams.org_id := Some 1;
               EntitySpecificParams.event_types := None |}) org
    /\ get_entity_extra_params (Metrics (sample_metrics 14401))
       = {[ "organization" := PyInt org;
            "granularity" := PyInt (granularity_of_window 14401) ]}.
Proof.
  apply (@factory_extra_params sample_collaborators QueryDatasets.METRICS
           "percentage(sessions_crashed, sessions)" 14401
           (Some {| EntitySpecificParams.org_id := Some 1;
                    EntitySpecificParams.event_types := None |})
           (Metrics (sample_metrics 14401))).
  reflexivity.
Defined.

(** ** Query builders *)

Lemma occurs_at_cons_inv t a s j :
  occurs_at t (String a s) j ->
  (j = 0%nat /\ exists post, String a s = (t ++ post)%string)
  \/ (exists j', j = S j' /\ occurs_at t s j').
Proof.
  intros ([| b pre] & post & Hs & <-).
  - left. split; [reflexivity |]. now exists post.
  - right. simpl in Hs. injection Hs as _ ->.
    exists (String.length pre). split; [reflexivity |]. now exists pre, post.
Qed.

Lemma either_prefix_denominator t post :
  denominator t -> exists r, either_prefix "sessions" "users" (t ++ post) = Some (t, r).
Proof.
  intros [-> | ->]; exists post.
  - apply either_prefix_l.
  - apply either_prefix_r. intros ?; discriminate.
Qed.

Lemma first_token_Some s tok :
  first_token s = Some tok -> denominator tok /\ first_occurrence tok s.
Proof.
  induction s as [| a s IH]; cbn [first_token].
  - discriminate.
  - destruct (either_prefix "sessions" "users" (String a s)) as [[g r] |] eqn:E.
    + intros [= ->]. apply either_prefix_Some in E as [Hd E].
      split; [exact Hd |]. exists 0%nat. split.
      * exists EmptyString, r. split; [exact E | reflexivity].
      * intros; lia.
    + intros Hs. destruct (IH Hs) as (Hd & i & Hocc & Hmin).
      split; [exact Hd |]. exists (S i). split; [now apply occurs_at_tail |].
      intros t j Ht [[-> (post & Hpost)] | (j' & -> & Hj')]%occurs_at_cons_inv.
      * destruct (either_prefix_denominator t post Ht) as [r' Hr'].
        rewrite <- Hpost in Hr'. congruence.
      * specialize (Hmin t j' Ht Hj'). lia.
Qed.

Lemma first_token_None s :
  first_token s = None <-> forall t j, denominator t -> ~ occurs_at t s j.
Proof.
  split.
  - induction s as [| a s IH]; cbn [first_token].
    + intros _ t j Ht ([| b pre] & post & Hs & _); [| discriminate Hs].
      destruct Ht as [-> | ->]; discriminate Hs.
    + destruct (either_prefix "sessions" "users" (String a s)) as [[g r] |] eqn:E;
        [discriminate |].
      intros Hs t j Ht [[-> (post & Hpost)] | (j' & -> & Hj')]%occurs_at_cons_inv.
      * destruct (either_prefix_denominator t post Ht) as [r' Hr'].
        rewrite <- Hpost in Hr'. congruence.
      * now apply (IH Hs t j' Ht).
  - intros Hno. destruct (first_token s) as [tok |] eqn:E; [| reflexivity].
    apply first_token_Some in E as (Hd & i & Hocc & _).
    now apply Hno in Hocc.
Qed.

Section SessionsBuilder.
Context `{Collaborators}.

Lemma sessions_build_first_token self query project_ids environment params :
  SessionsEntitySubscription.build_query_builder self query project_ids environment params
  = match first_token (SessionsEntitySubscription.aggregate self) with
    | None => Raise UnsupportedQuerySubscription
    | Some tok =>
        Ok {| qb_dataset := QueryDatasets.SESSIONS;
              qb_query := query;
              qb_selected_columns :=
                [SessionsEntitySubscription.aggregate self;
                 ("identity(" ++ tok ++ ") AS "
                  ++ CRASH_RATE_ALERT_SESSION_COUNT_ALIAS)%string];
              qb_params :=
                match environment with
                | Some env =>
                    <["environment" := EnvironmentName (Environment.name env)]>
                      (<["project_id" := ProjectIds project_ids]> (default ∅ params))
                | None => <["project_id" := ProjectIds project_ids]> (default ∅ params)
                end;
              qb_functions_acl := ["identity"];
              qb_skip_time_conditions := true;
              qb_blocked_keys := ALERT_BLOCKED_FIELDS |}
    end.
Proof.
  unfold SessionsEntitySubscription.build_query_builder, Re.re_search.
  rewrite <- search_from_first_token with (pos := 0%nat).
  destruct (Re.search_from _ 0 _) as [m |]; [| reflexivity].
  now destruct params.
Qed.

(** X7: the test that [build_query_builder] of the sessions class makes
    before it constructs the builder.  When neither [sessions] nor
    [users] occurs anywhere in the aggregate the method raises
    [UnsupportedQuerySubscription], and no builder is constructed.  When
    one of them occurs the test passes, and the columns handed to the
    constructor are the aggregate and the total-count column of the first
    occurrence: [identity(sessions)] is handed exactly when the first
    occurrence of either token is [sessions], and [identity(users)]
    exactly when it is [users].  What the constructor does with its
    arguments is outside the module and is not stated. *)
Theorem sessions_builder_outcomes self query project_ids environment params :
  let built :=
    SessionsEntitySubscription.build_query_builder self query project_ids
      environment params in
  let aggregate := SessionsEntitySubscription.aggregate self in
  let identity tok :=
    ("identity(" ++ tok ++ ") AS " ++ CRASH_RATE_ALERT_SESSION_COUNT_ALIAS)%string in
  ((forall t j, denominator t -> ~ occurs_at t aggregate j) ->
     built = Raise UnsupportedQuerySubscription)
  /\ (forall tok, denominator tok ->
        (selected_columns built = Ok [aggregate; identity tok]
         <-> first_occurrence tok aggregate))
  /\ (forall t j, denominator t -> occurs_at t aggregate j ->
        exists tok,
          denominator tok /\ first_occurrence tok aggregate
          /\ selected_columns built = Ok [aggregate; identity tok]).
Proof.
  cbv zeta. rewrite sessions_build_first_token.
  destruct (first_token (SessionsEntitySubscription.aggregate self)) as [tok' |] eqn:E.
  - split; [| split].
    + intros Hno%first_token_None. congruence.
    + intros tok Hd. cbn. split.
      * intros [= Heq]. destruct (first_token_Some _ _ E) as [Hd' Hfirst].
        assert (tok' = tok) as <-; [| exact Hfirst].
        destruct Hd as [-> | ->], Hd' as [-> | ->]; try reflexivity;
          discriminate Heq.
      * intros Hfirst. pose proof (first_occurrence_first_token _ _ Hd Hfirst).
        congruence.
    + intros _ _ _ _. destruct (first_token_Some _ _ E) as [Hd' Hfirst].
      exists tok'. split; [exact Hd' |]. split; [exact Hfirst | reflexivity].
  - split; [| split].
    + reflexivity.
    + intros tok Hd. cbn. split; [discriminate |].
      intros Hfirst. pose proof (first_occurrence_first_token _ _ Hd Hfirst).
      congruence.
    + intros t j Ht Hocc. now apply (proj1 (first_token_None _) E t j Ht) in Hocc.
Qed.

End SessionsBuilder.

Lemma sessions_builder_outcomes_witness :
  @SessionsEntitySubscription.build_query_builder sample_collaborators
    (sample_sessions "count()") EmptyString [1] None None
  = Raise UnsupportedQuerySubscription.
Proof.
  apply (proj1 (@sessions_builder_outcomes sample_collaborators
                  (sample_sessions "count()") EmptyString [1] None None)).
  intros t j Ht (pre & post & Hs & _). simpl in Hs.
  destruct Ht as [-> | ->];
    do 7 (destruct pre as [| ? pre]; [discriminate Hs | injection Hs as _ Hs]);
    destruct pre; discriminate Hs.
Defined.

Lemma first_token_skip a s :
  a <> "s"%char -> a <> "u"%char -> first_token (String a s) = first_token s.
Proof.
  intros Hs Hu. cbn [first_token]. unfold either_prefix. cbn [Re.strip_prefix].
  destruct (Ascii.eqb_spec "s" a) as [<- | _]; [contradiction |].
  destruct (Ascii.eqb_spec "u" a) as [<- | _]; [contradiction |].
  reflexivity.
Qed.

Lemma first_token_spaces n s : first_token (spaces n ++ s) = first_token s.
Proof.
  unfold spaces. induction n as [| n IH]; [reflexivity |].
  cbn [chars]. change (String " " (chars " " n) ++ s)%string
    with (String " " (chars " " n ++ s)).
  rewrite first_token_skip by discriminate. exact IH.
Qed.

Lemma first_token_crash_rate_shape g1 g2 s :
  numerator g1 -> crash_rate_shape g1 g2 s ->
  first_token s = Some (if decide (g1 = "sessions_crashed") then "sessions" else "users").
Proof.
  intros Hn (n1 & n2 & n3 & n4 & rest & ->).
  change ("percentage(" ++ ?r)%string
    with (String "p" (String "e" (String "r" (String "c" (String "e" (String "n"
            (String "t" (String "a" (String "g" (String "e" (String "(" r))))))))))).
  rewrite !first_token_skip by discriminate.
  rewrite first_token_spaces.
  destruct Hn as [-> | ->]; reflexivity.
Qed.

Section SessionsBuilderAccepts.
Context `{Collaborators}.

(** X8: an aggregate that the classifier accepts for the sessions
    dataset passes the test that [build_query_builder] makes before it
    constructs the builder: one of the two tokens occurs in it, and a
    total-count column is handed to the constructor.  That column follows
    the numerator of the aggregate, whatever its second argument is:
    [identity(sessions)] for [sessions_crashed], [identity(users)] for
    [users_crashed].  What the constructor does with its arguments is
    outside the module and is not stated. *)
Theorem sessions_builder_accepts self query project_ids environment params :
  let built :=
    SessionsEntitySubscription.build_query_builder self query project_ids
      environment params in
  let aggregate := SessionsEntitySubscription.aggregate self in
  let identity tok :=
    ("identity(" ++ tok ++ ") AS " ++ CRASH_RATE_ALERT_SESSION_COUNT_ALIAS)%string in
  (map_aggregate_to_entity_key QueryDatasets.SESSIONS aggregate = Ok EntityKey.Sessions ->
   exists tok,
     denominator tok /\ first_occurrence tok aggregate
     /\ selected_columns built = Ok [aggregate; identity tok])
  /\ (forall g2, crash_rate_shape "sessions_crashed" g2 aggregate ->
        selected_columns built = Ok [aggregate; identity "sessions"])
  /\ (forall g2, crash_rate_shape "users_crashed" g2 aggregate ->
        selected_columns built = Ok [aggregate; identity "users"]).
Proof.
  cbv zeta. rewrite sessions_build_first_token. split; [| split].
  - rewrite map_sessions_parse.
    destruct (crash_rate_parse _) as [[[[pos rest] g1] g2] |] eqn:Hp; [| discriminate].
    intros _. destruct (crash_rate_parse_shape _ _ _ _ _ Hp) as (Hn & _ & Hs).
    pose proof (first_token_crash_rate_shape _ _ _ Hn Hs) as Htok.
    destruct (first_token_Some _ _ Htok) as [Hd Hfirst].
    rewrite Htok. eauto.
  - intros g2 Hs.
    rewrite (first_token_crash_rate_shape "sessions_crashed" g2 _ (or_introl eq_refl) Hs).
    reflexivity.
  - intros g2 Hs.
    rewrite (first_token_crash_rate_shape "users_crashed" g2 _ (or_intror eq_refl) Hs).
    reflexivity.
Qed.

(** X9: a sessions query builder that is built passes the query on as it
    is, allows the function [identity], blocks the alert fields, and gets
    the caller's [params] with [project_id] overwritten by the project ids
    and [environment] set to the name of the environment, if there is
    one. *)
Theorem sessions_builder_arguments self query project_ids environment params qb :
  SessionsEntitySubscription.build_query_builder self query project_ids environment params
  = Ok qb ->
  qb_query qb = query
  /\ qb_functions_acl qb = ["identity"]
  /\ qb_blocked_keys qb = ALERT_BLOCKED_FIELDS
  /\ params_passed (qb_params qb) params project_ids environment.
Proof.
  rewrite sessions_build_first_token.
  destruct (first_token _) as [tok |]; [| discriminate].
  intros [= <-]. cbn. repeat split.
  - destruct environment as [env |].
    + now rewrite lookup_insert_ne, lookup_insert_eq by discriminate.
    + apply lookup_insert_eq.
  - intros env ->. apply lookup_insert_eq.
  - intros key Hp He. destruct environment as [env |].
    + destruct He as [He | [=]]. now rewrite !lookup_insert_ne by congruence.
    + now rewrite lookup_insert_ne by congruence.
Qed.

End SessionsBuilderAccepts.

Lemma sessions_builder_accepts_witness :
  selected_columns
    (@SessionsEntitySubscription.build_query_builder sample_collaborators
       (sample_sessions "percentage(  sessions_crashed ,users)") EmptyString [1] None None)
  = Ok ["percentage(  sessions_crashed ,users)"; "identity(sessions) AS _total_count"].
Proof.
  apply (proj1 (proj2 (@sessions_builder_accepts sample_collaborators
                         (sample_sessions "percentage(  sessions_crashed ,users)")
                         EmptyString [1] None None)) "users").
  exists 2%nat, 1%nat, 0%nat, 0%nat, EmptyString. reflexivity.
Defined.

Lemma sessions_builder_arguments_witness :
  params_passed
    (<["project_id" := ProjectIds [7]]> ({[ "limit" := Param (PyInt 5) ]}))
    (Some {[ "limit" := Param (PyInt 5); "project_id" := ProjectIds [] ]}) [7] None.
Proof.
  refine (proj2 (proj2 (proj2
    (@sessions_builder_arguments sample_collaborators
       (sample_sessions "percentage(users_crashed, users)") "release:1" [7] None
       (Some {[ "limit" := Param (PyInt 5); "project_id" := ProjectIds [] ]})
       {| qb_dataset := QueryDatasets.SESSIONS; qb_query := "release:1";
          qb_selected_columns :=
            ["percentage(users_crashed, users)"; "identity(users) AS _total_count"];
          qb_params := <["project_id" := ProjectIds [7]]> ({[ "limit" := Param (PyInt 5) ]});
          qb_functions_acl := ["identity"]; qb_skip_time_conditions := true;
          qb_blocked_keys := ALERT_BLOCKED_FIELDS |} _)))).
  vm_compute. reflexivity.
Defined.

Lemma event_type_conditions_nonempty (e : SnubaQueryEventType.t) ets :
  exists r,
    String.concat " OR "
      (map (fun event_type =>
              "event.type:" ++ lower (SnubaQueryEventType.name event_type))%string
           (e :: ets))
    = String "e" r.
Proof. destruct ets; cbn; eauto. Qed.

(** X10: the query an events or transactions subscription builds.  For
    the transactions class the query reaches the builder unchanged,
    whatever the event types of the subscription are.  For the events
    class it is never empty: it is an event-type clause, which is not
    empty, alone when the caller's query is empty and as
    [(<clause>) AND (<query>)] otherwise; the clause is [event.type:error]
    when the subscription has no event types.  The only selected column is
    the aggregate, and [params] are passed as for the sessions class. *)
Theorem events_builder_arguments self query project_ids environment params :
  let qb :=
    BaseEventsAndTransactionEntitySubscription.build_query_builder self query
      project_ids environment params in
  let event_types := BaseEventsAndTransactionEntitySubscription.event_types self in
  (BaseEventsAndTransactionEntitySubscription.cls self
   = BaseEventsAndTransactionEntitySubscription.TransactionsEntitySubscription ->
   BaseEventsAndTransactionEntitySubscription.eqb_query qb = query)
  /\ (BaseEventsAndTransactionEntitySubscription.cls self
      = BaseEventsAndTransactionEntitySubscription.EventsEntitySubscription ->
      exists clause,
        clause <> EmptyString
        /\ (event_types = None \/ event_types = Some [] -> clause = "event.type:error")
        /\ BaseEventsAndTransactionEntitySubscription.eqb_query qb
           = (if decide (query = EmptyString) then clause
              else "(" ++ clause ++ ") AND (" ++ query ++ ")")%string
        /\ BaseEventsAndTransactionEntitySubscription.eqb_query qb <> EmptyString)
  /\ BaseEventsAndTransactionEntitySubscription.eqb_selected_columns qb
     = [BaseEventsAndTransactionEntitySubscription.aggregate self]
  /\ params_passed (BaseEventsAndTransactionEntitySubscription.eqb_params qb)
       params project_ids environment.
Proof.
  cbv zeta. unfold BaseEventsAndTransactionEntitySubscription.build_query_builder.
  cbn [BaseEventsAndTransactionEntitySubscription.eqb_query
       BaseEventsAndTransactionEntitySubscription.eqb_selected_columns
       BaseEventsAndTransactionEntitySubscription.eqb_params].
  split; [| split; [| split; [reflexivity |]]].
  - intros ->. reflexivity.
  - intros ->. cbn [BaseEventsAndTransactionEntitySubscription.dataset].
    unfold apply_dataset_query_conditions. cbn [negb andb].
    rewrite bool_decide_eq_false_2 by discriminate. rewrite nonempty_decide.
    destruct (BaseEventsAndTransactionEntitySubscription.event_types self)
      as [[| e ets] |].
    + exists "event.type:error". cbn [DATASET_CONDITIONS].
      split; [discriminate |]. split; [reflexivity |].
      destruct (decide (query = EmptyString)); split; try reflexivity; discriminate.
    + destruct (event_type_conditions_nonempty e ets) as [r Hr].
      set (clause := String.concat " OR " _) in *. exists clause.
      split; [rewrite Hr; discriminate |].
      split; [intros [[=] | [=]] |].
      destruct (decide (query = EmptyString)); split; try reflexivity;
        [rewrite Hr |]; discriminate.
    + exists "event.type:error". cbn [DATASET_CONDITIONS].
      split; [discriminate |]. split; [reflexivity |].
      destruct (decide (query = EmptyString)); split; try reflexivity; discriminate.
  - repeat split.
    + destruct environment as [env |].
      * now rewrite lookup_insert_ne, lookup_insert_eq by discriminate.
      * apply lookup_insert_eq.
    + intros env ->. apply lookup_insert_eq.
    + intros key Hp He. destruct environment as [env |].
      * destruct He as [He | [=]]. destruct params; now rewrite !lookup_insert_ne by congruence.
      * destruct params; now rewrite lookup_insert_ne by congruence.
Qed.

Lemma events_builder_arguments_witness :
  BaseEventsAndTransactionEntitySubscription.eqb_query
    (BaseEventsAndTransactionEntitySubscription.build_query_builder
       {| BaseEventsAndTransactionEntitySubscription.cls :=
            BaseEventsAndTransactionEntitySubscription.TransactionsEntitySubscription;
          BaseEventsAndTransactionEntitySubscription.time_col := "finish_ts";
          BaseEventsAndTransactionEntitySubscription.aggregate := "p95()";
          BaseEventsAndTransactionEntitySubscription.event_types :=
            Some [ {| SnubaQueryEventType.name := "TRANSACTION" |} ] |}
       "release:1.0" [1] None None)
  = "release:1.0".
Proof.
  apply (proj1 (events_builder_arguments
                  {| BaseEventsAndTransactionEntitySubscription.cls :=
                       BaseEventsAndTransactionEntitySubscription.TransactionsEntitySubscription;
                     BaseEventsAndTransactionEntitySubscription.time_col := "finish_ts";
                     BaseEventsAndTransactionEntitySubscription.aggregate := "p95()";
                     BaseEventsAndTransactionEntitySubscription.event_types :=
                       Some [ {| SnubaQueryEventType.name := "TRANSACTION" |} ] |}
                  "release:1.0" [1] None None)).
  reflexivity.
Defined.

(** ** Result normalisation: failures, fallbacks and effects *)

Lemma last_value_filter (label : string) (lvs : list (string * value)) :
  counted_label label = true ->
  last_value label (filter (fun lv => counted_label lv.1 = true) lvs)
  = last_value label lvs.
Proof.
  intros Hl. induction lvs as [| [l v] lvs IH]; [reflexivity |].
  rewrite filter_cons. cbn [fst last_value]. destruct (decide (counted_label l = true)) as [Hc | Hc].
  - cbn [last_value]. now rewrite IH.
  - rewrite IH. destruct (last_value label lvs); [reflexivity |].
    rewrite decide_False; [reflexivity | congruence].
Qed.

Lemma last_value_absent (label : string) (lvs : list (string * value)) :
  Forall (fun lv => lv.1 <> label) lvs -> last_value label lvs = None.
Proof.
  induction 1 as [| [l v] lvs Hne _ IH]; [reflexivity |].
  cbn [last_value]. rewrite IH. now rewrite decide_False.
Qed.

Section Effects.
Context `{Collaborators}.

Lemma translated_app_labelled st session_status value_col_name pre lvs rest acc :
  Forall2 (labelled st session_status value_col_name) pre lvs ->
  translated session_status value_col_name (rows_of st (pre ++ rest)) acc
  = translated session_status value_col_name (rows_of st rest)
      (foldl (fun m lv => <[lv.1 := lv.2]> m) acc lvs).
Proof.
  intros Hl. revert acc.
  induction Hl as [| l [label v] pre lvs (d & idx & Hd & Hidx & Hres & Hne & Hv) _ IH];
    intros acc; [reflexivity |].
  cbn [app rows_of map translated foldl fst snd] in *.
  rewrite Hd, Hidx, Hres, Hv.
  destruct label as [| a label]; [contradiction |].
  apply IH.
Qed.

Lemma counts_v1_labelled st org alias session_status data lvs :
  resolve_tag_key org "session.status" = Ok session_status ->
  Forall2 (labelled st session_status (alias_or alias "value")) data lvs ->
  counts_v1 (rows_of st data) org alias
  = (Ok (default (PyInt 0) (last_value "init" lvs),
         default (PyInt 0) (last_value "crashed" lvs)), []).
Proof.
  intros Hkey Hl. unfold counts_v1. rewrite Hkey. cbn [rbind].
  rewrite (translated_labelled _ _ _ _ _ _ Hl). cbn [rbind].
  rewrite !foldl_insert_lookup, !lookup_empty.
  now destruct (last_value "init" lvs), (last_value "crashed" lvs).
Qed.

Lemma metrics_outcome_v1 rows org alias total crashed evs :
  format_v2 rows = Ok false ->
  counts_v1 rows org alias = (Ok (total, crashed), evs) ->
  PyNum.eq_zero total = true ->
  metrics_outcome rows org alias
  = (Ok PyNone, (evs ++ [NO_SESSION_DATA_METRICS; FORMAT "v1"])%list).
Proof.
  intros Hf Hc Hz. unfold metrics_outcome, rate_of_counts. now rewrite Hf, Hc, Hz.
Qed.

(** X11: the fallback for a tag that is not indexed.  On a batch that is
    not read as format v2, when the tag key [session.status] is not
    indexed for the organization, or when some row (after rows that
    resolve) has a tag value that does not resolve, the batch counts as
    zero sessions whatever its rows hold: the call returns one row with
    [None], and increments the counters "metric index not found" and "no
    session data" before the format counter. *)
Theorem metric_index_not_found_fallback self data alias st :
  let org := BaseMetricsEntitySubscription.org_id self in
  (BaseMetricsEntitySubscription.is_crash_rate_format_v2 data st).1 = Ok false ->
  tag_key_column org "session.status" = None
  \/ (exists session_status pre row post lvs d tag_index,
        tag_key_column org "session.status" = Some session_status
        /\ data = (pre ++ row :: post)%list
        /\ Forall2 (labelled st session_status (alias_or alias "value")) pre lvs
        /\ heap st !! row = Some d
        /\ d !! session_status = Some tag_index
        /\ str_truthy (reverse_resolve_tag_value tag_index) = false) ->
  aggregate_query_results (Metrics self) data alias st
  = (Ok [length (heap st)],
     {| heap := heap st ++ [{[ alias_or alias CRASH_RATE_ALERT_AGGREGATE_ALIAS := PyNone ]}];
        telemetry :=
          telemetry st
          ++ [METRIC_INDEX_NOT_FOUND; NO_SESSION_DATA_METRICS; FORMAT "v1"] |}).
Proof.
  cbv zeta. rewrite is_crash_rate_format_v2_eq. cbn [fst]. intros Hf Hcase.
  rewrite metrics_aggregate_outcome.
  assert (Hc : counts_v1 (rows_of st data) (BaseMetricsEntitySubscription.org_id self) alias
               = (Ok (PyInt 0, PyInt 0), [METRIC_INDEX_NOT_FOUND])).
  { unfold counts_v1, resolve_tag_key.
    destruct Hcase as [-> | (ss & pre & row & post & lvs & d & idx
                             & -> & -> & Hl & Hrow & Hidx & Hres)].
    - reflexivity.
    - cbn [rbind]. rewrite (translated_app_labelled _ _ _ _ _ _ _ Hl).
      cbn [rows_of map translated]. rewrite Hrow, Hidx.
      now destruct (reverse_resolve_tag_value idx) as [[| a label] |]. }
  now rewrite (metrics_outcome_v1 _ _ _ _ _ _ Hf Hc eq_refl).
Qed.

End Effects.

Lemma metric_index_not_found_fallback_witness :
  let rows := [v1_row 1 10; v1_row 9 3; v1_row 2 1] in
  @aggregate_query_results sample_collaborators (Metrics (sample_metrics 3600))
    [0; 1; 2]%nat None (store_of rows)
  = (Ok [3%nat],
     {| heap := rows ++ [{[ "crash_rate_alert_aggregate_value" := PyNone ]}];
        telemetry := [METRIC_INDEX_NOT_FOUND; NO_SESSION_DATA_METRICS; FORMAT "v1"] |}).
Proof.
  cbv zeta.
  apply (@metric_index_not_found_fallback sample_collaborators (sample_metrics 3600)
           [0; 1; 2]%nat None (store_of [v1_row 1 10; v1_row 9 3; v1_row 2 1])).
  - reflexivity.
  - right. exists "tags[7]", [0%nat], 1%nat, [2%nat], [("init", PyInt 10)],
      (v1_row 9 3), (PyInt 9).
    split; [reflexivity |]. split; [reflexivity |]. split.
    + repeat constructor.
      eapply labelled_v1_row; [reflexivity | reflexivity | discriminate].
    + split; [reflexivity |]. split; reflexivity.
Defined.

Section Failures.
Context `{Collaborators}.

Lemma after_metrics_raise st e alias : after_metrics st (Raise e, []) alias = (Raise e, st).
Proof. destruct st as [h t]. cbn. now rewrite app_nil_r. Qed.

Lemma sessions_aggregate_no_column self row alias st d :
  heap st !! row = Some d ->
  d !! alias_or alias CRASH_RATE_ALERT_AGGREGATE_ALIAS = None ->
  SessionsEntitySubscription.aggregate_query_results self [row] alias st
  = (Raise KeyError, st).
Proof.
  intros Hrow Hv. unfold SessionsEntitySubscription.aggregate_query_results.
  unfold mbind at 1. cbn [length Nat.eqb assert mret].
  unfold mbind at 1. now rewrite getitem_eq, Hrow, Hv.
Qed.

Lemma sessions_aggregate_dangling self row alias st :
  heap st !! row = None ->
  SessionsEntitySubscription.aggregate_query_results self [row] alias st
  = (Raise DanglingReference, st).
Proof.
  intros Hrow. unfold SessionsEntitySubscription.aggregate_query_results.
  unfold mbind at 1. cbn [length Nat.eqb assert mret].
  unfold mbind at 1. now rewrite getitem_eq, Hrow.
Qed.

Lemma sessions_aggregate_length self data alias st :
  length data <> 1%nat ->
  SessionsEntitySubscription.aggregate_query_results self data alias st
  = (Raise AssertionError, st).
Proof.
  intros Hlen. unfold SessionsEntitySubscription.aggregate_query_results.
  unfold mbind at 1.
  destruct (Nat.eqb_spec (length data) 1) as [Heq | Hne]; [contradiction |].
  reflexivity.
Qed.

(** X12: a column that is missing raises [KeyError] and leaves the store
    and the telemetry as they were: the canonical column of the row of a
    sessions batch; the [count] of a metrics row that has a [crashed]
    field; the tag column of a format-v1 row, and its value column when
    its tag value resolves.  The handler of [MetricIndexNotFound] does not
    catch it. *)
Theorem missing_column_raises data alias st row d :
  let col := alias_or alias CRASH_RATE_ALERT_AGGREGATE_ALIAS in
  heap st !! row = Some d ->
  (forall self, data = [row] -> d !! col = None ->
     aggregate_query_results (Sessions self) data alias st = (Raise KeyError, st))
  /\ (forall self, data = [row] -> is_Some (d !! "crashed") -> d !! "count" = None ->
        aggregate_query_results (Metrics self) data alias st = (Raise KeyError, st))
  /\ (forall self rest session_status,
        data = row :: rest -> d !! "crashed" = None ->
        tag_key_column (BaseMetricsEntitySubscription.org_id self) "session.status"
          = Some session_status ->
        d !! session_status = None
        \/ (exists tag_index,
              d !! session_status = Some tag_index
              /\ str_truthy (reverse_resolve_tag_value tag_index) = true
              /\ d !! alias_or alias "value" = None) ->
        aggregate_query_results (Metrics self) data alias st = (Raise KeyError, st)).
Proof.
  cbv zeta. intros Hrow. split; [| split].
  - intros self -> Hv. now apply sessions_aggregate_no_column with d.
  - intros self -> Hcrashed Hcount. rewrite metrics_aggregate_outcome.
    unfold metrics_outcome. cbn [rows_of map format_v2]. rewrite Hrow.
    rewrite bool_decide_eq_true_2 by assumption.
    cbn [counts_v2 length Nat.eqb]. rewrite Hcount. apply after_metrics_raise.
  - intros self rest ss -> Hcrashed Hkey Hcase. rewrite metrics_aggregate_outcome.
    unfold metrics_outcome. cbn [rows_of map format_v2]. rewrite Hrow, Hcrashed.
    rewrite bool_decide_eq_false_2 by (intros [? [=]]).
    unfold counts_v1, resolve_tag_key. rewrite Hkey. cbn [rbind translated].
    destruct Hcase as [-> | (idx & -> & Hres & Hv)].
    + apply after_metrics_raise.
    + destruct (reverse_resolve_tag_value idx) as [[| a label] |]; try discriminate.
      rewrite Hv. apply after_metrics_raise.
Qed.

End Failures.

Lemma missing_column_raises_witness :
  @aggregate_query_results sample_collaborators (Metrics (sample_metrics 3600))
    [0%nat] None (store_of [ {[ "crashed" := PyInt 5 ]} ])
  = (Raise KeyError, store_of [ {[ "crashed" := PyInt 5 ]} ]).
Proof.
  apply (proj1 (proj2
           (@missing_column_raises sample_collaborators [0%nat] None
              (store_of [ {[ "crashed" := PyInt 5 ]} ]) 0%nat {[ "crashed" := PyInt 5 ]}
              eq_refl)));
    [reflexivity | | reflexivity].
  exists (PyInt 5). reflexivity.
Defined.

Section MetricsEffects.
Context `{Collaborators}.

Lemma counts_v1_events rows org alias r evs :
  counts_v1 rows org alias = (r, evs) ->
  evs = [] \/ (evs = [METRIC_INDEX_NOT_FOUND] /\ r = Ok (PyInt 0, PyInt 0)).
Proof.
  unfold counts_v1.
  destruct (rbind _ _) as [c | []]; intros [= <- <-]; auto.
Qed.

Lemma crash_free_rate_not_None crashed total :
  crash_free_rate crashed total <> Ok PyNone.
Proof. intros [f [=]]%crash_free_rate_Ok. Qed.

(** The outcome of the rows, case by case: a raise emits nothing; a
    return emits the format counter last, and the no-data counter exactly
    when the value is [None]. *)
Lemma metrics_outcome_cases rows org alias :
  (exists e, metrics_outcome rows org alias = (Raise e, []))
  \/ (exists v evs version,
        metrics_outcome rows org alias = (Ok v, (evs ++ [FORMAT version])%list)
        /\ format_v2 rows = Ok (bool_decide (version = "v2"))
        /\ (version = "v2" \/ version = "v1")
        /\ (v = PyNone <-> In NO_SESSION_DATA_METRICS evs)
        /\ (In METRIC_INDEX_NOT_FOUND evs -> v = PyNone /\ version = "v1")).
Proof.
  unfold metrics_outcome.
  destruct (format_v2 rows) as [[|] | e]; [| | left; eauto].
  - destruct (counts_v2 rows) as [[total crashed] | e]; [| left; eauto].
    unfold rate_of_counts. destruct (PyNum.eq_zero total).
    + right. exists PyNone, [NO_SESSION_DATA_METRICS], "v2".
      split; [reflexivity |]. split; [reflexivity |]. split; [now left |].
      split; [split; [intros _; now left | reflexivity] |].
      intros [[=] | []].
    + destruct (crash_free_rate crashed total) as [v | e] eqn:Hr; [| left; eauto].
      right. exists v, [], "v2".
      split; [reflexivity |]. split; [reflexivity |]. split; [now left |].
      split; [split; [| intros []] | intros []].
      intros ->. now apply crash_free_rate_not_None in Hr.
  - destruct (counts_v1 rows org alias) as [[[total crashed] | e] evs1] eqn:Hc.
    + unfold rate_of_counts. destruct (PyNum.eq_zero total) eqn:Hz.
      * right. exists PyNone, (evs1 ++ [NO_SESSION_DATA_METRICS])%list, "v1".
        split; [now rewrite <- app_assoc |]. split; [reflexivity |].
        split; [now right |].
        split; [split; [| reflexivity] | auto].
        intros _. apply in_or_app. right. now left.
      * destruct (counts_v1_events _ _ _ _ _ Hc) as [-> | [-> [= -> ->]]];
          [| discriminate Hz].
        destruct (crash_free_rate crashed total) as [v | e] eqn:Hr; [| left; eauto].
        right. exists v, [], "v1".
        split; [reflexivity |]. split; [reflexivity |]. split; [now right |].
        split; [split; [| intros []] | intros []].
        intros ->. now apply crash_free_rate_not_None in Hr.
    + destruct (counts_v1_events _ _ _ _ _ Hc) as [-> | [_ [=]]]. left. eauto.
Qed.

(** X13: what a call on a metrics subscription does to the store.  When
    it raises, the store and the telemetry are as before the call.  When
    it returns, no row of the store has changed: the result is one new
    row, which holds the canonical column only; the format counter is the
    last counter incremented, with [v2] exactly when the batch was read as
    format v2; the no-data counter is incremented exactly when the value
    is [None], and the counter "metric index not found" only then, and
    only for format v1. *)
Theorem metrics_effects self data alias st :
  let outcome := aggregate_query_results (Metrics self) data alias st in
  let col := alias_or alias CRASH_RATE_ALERT_AGGREGATE_ALIAS in
  (forall e, outcome.1 = Raise e -> outcome.2 = st)
  /\ (forall out, outcome.1 = Ok out ->
        exists v evs version,
          out = [length (heap st)]
          /\ heap outcome.2 = (heap st ++ [{[ col := v ]}])%list
          /\ telemetry outcome.2 = (telemetry st ++ evs ++ [FORMAT version])%list
          /\ (BaseMetricsEntitySubscription.is_crash_rate_format_v2 data st).1
             = Ok (bool_decide (version = "v2"))
          /\ (version = "v2" \/ version = "v1")
          /\ (v = PyNone <-> In NO_SESSION_DATA_METRICS evs)
          /\ (In METRIC_INDEX_NOT_FOUND evs -> v = PyNone /\ version = "v1")).
Proof.
  cbv zeta. rewrite metrics_aggregate_outcome, is_crash_rate_format_v2_eq.
  destruct (metrics_outcome_cases (rows_of st data)
              (BaseMetricsEntitySubscription.org_id self) alias)
    as [[e ->] | (v & evs & version & -> & Hf & Hver & Hnone & Hnf)].
  - rewrite after_metrics_raise. split; [reflexivity | discriminate].
  - split; [discriminate |]. cbn. intros out [= <-].
    exists v, evs, version. auto 10.
Qed.

End MetricsEffects.

Lemma metrics_effects_witness :
  (@aggregate_query_results sample_collaborators (Metrics (sample_metrics 3600))
     [0%nat] None (store_of [ {[ "crashed" := PyInt 5 ]} ])).2
  = store_of [ {[ "crashed" := PyInt 5 ]} ].
Proof.
  apply (proj1 (@metrics_effects sample_collaborators (sample_metrics 3600)
                  [0%nat] None (store_of [ {[ "crashed" := PyInt 5 ]} ])) KeyError).
  reflexivity.
Defined.

Section SessionsEffects.
Context `{Collaborators}.

(** X14: what a call on a sessions subscription does to the store.  When
    it raises, the store and the telemetry are as before the call.  When
    it returns, it returns the list it was given; no row is added; the
    only row that may have changed is the row of the batch, and there
    only the canonical column, so that the other columns of the row (the
    total count among them) are kept; the only counter it can increment
    is the no-data counter, and then the rows are as they were. *)
Theorem sessions_effects self data alias st :
  let outcome := aggregate_query_results (Sessions self) data alias st in
  let col := alias_or alias CRASH_RATE_ALERT_AGGREGATE_ALIAS in
  (forall e, outcome.1 = Raise e -> outcome.2 = st)
  /\ (forall out, outcome.1 = Ok out ->
        out = data
        /\ length (heap outcome.2) = length (heap st)
        /\ (forall l, data <> [l] -> heap outcome.2 !! l = heap st !! l)
        /\ (forall l key, key <> col ->
              heap outcome.2 !! l ≫= (fun d => d !! key)
              = heap st !! l ≫= (fun d => d !! key))
        /\ (telemetry outcome.2 = telemetry st
            \/ telemetry outcome.2 = (telemetry st ++ [NO_SESSION_DATA_SESSIONS])%list
               /\ heap outcome.2 = heap st)).
Proof.
  cbv zeta. cbn [aggregate_query_results].
  destruct (decide (length data = 1%nat)) as [Hlen | Hlen].
  2: { rewrite (sessions_aggregate_length self data alias st Hlen).
       split; [reflexivity | discriminate]. }
  destruct data as [| row [| row' rest]]; try discriminate Hlen.
  destruct (heap st !! row) as [d |] eqn:Hrow.
  2: { rewrite (sessions_aggregate_dangling self row alias st Hrow).
       split; [reflexivity | discriminate]. }
  destruct (d !! alias_or alias CRASH_RATE_ALERT_AGGREGATE_ALIAS) as [v |] eqn:Hv.
  2: { rewrite (sessions_aggregate_no_column self row alias st d Hrow Hv).
       split; [reflexivity | discriminate]. }
  rewrite (sessions_aggregate_row self row alias st d v Hrow Hv).
  destruct (is_none v).
  - split; [discriminate |]. cbn [fst snd heap telemetry]. intros out [= <-]. auto 8.
  - destruct (crash_free_of_rate v) as [rounded | e]; [| split; [reflexivity | discriminate]].
    split; [discriminate |]. cbn [fst snd heap telemetry]. intros out [= <-].
    split; [reflexivity |]. split; [apply length_insert |].
    split; [| split; [| now left]].
    + intros l Hl. apply list_lookup_insert_ne. congruence.
    + intros l key Hkey. destruct (decide (l = row)) as [-> | Hne].
      * rewrite list_lookup_insert_eq by (eapply lookup_lt_Some, Hrow).
        unfold loc in *. rewrite Hrow. cbn. now apply lookup_insert_ne.
      * now rewrite list_lookup_insert_ne by congruence.
Qed.

End SessionsEffects.

Lemma sessions_effects_witness :
  let st := store_of [ {[ "crash_rate_alert_aggregate_value" := PyInt 0;
                          "_total_count" := PyInt 40 ]} ] in
  (@aggregate_query_results sample_collaborators (Sessions (sample_sessions "x"))
     [0%nat] None st).1 = Ok [0%nat]
  /\ heap (@aggregate_query_results sample_collaborators (Sessions (sample_sessions "x"))
             [0%nat] None st).2 !! 0%nat ≫= (fun d => d !! "_total_count")
     = Some (PyInt 40).
Proof.
  cbv zeta. split; [reflexivity |].
  pose proof (proj2 (@sessions_effects sample_collaborators (sample_sessions "x")
                       [0%nat] None
                       (store_of [ {[ "crash_rate_alert_aggregate_value" := PyInt 0;
                                      "_total_count" := PyInt 40 ]} ]))
                [0%nat] eq_refl) as (_ & _ & _ & Hkeep & _).
  rewrite (Hkeep 0%nat "_total_count"); [reflexivity | discriminate].
Defined.

(** ** The rate of a row of numbers *)

Lemma int_truediv_cases crashed total :
  total <> 0 ->
  (exists q, PyNum.truediv (PyInt crashed) (PyInt total) = Ok (PyFloat q))
  \/ PyNum.truediv (PyInt crashed) (PyInt total) = Raise OverflowError.
Proof.
  intros Hz. cbn [PyNum.truediv]. unfold PyNum.int_truediv.
  destruct total as [| t | t]; [contradiction | |];
    (destruct crashed as [| c | c]; [eauto | |]);
    (destruct (PyNum.ratio_to_sf _ _ _); eauto).
Qed.

Section Numbers.
Context `{Collaborators}.

(** X15: the rate of a single format-v2 row of numbers.  With a [count]
    and a [crashed] that are floats the call always returns: [None] for
    a count equal to zero, and otherwise the binary64 value of
    [(1 - crashed / count) * 100] rounded to 3 decimals.  With integers
    it returns [None] for the count 0 and otherwise the value of
    [(1 - q) * 100] rounded to 3 decimals, [q] being the quotient of the
    two, unless the quotient is too large for a float, which raises
    [OverflowError]; it never divides by zero. *)
Theorem metrics_v2_numbers self alias st row d :
  let outcome := aggregate_query_results (Metrics self) [row] alias st in
  let col := alias_or alias CRASH_RATE_ALERT_AGGREGATE_ALIAS in
  heap st !! row = Some d ->
  (forall total crashed,
     d !! "count" = Some (PyFloat total) -> d !! "crashed" = Some (PyFloat crashed) ->
     (PrimFloat.eqb total 0 = true /\ returns_row outcome st {[ col := PyNone ]})
     \/ (PrimFloat.eqb total 0 = false
         /\ exists r,
              rounded_to 3 ((1 - crashed / total) * 100) r
              /\ returns_row outcome st {[ col := PyFloat r ]}))
  /\ (forall total crashed,
        d !! "count" = Some (PyInt total) -> d !! "crashed" = Some (PyInt crashed) ->
        (total = 0 /\ returns_row outcome st {[ col := PyNone ]})
        \/ (total <> 0
            /\ ((exists q r,
                    PyNum.truediv (PyInt crashed) (PyInt total) = Ok (PyFloat q)
                    /\ rounded_to 3 ((1 - q) * 100) r
                    /\ returns_row outcome st {[ col := PyFloat r ]})
                \/ outcome = (Raise OverflowError, st)))).
Proof.
  cbv zeta. intros Hrow. rewrite metrics_aggregate_outcome.
  cbn [rows_of map]. rewrite Hrow. split.
  - intros total crashed Hcount Hcrashed.
    rewrite (metrics_outcome_v2_row d _ _ _ alias Hcount Hcrashed).
    unfold rate_of_counts. cbn [PyNum.eq_zero].
    destruct (PrimFloat.eqb total 0) eqn:Hz.
    + left. split; [reflexivity | apply after_metrics_returns].
    + right. split; [reflexivity |].
      destruct (crash_free_rate_rounded (PyFloat crashed) (PyFloat total)
                  (crashed / total)) as (r & Hr & ->).
      { cbn [PyNum.truediv]. unfold PyNum.float_truediv. now rewrite Hz. }
      exists r. split; [exact Hr | apply after_metrics_returns].
  - intros total crashed Hcount Hcrashed.
    rewrite (metrics_outcome_v2_row d _ _ _ alias Hcount Hcrashed).
    unfold rate_of_counts. cbn [PyNum.eq_zero].
    destruct (Z.eqb_spec total 0) as [-> | Hz].
    + left. split; [reflexivity | apply after_metrics_returns].
    + right. split; [exact Hz |].
      destruct (int_truediv_cases crashed total Hz) as [[q Hq] | Hover].
      * left. destruct (crash_free_rate_rounded _ _ _ Hq) as (r & Hr & ->).
        exists q, r. split; [exact Hq |]. split; [exact Hr | apply after_metrics_returns].
      * right. unfold crash_free_rate. rewrite Hover. apply after_metrics_raise.
Qed.

End Numbers.

Lemma metrics_v2_numbers_witness :
  let rows : list (gmap string value) := [ {[ "count" := PyFloat 3; "crashed" := PyFloat 1 ]} ] in
  returns_row
    (@aggregate_query_results sample_collaborators (Metrics (sample_metrics 3600))
       [0%nat] None (store_of rows))
    (store_of rows)
    {[ "crash_rate_alert_aggregate_value" := PyFloat 0x1.0aab020c49ba6p+6 ]}.
Proof.
  cbv zeta.
  pose proof (proj1 (@metrics_v2_numbers sample_collaborators (sample_metrics 3600) None
                       (store_of [ {[ "count" := PyFloat 3; "crashed" := PyFloat 1 ]} ])
                       0%nat {[ "count" := PyFloat 3; "crashed" := PyFloat 1 ]} eq_refl))
    as Hfloats.
  destruct (Hfloats 3%float 1%float) as [[Hz _] | (_ & r & Hr & Hret)];
    [reflexivity | reflexivity | discriminate Hz |].
  rewrite (rounded_to_double_round _ _ _ Hr) in Hret.
  vm_compute in Hret. vm_compute. exact Hret.
Defined.

(** ** Format v1: which rows count *)

Section WhichRows.
Context `{Collaborators}.

Lemma translate_counts_labelled st org alias session_status data lvs :
  resolve_tag_key org "session.status" = Ok session_status ->
  Forall2 (labelled st session_status (alias_or alias "value")) data lvs ->
  BaseMetricsEntitySubscription.translate_sessions_tag_keys_and_values data org alias st
  = (Ok (default (PyInt 0) (last_value "init" lvs),
         default (PyInt 0) (last_value "crashed" lvs)), st).
Proof.
  intros Hkey Hl.
  rewrite translate_sessions_counts, (counts_v1_labelled _ _ _ _ _ _ Hkey Hl).
  destruct st as [h t]. cbn. now rewrite app_nil_r.
Qed.

(** X16: a format-v1 batch in which no row has the label [init] has no
    sessions: whatever its other rows hold, rows of label [crashed]
    included, the call returns one row with [None] and increments the
    no-data counter. *)
Theorem v1_without_init self data alias st session_status lvs :
  let org := BaseMetricsEntitySubscription.org_id self in
  (BaseMetricsEntitySubscription.is_crash_rate_format_v2 data st).1 = Ok false ->
  resolve_tag_key org "session.status" = Ok session_status ->
  Forall2 (labelled st session_status (alias_or alias "value")) data lvs ->
  Forall (fun lv => lv.1 <> "init") lvs ->
  aggregate_query_results (Metrics self) data alias st
  = (Ok [length (heap st)],
     {| heap := heap st ++ [{[ alias_or alias CRASH_RATE_ALERT_AGGREGATE_ALIAS := PyNone ]}];
        telemetry := telemetry st ++ [NO_SESSION_DATA_METRICS; FORMAT "v1"] |}).
Proof.
  cbv zeta. rewrite is_crash_rate_format_v2_eq. cbn [fst]. intros Hf Hkey Hl Hinit.
  rewrite metrics_aggregate_outcome.
  pose proof (counts_v1_labelled _ _ _ _ _ _ Hkey Hl) as Hc.
  rewrite (last_value_absent _ _ Hinit) in Hc.
  now rewrite (metrics_outcome_v1 _ _ _ _ _ _ Hf Hc eq_refl).
Qed.

(** X17: the two counts of a format-v1 batch depend only on the rows of
    label [init] or [crashed], in their order: two batches whose rows all
    resolve, and that agree once the rows of other labels are left out,
    have the same counts. *)
Theorem v1_other_labels_ignored org alias st session_status data lvs data' lvs' :
  resolve_tag_key org "session.status" = Ok session_status ->
  Forall2 (labelled st session_status (alias_or alias "value")) data lvs ->
  Forall2 (labelled st session_status (alias_or alias "value")) data' lvs' ->
  filter (fun lv => counted_label lv.1 = true) lvs
  = filter (fun lv => counted_label lv.1 = true) lvs' ->
  BaseMetricsEntitySubscription.translate_sessions_tag_keys_and_values data org alias st
  = BaseMetricsEntitySubscription.translate_sessions_tag_keys_and_values data' org alias st.
Proof.
  intros Hkey Hl Hl' Hsame.
  rewrite (translate_counts_labelled _ _ _ _ _ _ Hkey Hl),
          (translate_counts_labelled _ _ _ _ _ _ Hkey Hl').
  rewrite <- (last_value_filter "init" lvs), <- (last_value_filter "crashed" lvs),
          <- (last_value_filter "init" lvs'), <- (last_value_filter "crashed" lvs')
    by reflexivity.
  now rewrite Hsame.
Qed.

End WhichRows.

Lemma v1_without_init_witness :
  let rows := [v1_row 2 5] in
  @aggregate_query_results sample_collaborators (Metrics (sample_metrics 3600))
    [0%nat] None (store_of rows)
  = (Ok [1%nat],
     {| heap := rows ++ [{[ "crash_rate_alert_aggregate_value" := PyNone ]}];
        telemetry := [NO_SESSION_DATA_METRICS; FORMAT "v1"] |}).
Proof.
  cbv zeta.
  apply (@v1_without_init sample_collaborators (sample_metrics 3600)
           [0%nat] None (store_of [v1_row 2 5]) "tags[7]" [("crashed", PyInt 5)]).
  - reflexivity.
  - reflexivity.
  - repeat constructor.
    eapply labelled_v1_row; [reflexivity | reflexivity | discriminate].
  - repeat constructor. discriminate.
Defined.

Lemma v1_other_labels_ignored_witness :
  let rows := [v1_row 1 10; v1_row 3 4; v1_row 2 1] in
  @BaseMetricsEntitySubscription.translate_sessions_tag_keys_and_values
    sample_collaborators_errored [0; 1; 2]%nat 1 None (store_of rows)
  = @BaseMetricsEntitySubscription.translate_sessions_tag_keys_and_values
      sample_collaborators_errored [0; 2]%nat 1 None (store_of rows).
Proof.
  cbv zeta.
  apply (@v1_other_labels_ignored sample_collaborators_errored 1 None
           (store_of [v1_row 1 10; v1_row 3 4; v1_row 2 1]) "tags[7]"
           [0; 1; 2]%nat [("init", PyInt 10); ("errored", PyInt 4); ("crashed", PyInt 1)]
           [0; 2]%nat [("init", PyInt 10); ("crashed", PyInt 1)]).
  - reflexivity.
  - repeat constructor;
      (eexists (v1_row _ _), (PyInt _);
       repeat split; try reflexivity; discriminate).
  - repeat constructor;
      (eexists (v1_row _ _), (PyInt _);
       repeat split; try reflexivity; discriminate).
  - reflexivity.
Defined.

(** ** Events and transactions through the factory *)

Section EventsFactory.
Context `{Collaborators}.

(** X18: for the events and the transactions datasets the factory
    returns for every aggregate, time window and [extra_fields]: the
    aggregate is not checked and an organization id is not asked for.
    The instance holds the event types of [extra_fields].  The query it
    builds is the caller's query for the transactions dataset, and the
    caller's query under the event-type conditions of the events dataset
    and those event types for the events dataset. *)
Theorem events_factory_total aggregate time_window extra_fields
    query project_ids environment params :
  (exists self,
     get_entity_subscription_for_dataset QueryDatasets.EVENTS aggregate time_window
       extra_fields = Ok (EventsOrTransactions self)
     /\ BaseEventsAndTransactionEntitySubscription.event_types self
        = given_event_types extra_fields
     /\ BaseEventsAndTransactionEntitySubscription.eqb_query
          (BaseEventsAndTransactionEntitySubscription.build_query_builder self query
             project_ids environment params)
        = apply_dataset_query_conditions QueryDatasets.EVENTS query
            (given_event_types extra_fields) false)
  /\ (exists self,
        get_entity_subscription_for_dataset QueryDatasets.TRANSACTIONS aggregate
          time_window extra_fields = Ok (EventsOrTransactions self)
        /\ BaseEventsAndTransactionEntitySubscription.event_types self
           = given_event_types extra_fields
        /\ BaseEventsAndTransactionEntitySubscription.eqb_query
             (BaseEventsAndTransactionEntitySubscription.build_query_builder self query
                project_ids environment params)
           = query).
Proof.
  split; eexists; (split; [reflexivity |]); split;
    try (now destruct extra_fields as [[[o |] [e |]] |]); reflexivity.
Qed.

End EventsFactory.
